(** * cc-helper: the profile store, slugs and the editor flows

    A shallow embedding of the TypeScript sources of the profile manager:

    - [slugify] (lib/profiles.ts) and [toProfileFileKey] (cli, later version);
    - the profile store in its three variants: lib/profiles.ts
      ([Profiles]), the class [LocalProfileStore] of config.ts, and the
      functions inlined in the two versions of the readline CLI
      ([Cli], the later one with file keys, and [CliV1], src/cli.ts);
    - the readline editor flow [configureProvider] of both CLI versions and
      the key handler of the Ink form ui/ProfileEditorView.tsx;
    - the views of the Ink app that read or change the store
      (ui/ConfigureView.tsx, ui/AddProviderForm.tsx, ui/SwitchView.tsx) with
      the handlers of cli.tsx behind them, and [switchProfile] and the
      [current] command of the later CLI.

    Modelling choices, valid for the whole file.

    - JavaScript strings are modelled by [string]; a character is an ASCII
      code unit.  [toLowerCase] maps A-Z to a-z and [trim] removes the six
      ASCII white-space characters; the Unicode parts of both functions are
      outside the model.  Array [sort()] without comparator orders strings by
      code units, which is [String.le].
    - The profiles directory is a finite map from file names to files, or
      absent.  A file is kept as what [fs.readJSONSync] makes of it: a text
      that does not parse, the JSON value [null], or a JSON value whose
      properties [name], [provider] and [env] are either falsy/absent or of
      the type that interface [Profile] declares for them.  File keys are
      single path components, as every key the program builds is (a slug or
      the basename of a directory entry).
    - [async] functions that wait for keys are state machines with one state
      per [await]; the 1.5 s pauses after a message take no key. *)

From Stdlib Require Import Ascii String NArith Bool.
From stdpp Require Import base list strings sorting gmap fin_maps.

(** ** JavaScript strings *)

Abbreviation chars := list_ascii_of_string.
Abbreviation str := string_of_list_ascii.

Definition is_upper (c : ascii) : bool :=
  let n := N_of_ascii c in ((65 <=? n) && (n <=? 90))%N.

(** [a-z0-9], the class negated in [/[^a-z0-9]+/g]. *)
Definition is_lower_alnum (c : ascii) : bool :=
  let n := N_of_ascii c in
  (((97 <=? n) && (n <=? 122)) || ((48 <=? n) && (n <=? 57)))%N.

Definition is_hyphen (c : ascii) : bool := bool_decide (c = "-"%char).

(** White space removed by [String.prototype.trim], ASCII part:
    TAB, LF, VT, FF, CR and space. *)
Definition is_js_space (c : ascii) : bool :=
  let n := N_of_ascii c in (((9 <=? n) && (n <=? 13)) || (n =? 32))%N.

Definition lower_char (c : ascii) : ascii :=
  if is_upper c then ascii_of_N (N_of_ascii c + 32) else c.

Definition toLowerCase (s : string) : string := str (map lower_char (chars s)).

Fixpoint drop_while {A} (f : A → bool) (l : list A) : list A :=
  match l with
  | [] => []
  | x :: l' => if f x then drop_while f l' else l
  end.

(** Removes the longest suffix whose elements all satisfy [f]. *)
Fixpoint drop_while_end {A} (f : A → bool) (l : list A) : list A :=
  match l with
  | [] => []
  | x :: l' =>
      match drop_while_end f l' with
      | [] => if f x then [] else [x]
      | r => x :: r
      end
  end.

Definition trim (s : string) : string :=
  str (drop_while_end is_js_space (drop_while is_js_space (chars s))).

(** [s.endsWith(suffix)] *)
Definition endsWith (s suffix : string) : bool :=
  bool_decide (chars suffix `suffix_of` chars s).

(** JavaScript truthiness of a string: [""] is falsy. *)
Definition truthy (s : string) : bool := negb (String.eqb s "").

(** [a || b] on strings. *)
Definition or_else (a b : string) : string := if truthy a then a else b.

(** [a || b] where [a] may be undefined. *)
Definition opt_or_else (a : option string) (b : string) : string :=
  match a with
  | Some s => or_else s b
  | None => b
  end.

(** ** Slugs *)

(** [.replace(/[^a-z0-9]+/g, '-')]: every maximal run of characters outside
    [a-z0-9] becomes one hyphen.  [in_run] tells that the previous character
    belonged to the run being replaced. *)
Fixpoint replace_non_alnum_runs (in_run : bool) (l : list ascii) : list ascii :=
  match l with
  | [] => []
  | c :: l' =>
      if is_lower_alnum c then c :: replace_non_alnum_runs false l'
      else if in_run then replace_non_alnum_runs true l'
      else "-"%char :: replace_non_alnum_runs true l'
  end.

(** [.replace(/^-+|-+$/g, '')]: the leading and the trailing hyphens go. *)
Definition strip_hyphens (l : list ascii) : list ascii :=
  drop_while_end is_hyphen (drop_while is_hyphen l).

Definition slug_chars (l : list ascii) : list ascii :=
  strip_hyphens (replace_non_alnum_runs false l).

(** lib/profiles.ts, [slugify]. *)
Definition slugify (name : string) : string :=
  or_else (str (slug_chars (chars (toLowerCase name)))) "profile".

(** cli (later version), [toProfileFileKey]: the same with a [trim()] first. *)
Definition toProfileFileKey (name : string) : string :=
  let slug := str (slug_chars (chars (toLowerCase (trim name)))) in
  or_else slug "profile".

(** The shape of a slug: only [a-z0-9] and hyphens, every hyphen strictly
    inside the string and not followed by another hyphen. *)
Definition slug_shaped (s : string) : Prop :=
  s ≠ "" ∧
  Forall (λ c, is_lower_alnum c = true ∨ c = "-"%char) (chars s) ∧
  ∀ i, chars s !! i = Some "-"%char →
       0 < i ∧ S i < length (chars s) ∧ chars s !! S i ≠ Some "-"%char.

(** The same shape, as a recogniser: [prev_hyphen] holds at the start and
    after a hyphen, where an alphanumeric has to follow. *)
Fixpoint slug_from (prev_hyphen : bool) (l : list ascii) : bool :=
  match l with
  | [] => negb prev_hyphen
  | c :: l' =>
      if is_lower_alnum c then slug_from false l'
      else if is_hyphen c then negb prev_hyphen && slug_from true l'
      else false
  end.

Definition is_slug (s : string) : bool := slug_from true (chars s).

(** The output of the first [replace]: [a-z0-9] and hyphens, no two hyphens
    in a row ([prev_hyphen]: a hyphen precedes). *)
Fixpoint hyphenated (prev_hyphen : bool) (l : list ascii) : bool :=
  match l with
  | [] => true
  | c :: l' =>
      if is_lower_alnum c then hyphenated false l'
      else is_hyphen c && negb prev_hyphen && hyphenated true l'
  end.

(** ** Profiles, files and the profiles directory *)

(** interface Profile (types.ts).  [fileKey] is the optional property. *)
Record Profile := mkProfile {
  name : string;
  provider : string;
  env : gmap string string;
  fileKey : option string;
}.

(** What the code reads of a parsed profile file: [data.name],
    [data.provider], [data.env].  [None] is a property that is absent or
    holds a falsy value that is not a string; [Some ""] is the empty string,
    which is falsy too. *)
Record ProfileData := mkData {
  data_name : option string;
  data_provider : option string;
  data_env : option (gmap string string);
}.

Inductive File :=
  | Unparsable (text : string)   (* readJSONSync throws *)
  | JsonNull                     (* parses to null: data.name throws *)
  | Json (data : ProfileData).

(** The profiles directory: absent, or a map from entry names to files. *)
Abbreviation Fs := (option (gmap string File)).

(** What a throwing call leaves behind. *)
Inductive Result (A : Type) :=
  | Ok (a : A)
  | Throws.
Arguments Ok {A} a.
Arguments Throws {A}.

Definition readdirSync (d : gmap string File) : list string := (map_to_list d).*1.

(** [Array.prototype.sort()] on strings. *)
Definition sort (l : list string) : list string := merge_sort String.le l.

(** [path.basename(filename, ext)] for a directory entry (no separator). *)
Definition basename (filename ext : string) : string :=
  if endsWith filename ext
  then str (take (length (chars filename) - length (chars ext)) (chars filename))
  else filename.

(** The guard [!filename.endsWith('.json') || filename.endsWith('.example.json')]
    that makes the loops [continue]. *)
Definition skipped (filename : string) : bool :=
  negb (endsWith filename ".json") || endsWith filename ".example.json".

(** Does [fs.readJSONSync] return for this file? *)
Definition parses_as_json (f : File) : bool :=
  match f with
  | Unparsable _ => false
  | JsonNull | Json _ => true
  end.

(** The object pushed for a file that parsed, without [fileKey]. *)
Definition profile_of (filename : string) (data : ProfileData) : Profile :=
  {| name := opt_or_else (data_name data) (basename filename ".json");
     provider := opt_or_else (data_provider data) (basename filename ".json");
     env := default ∅ (data_env data);
     fileKey := None |}.

(** The same with [fileKey: path.basename(filename, '.json')]. *)
Definition keyed_profile_of (filename : string) (data : ProfileData) : Profile :=
  {| name := opt_or_else (data_name data) (basename filename ".json");
     provider := opt_or_else (data_provider data) (basename filename ".json");
     env := default ∅ (data_env data);
     fileKey := Some (basename filename ".json") |}.

(** One turn of the listing loop: the guard, then the [try] block; a file
    that throws (unparsable, or [null] at [data.name]) is passed over. *)
Definition load_entry (mk : string → ProfileData → Profile)
    (d : gmap string File) (filename : string) : option Profile :=
  if skipped filename then None
  else match d !! filename with
       | Some (Json data) => Some (mk filename data)
       | _ => None
       end.

(** The listing loop: [profiles.push] for each entry of the sorted listing. *)
Definition load_with (mk : string → ProfileData → Profile) (fs : Fs) : list Profile :=
  match fs with
  | None => []
  | Some d =>
      foldl (λ profiles filename,
               match load_entry mk d filename with
               | Some p => profiles ++ [p]
               | None => profiles
               end) [] (sort (readdirSync d))
  end.

(** The JSON written for a profile, [fileKey] deleted (or undefined, which
    [JSON.stringify] leaves out). *)
Definition written (profile : Profile) : File :=
  Json {| data_name := Some (name profile);
          data_provider := Some (provider profile);
          data_env := Some (env profile) |}.

(** [profile.fileKey || fallback] *)
Definition fileKey_or (profile : Profile) (fallback : string) : string :=
  opt_or_else (fileKey profile) fallback.

(** The file a listed profile was read from: its [fileKey] and the
    extension. *)
Definition profile_filename (p : Profile) : string :=
  default "" (fileKey p) +:+ ".json".

(** A listed profile without its [fileKey]. *)
Definition without_key (p : Profile) : Profile :=
  mkProfile (name p) (provider p) (env p) None.

(** Does the file parse to a value whose [provider] is [providerId]? *)
Definition stores_provider (f : option File) (providerId : string) : bool :=
  match f with
  | Some (Json data) => bool_decide (data_provider data = Some providerId)
  | _ => false
  end.

(** [r] is the first element of [l] with [P], or nothing when there is
    none. *)
Definition first_match {A} (P : A → Prop) (l : list A) (r : option A) : Prop :=
  match r with
  | Some x => ∃ i, l !! i = Some x ∧ P x ∧ ∀ j y, j < i → l !! j = Some y → ¬ P y
  | None => ∀ x, x ∈ l → ¬ P x
  end.

(** *** lib/profiles.ts *)
Module Profiles.

Definition loadProfiles (fs : Fs) : list Profile := load_with keyed_profile_of fs.

(** The body of the loop of [removeProviderProfiles]: the guard, then the
    [try] block on the directory as it is by then. *)
Definition remove_step (providerId : string) (cur : gmap string File)
    (filename : string) : gmap string File :=
  if skipped filename then cur
  else match cur !! filename with
       | Some (Json data) =>
           if bool_decide (data_provider data = Some providerId)
           then delete filename cur
           else cur
       | _ => cur
       end.

Definition removeProviderProfiles (fs : Fs) (providerId : string) : Fs :=
  match fs with
  | None => None
  | Some d => Some (foldl (remove_step providerId) d (readdirSync d))
  end.

Definition ensureProfilesDir (fs : Fs) : gmap string File := default ∅ fs.

Definition saveProfile (fs : Fs) (profile : Profile) : Fs :=
  let d := ensureProfilesDir fs in
  let fileKey := fileKey_or profile (slugify (name profile)) in
  let filename := fileKey +:+ ".json" in
  Some (<[filename := written profile]> d).

End Profiles.

(** *** config.ts, class LocalProfileStore *)
Module LocalProfileStore.

Definition listProfiles (fs : Fs) : list Profile := load_with profile_of fs.

Definition getProfile (fs : Fs) (key : string) : option Profile :=
  (fix loop (profiles : list Profile) : option Profile :=
     match profiles with
     | [] => None
     | profile :: rest =>
         if String.eqb (toLowerCase (name profile)) (toLowerCase key) then Some profile
         else if String.eqb (toLowerCase (provider profile)) (toLowerCase key) then Some profile
         else loop rest
     end) (listProfiles fs).

(** [writeJSONSync] into a directory that does not exist throws. *)
Definition saveProfile (fs : Fs) (profile : Profile) : Result Fs :=
  match fs with
  | None => Throws
  | Some d => Ok (Some (<[provider profile +:+ ".json" := written profile]> d))
  end.

Definition existsSync (fs : Fs) (filename : string) : bool :=
  match fs with
  | None => false
  | Some d => bool_decide (is_Some (d !! filename))
  end.

Definition unlinkSync (fs : Fs) (filename : string) : Fs := delete filename <$> fs.

Definition deleteProfile (fs : Fs) (key : string) : bool * Fs :=
  match getProfile fs key with
  | None => (false, fs)
  | Some profile =>
      let filepath := provider profile +:+ ".json" in
      (true, if existsSync fs filepath then unlinkSync fs filepath else fs)
  end.

End LocalProfileStore.

(** *** The store functions inlined in the readline CLI, later version *)
Module Cli.

Definition loadProfiles (fs : Fs) : list Profile := load_with keyed_profile_of fs.

Definition saveProfile (fs : Fs) (profile : Profile) : Result Fs :=
  let fileKey := fileKey_or profile (toProfileFileKey (name profile)) in
  match fs with
  | None => Throws
  | Some d => Ok (Some (<[fileKey +:+ ".json" := written profile]> d))
  end.

Definition getProfile (fs : Fs) (key : string) : option Profile :=
  find (λ p, String.eqb (provider p) key
             || String.eqb (toLowerCase (name p)) (toLowerCase key))
       (loadProfiles fs).

Definition getProfileByName (fs : Fs) (n : string) : option Profile :=
  find (λ p, String.eqb (toLowerCase (name p)) (toLowerCase n)) (loadProfiles fs).

Definition getProfileByFileKey (fs : Fs) (key : string) : option Profile :=
  find (λ p, bool_decide (fileKey p = Some key)) (loadProfiles fs).

End Cli.

(** *** The store functions inlined in src/cli.ts *)
Module CliV1.

Definition loadProfiles (fs : Fs) : list Profile := load_with profile_of fs.

Definition saveProfile (fs : Fs) (profile : Profile) : Result Fs :=
  match fs with
  | None => Throws
  | Some d => Ok (Some (<[provider profile +:+ ".json" := written profile]> d))
  end.

Definition getProfile (fs : Fs) (key : string) : option Profile :=
  find (λ p, String.eqb (provider p) key
             || String.eqb (toLowerCase (name p)) (toLowerCase key))
       (loadProfiles fs).

End CliV1.

(** ** Providers and keys *)

(** interface Provider *)
Module Provider.
Record t := mk {
  id : string;
  name : string;
  description : string;
  baseUrl : string;
  defaultModel : string;
  authUrl : option string;
  authInstructions : option string;
}.
End Provider.

(** Truthiness of an optional string property. *)
Definition present (o : option string) : bool :=
  match o with
  | Some s => truthy s
  | None => false
  end.

(** A [keypress] event of readline: [(char, key)] with [key.name] and
    [key.ctrl]; an undefined [char] or [name] is the empty string. *)
Record Keypress := mkKey {
  char : string;
  key_name : string;
  ctrl : bool;
}.

Definition ESC : string := String "027"%char "".

(** [inputBuffer.slice(0, -1)] *)
Definition drop_last (s : string) : string := str (removelast (chars s)).

(** The [keypress] listener installed by [setupStdin], while a [prompt] is
    pending: either the prompt resolves, or the buffer changes. *)
Inductive Prompt :=
  | Resolved (value : string)
  | Pending (inputBuffer : string).

Definition prompt_key (inputBuffer : string) (k : Keypress) : Prompt :=
  if String.eqb (key_name k) "escape" || String.eqb (char k) ESC then Resolved ""
  else if String.eqb (key_name k) "return" then Resolved inputBuffer
  else if String.eqb (key_name k) "backspace" || String.eqb (key_name k) "delete"
       then Pending (drop_last inputBuffer)
  else if truthy (char k) && (String.length (char k) =? 1)
       then Pending (inputBuffer +:+ char k)
  else Pending inputBuffer.

(** The Return key and the key of a character, as readline reports them
    (a letter or digit also carries its own one-character [name], which the
    flows never look at while a prompt is pending). *)
Definition return_key : Keypress := mkKey (String "013"%char "") "return" false.
Definition char_key (c : ascii) : Keypress := mkKey (String c "") "" false.

(** The keys that type [s]. *)
Definition typed (s : string) : list Keypress := char_key <$> chars s.

(** How an editor flow ends: it returns after a cancellation or after the
    save, the process exits, or the save throws. *)
Inductive Outcome := Cancelled | Saved | Exited | Crashed.

(** The five assignments to [profile.env] that end both readline flows. *)
Definition merge_env (e : gmap string string)
    (authToken baseUrl model timeout : string) : gmap string string :=
  <["CLAUDE_CODE_DISABLE_NONESSENTIAL_TRAFFIC" := "1"]>
    (<["API_TIMEOUT_MS" := timeout]>
      (<["ANTHROPIC_MODEL" := model]>
        (<["ANTHROPIC_BASE_URL" := baseUrl]>
          (<["ANTHROPIC_AUTH_TOKEN" := trim authToken]> e)))).

(** The five variables the flows store, for the provider ["claude"] with
    its defaults and the token as it is stored. *)
Definition holds_claude_defaults (e : gmap string string) (storedToken : string) : Prop :=
  e !! "ANTHROPIC_BASE_URL" = Some "https://api.anthropic.com" ∧
  e !! "ANTHROPIC_MODEL" = Some "claude-sonnet-4-20250514" ∧
  e !! "API_TIMEOUT_MS" = Some "3000000" ∧
  e !! "ANTHROPIC_AUTH_TOKEN" = Some storedToken ∧
  e !! "CLAUDE_CODE_DISABLE_NONESSENTIAL_TRAFFIC" = Some "1".

(** The first entry of [KNOWN_PROVIDERS]. *)
Definition claude : Provider.t :=
  Provider.mk "claude" "Anthropic Claude" "Official Anthropic Claude API"
    "https://api.anthropic.com" "claude-sonnet-4-20250514"
    (Some "https://console.anthropic.com/settings/keys")
    (Some "Get your API key from the Anthropic Console").

(** ** The readline CLI, later version: [configureProvider] and its callers *)
Module CliFlow.
Import Cli.

Definition KNOWN_PROVIDERS : list Provider.t :=
  [ claude;
    Provider.mk "glm" "GLM (Zhipu AI)" "Zhipu AI's GLM models"
      "https://api.z.ai/api/anthropic" "GLM-4.7"
      (Some "https://www.bigmodel.cn/devcenter/apikey")
      (Some "Get your API key or Coding Plan token from BigModel dashboard");
    Provider.mk "minimax" "MiniMax" "MiniMax AI API"
      "https://api.minimax.io/anthropic" "MiniMax-M2.1"
      (Some "https://platform.minimax.io/user-center/payment/coding-plan")
      (Some "Get your API key or Coding Plan token from MiniMax");
    Provider.mk "openrouter" "OpenRouter" "Unified API for multiple LLM providers"
      "https://openrouter.ai/api/v1" "anthropic/claude-3.5-sonnet"
      (Some "https://openrouter.ai/keys")
      (Some "Get your API key from OpenRouter") ].

Inductive Mode := Add | Edit.

(** The local variables of [configureProvider] that outlive a prompt. *)
Record Locals := mkLocals {
  profileName : string;
  profileFileKey : option string;
  baseUrl : string;
  authToken : string;
  model : string;
}.

(** Where [configureProvider] waits: the pending prompt with its
    [inputBuffer], or the key of the authentication menu. *)
Inductive Stage :=
  | AtName (inputBuffer : string)
  | AtUrl (inputBuffer : string)
  | AtAuthMethod (authMethodSelected : nat)
  | AtToken (oauth : bool) (inputBuffer : string)
  | AtModel (inputBuffer : string)
  | AtTimeout (inputBuffer : string)
  | Done (o : Outcome).

Definition start (pv : Provider.t) : Stage * Locals :=
  (AtName "", mkLocals (Provider.name pv) None (Provider.baseUrl pv) "" "").

(** Step 0, the body of the [while (true)] after the prompt resolved:
    [None] is a [continue], otherwise the name and the file key kept. *)
Definition name_entered (pv : Provider.t) (mode : Mode) (fs : Fs)
    (nameInput : string) : option (string * option string) :=
  let desiredName := or_else (trim nameInput) (Provider.name pv) in
  let existingByName := getProfileByName fs desiredName in
  let desiredFileKey := toProfileFileKey desiredName in
  let existingByFileKey := getProfileByFileKey fs desiredFileKey in
  let other_provider :=
    match existingByName with
    | Some e => negb (String.eqb (provider e) (Provider.id pv))
    | None => false
    end in
  let rejected :=
    match mode with
    | Add => bool_decide (is_Some existingByName)
             || bool_decide (is_Some existingByFileKey)
    | Edit => other_provider
              || (bool_decide (is_Some existingByFileKey)
                  && (bool_decide (existingByName = None) || other_provider))
    end in
  if rejected then None
  else Some (desiredName,
             match existingByName with
             | Some e => if String.eqb (provider e) (Provider.id pv)
                         then fileKey e else Some desiredFileKey
             | None => Some desiredFileKey
             end).

(** The end of the flow, after the last prompt: the profile is built on
    the existing one of that name, if any, and saved. *)
Definition save_configured (pv : Provider.t) (l : Locals) (timeout : string)
    (fs : Fs) : Stage * Fs :=
  let existingProfile := getProfileByName fs (profileName l) in
  let env0 := match existingProfile with Some e => env e | None => ∅ end in
  let profile :=
    {| name := profileName l;
       provider := Provider.id pv;
       env := merge_env env0 (authToken l) (baseUrl l) (model l) timeout;
       fileKey := profileFileKey l |} in
  match saveProfile fs profile with
  | Ok fs' => (Done Saved, fs')
  | Throws => (Done Crashed, fs)
  end.

Definition after_prompt (pv : Provider.t) (mode : Mode) (stage : Stage)
    (l : Locals) (fs : Fs) (value : string) : Stage * Locals * Fs :=
  match stage with
  | AtName _ =>
      match name_entered pv mode fs value with
      | None => (AtName "", l, fs)
      | Some (n, key) =>
          (AtUrl "", mkLocals n key (baseUrl l) (authToken l) (model l), fs)
      end
  | AtUrl _ =>
      let l' := mkLocals (profileName l) (profileFileKey l)
                  (if truthy (trim value) then trim value else baseUrl l)
                  (authToken l) (model l) in
      if present (Provider.authUrl pv) then (AtAuthMethod 0, l', fs)
      else (AtToken false "", l', fs)
  | AtToken _ _ =>
      if truthy (trim value)
      then (AtModel "", mkLocals (profileName l) (profileFileKey l) (baseUrl l)
                          value (model l), fs)
      else (Done Cancelled, l, fs)
  | AtModel _ =>
      (AtTimeout "", mkLocals (profileName l) (profileFileKey l) (baseUrl l)
                       (authToken l) (or_else (trim value) (Provider.defaultModel pv)), fs)
  | AtTimeout _ =>
      let '(stage', fs') := save_configured pv l (or_else (trim value) "3000000") fs in
      (stage', l, fs')
  | _ => (stage, l, fs)
  end.

Definition with_buffer (stage : Stage) (b : string) : Stage :=
  match stage with
  | AtName _ => AtName b
  | AtUrl _ => AtUrl b
  | AtToken oauth _ => AtToken oauth b
  | AtModel _ => AtModel b
  | AtTimeout _ => AtTimeout b
  | _ => stage
  end.

Definition on_prompt (pv : Provider.t) (mode : Mode) (stage : Stage)
    (l : Locals) (fs : Fs) (inputBuffer : string) (k : Keypress) : Stage * Locals * Fs :=
  match prompt_key inputBuffer k with
  | Resolved value => after_prompt pv mode stage l fs value
  | Pending b => (with_buffer stage b, l, fs)
  end.

(** One key for [configureProvider]. *)
Definition step (pv : Provider.t) (mode : Mode) (stage : Stage)
    (l : Locals) (fs : Fs) (k : Keypress) : Stage * Locals * Fs :=
  match stage with
  | AtName b | AtUrl b | AtToken _ b | AtModel b | AtTimeout b =>
      on_prompt pv mode stage l fs b k
  | AtAuthMethod selected =>
      if ctrl k && String.eqb (char k) "c" then (Done Exited, l, fs)
      else if String.eqb (key_name k) "up" || String.eqb (char k) "k"
           then (AtAuthMethod ((selected + 2 - 1) mod 2), l, fs)
      else if String.eqb (key_name k) "down" || String.eqb (char k) "j"
           then (AtAuthMethod ((selected + 1) mod 2), l, fs)
      else if String.eqb (key_name k) "return" then (AtToken (selected =? 1) "", l, fs)
      else if String.eqb (key_name k) "escape" then (Done Cancelled, l, fs)
      else (stage, l, fs)
  | Done _ => (stage, l, fs)
  end.

Definition run (pv : Provider.t) (mode : Mode) (st : Stage * Locals * Fs)
    (keys : list Keypress) : Stage * Locals * Fs :=
  foldl (λ '(stage, l, fs) k, step pv mode stage l fs k) st keys.

(** [configureProvider(provider, mode)] fed with [keys]. *)
Definition configureProvider (pv : Provider.t) (mode : Mode) (fs : Fs)
    (keys : list Keypress) : Stage * Locals * Fs :=
  run pv mode (start pv, fs) keys.

(** The two menus that call [configureProvider]: [configure()] and
    [addNewProfileFlow()], each with its [selected] row. *)
Inductive Menu :=
  | ConfigureMenu (selected : nat)
  | AddNewMenu (selected : nat).

(** The prompts of [addCustomProfile]. *)
Inductive CustomStage :=
  | AtProviderName (inputBuffer : string)
  | AtBaseUrl (inputBuffer : string)
  | AtDefaultModel (inputBuffer : string)
  | AtAuthUrl (inputBuffer : string)
  | AtAuthInstructions (inputBuffer : string).

(** The configure part of the interactive mode: where it waits. *)
Inductive Screen :=
  | InMenu (m : Menu)
  | InCustom (stage : CustomStage) (pv : Provider.t) (back : Menu)
  | InEditor (pv : Provider.t) (mode : Mode) (stage : Stage) (l : Locals) (back : Menu)
  | InMain            (* configure() returned to the main menu *)
  | ProcessExit       (* process.exit(0) *)
  | Unhandled.        (* the save threw *)

Definition totalItems : nat := length KNOWN_PROVIDERS + 1.

(** After [await configureProvider(...)]: [draw()] and the next key. *)
Definition resume (pv : Provider.t) (mode : Mode) (back : Menu)
    (r : Stage * Locals * Fs) : Screen * Fs :=
  match r with
  | (Done Cancelled, _, fs) | (Done Saved, _, fs) => (InMenu back, fs)
  | (Done Exited, _, fs) => (ProcessExit, fs)
  | (Done Crashed, _, fs) => (Unhandled, fs)
  | (stage, l, fs) => (InEditor pv mode stage l back, fs)
  end.

Definition enter_editor (pv : Provider.t) (mode : Mode) (back : Menu) (fs : Fs)
    : Screen * Fs :=
  (InEditor pv mode (start pv).1 (start pv).2 back, fs).

Definition menu_key (m : Menu) (fs : Fs) (k : Keypress) : Screen * Fs :=
  let selected := match m with ConfigureMenu n | AddNewMenu n => n end in
  let select n := match m with ConfigureMenu _ => ConfigureMenu n | AddNewMenu _ => AddNewMenu n end in
  if ctrl k && String.eqb (char k) "c" then (ProcessExit, fs)
  else if String.eqb (key_name k) "up" || String.eqb (char k) "k"
       then (InMenu (select ((selected + totalItems - 1) mod totalItems)), fs)
  else if String.eqb (key_name k) "down" || String.eqb (char k) "j"
       then (InMenu (select ((selected + 1) mod totalItems)), fs)
  else if String.eqb (key_name k) "return" then
    match selected, m with
    | 0, ConfigureMenu _ => (InMenu (AddNewMenu 0), fs)
    | 0, AddNewMenu _ =>
        (InCustom (AtProviderName "")
           (Provider.mk "" "" "Custom provider" "" "" None None) m, fs)
    | S i, _ =>
        match KNOWN_PROVIDERS !! i with
        | Some pv => enter_editor pv (match m with ConfigureMenu _ => Edit
                                                 | AddNewMenu _ => Add end) m fs
        | None => (InMenu m, fs)
        end
    end
  else if String.eqb (key_name k) "escape" then
    match m with
    | ConfigureMenu _ => (InMain, fs)
    | AddNewMenu _ => (InMenu (ConfigureMenu 0), fs)
    end
  else (InMenu m, fs).

Definition custom_buffer (stage : CustomStage) : string :=
  match stage with
  | AtProviderName b | AtBaseUrl b | AtDefaultModel b | AtAuthUrl b
  | AtAuthInstructions b => b
  end.

Definition custom_with_buffer (stage : CustomStage) (b : string) : CustomStage :=
  match stage with
  | AtProviderName _ => AtProviderName b
  | AtBaseUrl _ => AtBaseUrl b
  | AtDefaultModel _ => AtDefaultModel b
  | AtAuthUrl _ => AtAuthUrl b
  | AtAuthInstructions _ => AtAuthInstructions b
  end.

Definition optional (s : string) : option string :=
  if truthy s then Some s else None.

Definition custom_key (stage : CustomStage) (pv : Provider.t) (back : Menu)
    (fs : Fs) (k : Keypress) : Screen * Fs :=
  match prompt_key (custom_buffer stage) k with
  | Pending b => (InCustom (custom_with_buffer stage b) pv back, fs)
  | Resolved value =>
      let '(Provider.mk pid pname pdesc purl pmodel pauth pinstr) := pv in
      match stage with
      | AtProviderName _ =>
          if truthy (trim value)
          then (InCustom (AtBaseUrl "")
                  (Provider.mk pid value pdesc purl pmodel pauth pinstr) back, fs)
          else (InCustom (AtProviderName "") pv back, fs)
      | AtBaseUrl _ =>
          if truthy (trim value)
          then (InCustom (AtDefaultModel "")
                  (Provider.mk pid pname pdesc (trim value) pmodel pauth pinstr) back, fs)
          else (InMenu back, fs)
      | AtDefaultModel _ =>
          (InCustom (AtAuthUrl "")
             (Provider.mk pid pname pdesc purl (or_else (trim value) "model") pauth pinstr)
             back, fs)
      | AtAuthUrl _ =>
          (InCustom (AtAuthInstructions "")
             (Provider.mk pid pname pdesc purl pmodel (optional (trim value)) pinstr)
             back, fs)
      | AtAuthInstructions _ =>
          enter_editor
            (Provider.mk (toProfileFileKey pname) pname pdesc purl pmodel pauth
               (optional (trim value)))
            Add back fs
      end
  end.

(** One key for the configure part of the interactive mode. *)
Definition screen_key (sc : Screen) (fs : Fs) (k : Keypress) : Screen * Fs :=
  match sc with
  | InMenu m => menu_key m fs k
  | InCustom stage pv back => custom_key stage pv back fs k
  | InEditor pv mode stage l back => resume pv mode back (step pv mode stage l fs k)
  | InMain | ProcessExit | Unhandled => (sc, fs)
  end.

Definition screen_run (st : Screen * Fs) (keys : list Keypress) : Screen * Fs :=
  foldl (λ '(sc, fs) k, screen_key sc fs k) st keys.

End CliFlow.

(** ** src/cli.ts: [configureProvider] *)
Module CliV1Flow.
Import CliV1.

Record Locals := mkLocals {
  baseUrl : string;
  authToken : string;
  model : string;
}.

Inductive Stage :=
  | AtUrl (inputBuffer : string)
  | AtAuthMethod (inputBuffer : string)
  | AtToken (oauth : bool) (inputBuffer : string)
  | AtModel (inputBuffer : string)
  | AtTimeout (inputBuffer : string)
  | Done (o : Outcome).

Definition start (pv : Provider.t) : Stage * Locals :=
  (AtUrl "", mkLocals (Provider.baseUrl pv) "" "").

(** The save: on the profile found by [getProfile(provider.id)], if any. *)
Definition save_configured (pv : Provider.t) (l : Locals) (timeout : string)
    (fs : Fs) : Stage * Fs :=
  let existingProfile := getProfile fs (Provider.id pv) in
  let profile0 :=
    match existingProfile with
    | Some e => e
    | None => mkProfile (Provider.name pv) (Provider.id pv) ∅ None
    end in
  let profile :=
    {| name := name profile0;
       provider := provider profile0;
       env := merge_env (env profile0) (authToken l) (baseUrl l) (model l) timeout;
       fileKey := fileKey profile0 |} in
  match saveProfile fs profile with
  | Ok fs' => (Done Saved, fs')
  | Throws => (Done Crashed, fs)
  end.

Definition after_prompt (pv : Provider.t) (stage : Stage) (l : Locals) (fs : Fs)
    (value : string) : Stage * Locals * Fs :=
  match stage with
  | AtUrl _ =>
      (AtAuthMethod "",
       mkLocals (if truthy (trim value) then trim value else baseUrl l)
         (authToken l) (model l), fs)
  | AtAuthMethod _ =>
      (AtToken (String.eqb (trim value) "2" && present (Provider.authUrl pv)) "", l, fs)
  | AtToken _ _ =>
      if truthy (trim value)
      then (AtModel "", mkLocals (baseUrl l) value (model l), fs)
      else (Done Cancelled, l, fs)
  | AtModel _ =>
      (AtTimeout "",
       mkLocals (baseUrl l) (authToken l)
         (or_else (trim value) (Provider.defaultModel pv)), fs)
  | AtTimeout _ =>
      let '(stage', fs') := save_configured pv l (or_else (trim value) "3000000") fs in
      (stage', l, fs')
  | Done _ => (stage, l, fs)
  end.

Definition with_buffer (stage : Stage) (b : string) : Stage :=
  match stage with
  | AtUrl _ => AtUrl b
  | AtAuthMethod _ => AtAuthMethod b
  | AtToken oauth _ => AtToken oauth b
  | AtModel _ => AtModel b
  | AtTimeout _ => AtTimeout b
  | Done _ => stage
  end.

(** One key for [configureProvider]. *)
Definition step (pv : Provider.t) (stage : Stage) (l : Locals) (fs : Fs)
    (k : Keypress) : Stage * Locals * Fs :=
  match stage with
  | AtUrl b | AtAuthMethod b | AtToken _ b | AtModel b | AtTimeout b =>
      match prompt_key b k with
      | Resolved value => after_prompt pv stage l fs value
      | Pending b' => (with_buffer stage b', l, fs)
      end
  | Done _ => (stage, l, fs)
  end.

Definition run (pv : Provider.t) (st : Stage * Locals * Fs) (keys : list Keypress)
    : Stage * Locals * Fs :=
  foldl (λ '(stage, l, fs) k, step pv stage l fs k) st keys.

Definition configureProvider (pv : Provider.t) (fs : Fs) (keys : list Keypress)
    : Stage * Locals * Fs :=
  run pv (start pv, fs) keys.

End CliV1Flow.

(** ** The Ink form: ui/ProfileEditorView.tsx and its host (cli.tsx) *)
Module Ink.

(** The [(input, key)] pair that Ink's [useInput] hands to a handler. *)
Record Key := mkInkKey {
  input : string;
  escape : bool;
  key_return : bool;
  tab : bool;
  downArrow : bool;
  upArrow : bool;
  backspace : bool;
  delete : bool;
  key_ctrl : bool;
  meta : bool;
}.

(** interface OnboardingData; the same four strings are the form's
    [values]. *)
Record OnboardingData := mkData {
  profileName : string;
  token : string;
  baseUrl : string;
  model : string;
}.

(** The state of the mounted [ProfileEditorView]. *)
Record Editor := mkEditor {
  activeIndex : nat;
  error : option string;
  values : OnboardingData;
}.

Inductive Callback :=
  | OnCancel
  | OnComplete (data : OnboardingData).

Definition providerName (profile : Profile) : string :=
  opt_or_else (env profile !! "PROVIDER_NAME") (provider profile).
Definition existingName (profile : Profile) : string :=
  or_else (name profile) (providerName profile).
Definition existingToken (profile : Profile) : string :=
  opt_or_else (env profile !! "ANTHROPIC_AUTH_TOKEN") "".
Definition existingBaseUrl (profile : Profile) : string :=
  opt_or_else (env profile !! "ANTHROPIC_BASE_URL") "".
Definition existingModel (profile : Profile) : string :=
  opt_or_else (env profile !! "ANTHROPIC_MODEL") "model".

(** The initial [useState] values. *)
Definition mount (profile : Profile) : Editor :=
  mkEditor 0 None
    (mkData (existingName profile) (existingToken profile)
       (existingBaseUrl profile) (existingModel profile)).

(** [fields[activeIndex].key], read and written in [values]. *)
Definition get_field (i : nat) (v : OnboardingData) : string :=
  match i with
  | 0 => profileName v
  | 1 => baseUrl v
  | 2 => model v
  | _ => token v
  end.

Definition set_field (i : nat) (x : string) (v : OnboardingData) : OnboardingData :=
  match i with
  | 0 => mkData x (token v) (baseUrl v) (model v)
  | 1 => mkData (profileName v) (token v) x (model v)
  | 2 => mkData (profileName v) (token v) (baseUrl v) x
  | _ => mkData (profileName v) x (baseUrl v) (model v)
  end.

Definition is_enter (k : Key) : bool :=
  key_return k || String.eqb (input k) (String "013"%char "")
  || String.eqb (input k) (String "010"%char "").

(** The [useInput] handler of [ProfileEditorView]: the next state of the
    form and the callback it calls, if any. *)
Definition editor_key (profile : Profile) (ed : Editor) (k : Key)
    : Editor * option Callback :=
  let v := values ed in
  if escape k then (ed, Some OnCancel)
  else if is_enter k then
    if negb (truthy (trim (token v)))
    then (mkEditor (activeIndex ed) (Some "Token is required") v, None)
    else (ed, Some (OnComplete
                (mkData (or_else (trim (profileName v)) (existingName profile))
                        (trim (token v))
                        (or_else (trim (baseUrl v)) (existingBaseUrl profile))
                        (or_else (trim (model v)) (existingModel profile)))))
  else if tab k || downArrow k
       then (mkEditor ((activeIndex ed + 1) mod 4) (error ed) v, None)
  else if upArrow k
       then (mkEditor ((activeIndex ed + 4 - 1) mod 4) (error ed) v, None)
  else if backspace k || delete k
       then (mkEditor (activeIndex ed) (error ed)
               (set_field (activeIndex ed) (drop_last (get_field (activeIndex ed) v)) v),
             None)
  else if truthy (input k) && (String.length (input k) =? 1)
          && negb (key_ctrl k) && negb (meta k)
       then (mkEditor (activeIndex ed) None
               (set_field (activeIndex ed) (get_field (activeIndex ed) v +:+ input k) v),
             None)
  else (ed, None).

(** The Return key, as Ink reports it. *)
Definition return_key : Key :=
  mkInkKey (String "013"%char "") false true false false false false false false false.

Inductive View := VMain | VSwitch | VConfigure | VList.

Definition menuItems : list View := [VSwitch; VConfigure; VList].

(** The state of [App] while it runs: [editing] is [selectedProfile]
    together with the state of the form mounted for it. *)
Record App := mkApp {
  viewStack : list View;
  menuIndex : nat;
  editing : option (Profile * Editor);
  escExitArmed : bool;
  exited : bool;
}.

Definition view (app : App) : View := default VMain (last (viewStack app)).

Definition popView (stack : list View) : list View :=
  if 1 <? length stack then removelast stack else stack.

Definition close_editor (app : App) : App :=
  mkApp (viewStack app) (menuIndex app) None (escExitArmed app) (exited app).

Definition exit_process (app : App) : App :=
  mkApp (viewStack app) (menuIndex app) (editing app) (escExitArmed app) true.

(** [handleOnboardingComplete(data)] with a profile selected. *)
Definition handleOnboardingComplete (selectedProfile : Profile)
    (data : OnboardingData) (app : App) (fs : Fs) : App * Fs :=
  let profile :=
    {| name := profileName data;
       provider := provider selectedProfile;
       env := <["ANTHROPIC_MODEL" := model data]>
                (<["ANTHROPIC_BASE_URL" := baseUrl data]>
                   (<["ANTHROPIC_AUTH_TOKEN" := token data]> (env selectedProfile)));
       fileKey := fileKey selectedProfile |} in
  (mkApp [VMain; VList] (menuIndex app) None (escExitArmed app) (exited app),
   Profiles.saveProfile fs profile).

(** The [useInput] handler of [App] (the timer that disarms the double
    escape is not a key and is left out). *)
Definition app_key (app : App) (k : Key) : App :=
  if key_ctrl k && String.eqb (input k) "c" then exit_process app
  else if String.eqb (input k) "q" then
    match view app with
    | VMain => exit_process app
    | _ => mkApp (popView (viewStack app)) (menuIndex app) None
             (escExitArmed app) (exited app)
    end
  else
    match view app with
    | VMain =>
        if String.eqb (input k) "j" || downArrow k
        then mkApp (viewStack app) ((menuIndex app + 1) mod length menuItems)
               (editing app) (escExitArmed app) (exited app)
        else if String.eqb (input k) "k" || upArrow k
        then mkApp (viewStack app)
               ((menuIndex app + length menuItems - 1) mod length menuItems)
               (editing app) (escExitArmed app) (exited app)
        else if is_enter k || String.eqb (input k) " "
        then mkApp (viewStack app ++ [default VMain (menuItems !! menuIndex app)])
               (menuIndex app) (editing app) (escExitArmed app) (exited app)
        else if escape k || String.eqb (input k) ESC
        then if escExitArmed app then exit_process app
             else mkApp (viewStack app) (menuIndex app) (editing app) true (exited app)
        else app
    | _ =>
        if escape k || String.eqb (input k) ESC
        then mkApp (popView (viewStack app)) (menuIndex app) None
               (escExitArmed app) (exited app)
        else app
    end.

(** One key while the form is mounted: it reaches the handler of [App]
    and the handler of the form, whose callback [App] then runs. *)
Definition editing_key (selectedProfile : Profile) (ed : Editor) (app : App)
    (fs : Fs) (k : Key) : App * Fs :=
  let app1 := app_key app k in
  match editor_key selectedProfile ed k with
  | (_, Some OnCancel) => (close_editor app1, fs)
  | (_, Some (OnComplete data)) => handleOnboardingComplete selectedProfile data app1 fs
  | (ed', None) =>
      (mkApp (viewStack app1) (menuIndex app1)
         (match editing app1 with Some _ => Some (selectedProfile, ed') | None => None end)
         (escExitArmed app1) (exited app1), fs)
  end.

End Ink.

(** ** What the later CLI's flow has established at each of its stages *)

(** The name and file key in [l] are ones that step 0 accepted. *)
Definition name_kept (pv : Provider.t) (mode : CliFlow.Mode) (fs0 : Fs)
    (l : CliFlow.Locals) : Prop :=
  ∃ nameInput,
    CliFlow.name_entered pv mode fs0 nameInput
    = Some (CliFlow.profileName l, CliFlow.profileFileKey l).

(** The invariant of [configureProvider] started on the directory [fs0]:
    the directory is untouched until the save, the name was accepted once
    the flow is past step 0, the token is not blank once it is past the
    token prompt, and a flow that ended with the save made it from [fs0]. *)
Definition flow_inv (pv : Provider.t) (mode : CliFlow.Mode) (fs0 : Fs)
    (stage : CliFlow.Stage) (l : CliFlow.Locals) (fs : Fs) : Prop :=
  match stage with
  | CliFlow.AtName _ => fs = fs0
  | CliFlow.AtUrl _ | CliFlow.AtAuthMethod _ | CliFlow.AtToken _ _ =>
      fs = fs0 ∧ name_kept pv mode fs0 l
  | CliFlow.AtModel _ | CliFlow.AtTimeout _ =>
      fs = fs0 ∧ name_kept pv mode fs0 l ∧ truthy (trim (CliFlow.authToken l)) = true
  | CliFlow.Done Saved =>
      name_kept pv mode fs0 l ∧ truthy (trim (CliFlow.authToken l)) = true ∧
      ∃ timeout, CliFlow.save_configured pv l timeout fs0 = (CliFlow.Done Saved, fs)
  | CliFlow.Done _ => fs = fs0
  end.

(** ** cli.tsx: the handlers [App] hands to its views *)
Module App.

(** [handleRemoveProvider(providerId)] *)
Definition handleRemoveProvider (providerId : string) (fs : Fs) : Fs :=
  if String.eqb providerId "claude" then fs
  else Profiles.removeProviderProfiles fs providerId.

(** What [handleSwitch(profile)] does: it prints that the profile needs a
    token, or it stores the profile and leaves Ink, after which the profile
    is run. *)
Inductive Switched :=
  | NeedsToken
  | Runs (profile : Profile).

Definition handleSwitch (profile : Profile) : Switched :=
  let needsToken := negb (String.eqb (provider profile) "claude")
                    && negb (present (env profile !! "ANTHROPIC_AUTH_TOKEN")) in
  if needsToken then NeedsToken else Runs profile.

End App.

(** [{ ...process.env, ...profile.env }], the environment of the child that
    [runProfileInCurrentTerminal] starts (lib/terminal.ts and the CLI). *)
Definition child_env (processEnv : gmap string string) (profile : Profile)
    : gmap string string :=
  env profile ∪ processEnv.

(** ** ui/ConfigureView.tsx *)
Module ConfigureView.

Record State := mkState {
  selected : nat;
  confirmDelete : option Profile;
}.

Definition mount : State := mkState 0 None.

(** What a key leaves behind: the view with its next state, a call of
    [onConfigureProfile] or [onAddProvider] that mounts a form in place of
    the view, or the TypeError of reading [provider] of [undefined]. *)
Inductive Next :=
  | Stays (s : State)
  | Configures (profile : Profile)
  | AddsProvider
  | TypeError.

(** The [useInput] handler, with [onRemoveProvider] bound to
    [handleRemoveProvider]; [profiles] is read at each render. *)
Definition useInput (s : State) (fs : Fs) (k : Ink.Key) : Next * Fs :=
  let profiles := Profiles.loadProfiles fs in
  let totalItems := length profiles + 1 in
  match confirmDelete s with
  | Some p =>
      if String.eqb (toLowerCase (Ink.input k)) "y"
      then (Stays (mkState 0 None), App.handleRemoveProvider (provider p) fs)
      else if String.eqb (toLowerCase (Ink.input k)) "n" || Ink.escape k
      then (Stays (mkState (selected s) None), fs)
      else (Stays s, fs)
  | None =>
      if String.eqb (Ink.input k) "j" || Ink.downArrow k
      then (Stays (mkState ((selected s + 1) mod totalItems) None), fs)
      else if String.eqb (Ink.input k) "k" || Ink.upArrow k
      then (Stays (mkState ((selected s + totalItems - 1) mod totalItems) None), fs)
      else if Ink.is_enter k then
        match selected s with
        | 0 => (AddsProvider, fs)
        | S i =>
            match profiles !! i with
            | Some p => (Configures p, fs)
            | None => (Stays s, fs)      (* setSelectedProfile(undefined) *)
            end
        end
      else if String.eqb (Ink.input k) "d" then
        match selected s with
        | 0 => (Stays s, fs)
        | S i =>
            match profiles !! i with
            | Some p =>
                if negb (String.eqb (provider p) "anthropic")
                then (Stays (mkState (selected s) (Some p)), fs)
                else (Stays s, fs)
            | None => (TypeError, fs)
            end
        end
      else (Stays s, fs)
  end.

(** The keys the view handles while it is mounted.  The handler of [App]
    sees the same keys; it changes no file and can only unmount the view or
    end the process, which cuts a run short. *)
Definition run (st : Next * Fs) (keys : list Ink.Key) : Next * Fs :=
  foldl (λ '(n, fs) k, match n with
                       | Stays s => useInput s fs k
                       | _ => (n, fs)
                       end) st keys.

End ConfigureView.

(** ** ui/AddProviderForm.tsx and [handleCustomProviderComplete] *)

(** interface CustomProviderData *)
Module CustomProviderData.
Record t := mk {
  profileName : string;
  providerId : string;
  providerName : string;
  baseUrl : string;
  defaultModel : string;
  authUrl : option string;
  authInstructions : option string;
  token : string;
}.
End CustomProviderData.

Module AddProviderForm.

Record Values := mkValues {
  providerName : string;
  profileName : string;
  baseUrl : string;
  model : string;
  token : string;
  authUrl : string;
  authInstructions : string;
}.

Inductive Field :=
  | FProviderName | FProfileName | FBaseUrl | FModel | FToken | FAuthUrl
  | FAuthInstructions.

Definition fields : list Field :=
  [FProviderName; FProfileName; FBaseUrl; FModel; FToken; FAuthUrl; FAuthInstructions].

(** [prev[fieldKey]] and [{ ...prev, [fieldKey]: x }] *)
Definition get_field (f : Field) (v : Values) : string :=
  match f with
  | FProviderName => providerName v
  | FProfileName => profileName v
  | FBaseUrl => baseUrl v
  | FModel => model v
  | FToken => token v
  | FAuthUrl => authUrl v
  | FAuthInstructions => authInstructions v
  end.

Definition set_field (f : Field) (x : string) (v : Values) : Values :=
  match f with
  | FProviderName =>
      mkValues x (profileName v) (baseUrl v) (model v) (token v) (authUrl v)
        (authInstructions v)
  | FProfileName =>
      mkValues (providerName v) x (baseUrl v) (model v) (token v) (authUrl v)
        (authInstructions v)
  | FBaseUrl =>
      mkValues (providerName v) (profileName v) x (model v) (token v) (authUrl v)
        (authInstructions v)
  | FModel =>
      mkValues (providerName v) (profileName v) (baseUrl v) x (token v) (authUrl v)
        (authInstructions v)
  | FToken =>
      mkValues (providerName v) (profileName v) (baseUrl v) (model v) x (authUrl v)
        (authInstructions v)
  | FAuthUrl =>
      mkValues (providerName v) (profileName v) (baseUrl v) (model v) (token v) x
        (authInstructions v)
  | FAuthInstructions =>
      mkValues (providerName v) (profileName v) (baseUrl v) (model v) (token v)
        (authUrl v) x
  end.

(** The state of the mounted form. *)
Record Form := mkForm {
  activeIndex : nat;
  error : option string;
  values : Values;
}.

Definition mount : Form := mkForm 0 None (mkValues "" "" "" "" "" "" "").

(** What a key leaves behind: the form with its next state, a call of
    [onCancel] or [onComplete], or the TypeError of reading [key] of
    [fields[activeIndex]] when that is [undefined]. *)
Inductive Next :=
  | Stays (f : Form)
  | Cancels
  | Completes (data : CustomProviderData.t)
  | TypeError.

(** The [useInput] handler. *)
Definition useInput (f : Form) (k : Ink.Key) : Next :=
  let v := values f in
  if Ink.escape k then Cancels
  else if Ink.is_enter k then
    let providerName := trim (providerName v) in
    let baseUrl := trim (baseUrl v) in
    let token := trim (token v) in
    if negb (truthy providerName) || negb (truthy baseUrl) || negb (truthy token)
    then Stays (mkForm (activeIndex f)
                  (Some "Provider name, Base URL, and Token are required") v)
    else Completes
           (CustomProviderData.mk
              (or_else (trim (profileName v)) providerName)
              (slugify providerName)
              providerName
              baseUrl
              (or_else (trim (model v)) "model")
              (CliFlow.optional (trim (authUrl v)))
              (CliFlow.optional (trim (authInstructions v)))
              token)
  else if Ink.tab k || Ink.downArrow k
       then Stays (mkForm ((activeIndex f + 1) mod length fields) (error f) v)
  else if Ink.upArrow k
       then Stays (mkForm ((activeIndex f + length fields - 1) mod length fields)
                     (error f) v)
  else if Ink.backspace k || Ink.delete k then
    match fields !! activeIndex f with
    | Some fieldKey =>
        Stays (mkForm (activeIndex f) (error f)
                 (set_field fieldKey (drop_last (get_field fieldKey v)) v))
    | None => TypeError
    end
  else if truthy (Ink.input k) && (String.length (Ink.input k) =? 1)
          && negb (Ink.key_ctrl k) && negb (Ink.meta k) then
    match fields !! activeIndex f with
    | Some fieldKey =>
        Stays (mkForm (activeIndex f) None
                 (set_field fieldKey (get_field fieldKey v +:+ Ink.input k) v))
    | None => TypeError
    end
  else Stays f.

Definition run (n : Next) (keys : list Ink.Key) : Next :=
  foldl (λ n k, match n with Stays f => useInput f k | _ => n end) n keys.

(** The profile that [handleCustomProviderComplete(data)] builds and
    saves. *)
Definition custom_profile (data : CustomProviderData.t) : Profile :=
  {| name := CustomProviderData.profileName data;
     provider := CustomProviderData.providerId data;
     env := <["PROVIDER_AUTH_INSTRUCTIONS" :=
                opt_or_else (CustomProviderData.authInstructions data) ""]>
              (<["PROVIDER_AUTH_URL" := opt_or_else (CustomProviderData.authUrl data) ""]>
                (<["PROVIDER_NAME" := CustomProviderData.providerName data]>
                  (<["ANTHROPIC_MODEL" := CustomProviderData.defaultModel data]>
                    (<["ANTHROPIC_BASE_URL" := CustomProviderData.baseUrl data]>
                      (<["ANTHROPIC_AUTH_TOKEN" := CustomProviderData.token data]> ∅)))));
     fileKey := None |}.

Definition handleCustomProviderComplete (data : CustomProviderData.t) (fs : Fs) : Fs :=
  Profiles.saveProfile fs (custom_profile data).

(** One key for the mounted form, with [onComplete] bound to
    [handleCustomProviderComplete].  The handler of [App] sees the same keys;
    it changes no file, and when it ends the process the run is cut short. *)
Definition form_key (n : Next) (fs : Fs) (k : Ink.Key) : Next * Fs :=
  match n with
  | Stays f =>
      match useInput f k with
      | Completes data => (Completes data, handleCustomProviderComplete data fs)
      | n' => (n', fs)
      end
  | _ => (n, fs)
  end.

Definition form_run (st : Next * Fs) (keys : list Ink.Key) : Next * Fs :=
  foldl (λ '(n, fs) k, form_key n fs k) st keys.

End AddProviderForm.

(** ** ui/SwitchView.tsx *)
Module SwitchView.

(** [x % n] on a [selected] that may be NaN ([None]): [% 0] gives NaN and
    NaN stays NaN. *)
Definition js_mod (x : option nat) (n : nat) : option nat :=
  match x with
  | Some a => if n =? 0 then None else Some (a mod n)
  | None => None
  end.

(** What a key leaves behind: the view with its [selected], a call of
    [onCancel], the profile that [handleSwitch] runs, or the TypeError of
    [handleSwitch(undefined)]. *)
Inductive Next :=
  | Stays (selected : option nat)
  | Cancels
  | Launches (profile : Profile)
  | TypeError.

(** The [useInput] handler with [onSelect] bound to [handleSwitch]; the
    listener on raw [stdin] data calls [onCancel] for the same escape
    character. *)
Definition useInput (profiles : list Profile) (selected : option nat) (k : Ink.Key)
    : Next :=
  if Ink.escape k || String.eqb (Ink.input k) ESC then Cancels
  else if String.eqb (Ink.input k) "q" then Cancels
  else if String.eqb (Ink.input k) "j" || Ink.downArrow k
       then Stays (js_mod ((λ a, a + 1) <$> selected) (length profiles))
  else if String.eqb (Ink.input k) "k" || Ink.upArrow k
       then Stays (js_mod ((λ a, a + length profiles - 1) <$> selected) (length profiles))
  else if Ink.is_enter k && (0 <? length profiles) then
    match selected ≫= (profiles !!.) with
    | Some p =>
        match App.handleSwitch p with
        | App.NeedsToken => Stays selected
        | App.Runs p => Launches p
        end
    | None => TypeError
    end
  else Stays selected.

(** The keys the view handles while it is mounted; the profiles directory
    does not change meanwhile, and the handler of [App], which sees the same
    keys, can only unmount the view or end the process. *)
Definition run (fs : Fs) (keys : list Ink.Key) : Next :=
  foldl (λ n k, match n with
                | Stays selected => useInput (Profiles.loadProfiles fs) selected k
                | _ => n
                end) (Stays (Some 0)) keys.

End SwitchView.

(** ** The readline CLI, later version: [switchProfile] and [current] *)
Module CliSwitch.

Inductive RunMode := New | Current.

(** Where [switchProfile] waits or how it ended: [Launched] is the call of
    [runProfileInCurrentTerminal] or [runProfileInTerminal], [TypeError] the
    read of [name] of [undefined]. *)
Inductive Switch :=
  | Choosing (selected : nat) (runMode : RunMode)
  | Launched (runMode : RunMode) (profile : Profile)
  | TypeError
  | Returned
  | Exited.

(** The body of the [while (true)] for one key. *)
Definition switch_key (profiles : list Profile) (selected : nat) (runMode : RunMode)
    (k : Keypress) : Switch :=
  if ctrl k && String.eqb (char k) "c" then Exited
  else if String.eqb (key_name k) "up" || String.eqb (char k) "k"
       then Choosing ((selected + length profiles - 1) mod length profiles) runMode
  else if String.eqb (key_name k) "down" || String.eqb (char k) "j"
       then Choosing ((selected + 1) mod length profiles) runMode
  else if String.eqb (char k) "c" || String.eqb (char k) "C"
       then Choosing selected (match runMode with New => Current | Current => New end)
  else if String.eqb (key_name k) "return" then
    match profiles !! selected with
    | Some profile => Launched runMode profile
    | None => TypeError
    end
  else if String.eqb (key_name k) "escape" then Returned
  else Choosing selected runMode.

(** [switchProfile()] fed with [keys]; the profiles are loaded once. *)
Definition switchProfile (fs : Fs) (keys : list Keypress) : Switch :=
  let profiles := Cli.loadProfiles fs in
  if length profiles =? 0 then Returned
  else foldl (λ s k, match s with
                     | Choosing selected runMode => switch_key profiles selected runMode k
                     | _ => s
                     end) (Choosing 0 Current) keys.

(** The loop of the [current] command and of [showCurrent]: the first
    listed profile whose token and base URL are those of the process. *)
Definition current (fs : Fs) (processEnv : gmap string string) : option Profile :=
  let currentToken := opt_or_else (processEnv !! "ANTHROPIC_AUTH_TOKEN") "" in
  let currentUrl := opt_or_else (processEnv !! "ANTHROPIC_BASE_URL") "" in
  find (λ p, bool_decide (env p !! "ANTHROPIC_AUTH_TOKEN" = Some currentToken)
             && bool_decide (env p !! "ANTHROPIC_BASE_URL" = Some currentUrl))
       (Cli.loadProfiles fs).

End CliSwitch.

(** The keys of the Ink examples: a character, Tab and Down. *)
Definition ink_char (c : ascii) : Ink.Key :=
  Ink.mkInkKey (String c "") false false false false false false false false false.
Definition ink_tab : Ink.Key :=
  Ink.mkInkKey (String "009"%char "") false false true false false false false false false.
Definition ink_down : Ink.Key :=
  Ink.mkInkKey "" false false false true false false false false false.

(** ** What the configure screens of the later CLI keep *)

Definition menu_selected (m : CliFlow.Menu) : nat :=
  match m with
  | CliFlow.ConfigureMenu n | CliFlow.AddNewMenu n => n
  end.

(** A provider that [addCustomProfile] has built so far. *)
Definition custom_inv (stage : CliFlow.CustomStage) (pv : Provider.t) : Prop :=
  match stage with
  | CliFlow.AtProviderName _ => True
  | CliFlow.AtBaseUrl _ => trim (Provider.name pv) ≠ ""
  | CliFlow.AtDefaultModel _ =>
      trim (Provider.name pv) ≠ "" ∧ Provider.baseUrl pv ≠ ""
  | CliFlow.AtAuthUrl _ | CliFlow.AtAuthInstructions _ =>
      trim (Provider.name pv) ≠ "" ∧ Provider.baseUrl pv ≠ ""
      ∧ Provider.defaultModel pv ≠ ""
  end.

(** The providers that reach [configureProvider]: a known one, in the mode
    of the menu it was picked from, or a custom one, whose id is the file
    key of its name. *)
Definition provider_ok (pv : Provider.t) (mode : CliFlow.Mode) (back : CliFlow.Menu)
    : Prop :=
  (pv ∈ CliFlow.KNOWN_PROVIDERS ∧
   mode = match back with
          | CliFlow.ConfigureMenu _ => CliFlow.Edit
          | CliFlow.AddNewMenu _ => CliFlow.Add
          end)
  ∨ (mode = CliFlow.Add ∧
     Provider.id pv = toProfileFileKey (Provider.name pv) ∧
     trim (Provider.name pv) ≠ "" ∧ Provider.baseUrl pv ≠ "" ∧
     Provider.defaultModel pv ≠ "").

Definition screen_inv (sc : CliFlow.Screen) (fs : Fs) : Prop :=
  match sc with
  | CliFlow.InMenu m => menu_selected m < CliFlow.totalItems
  | CliFlow.InCustom stage pv back =>
      menu_selected back < CliFlow.totalItems ∧ custom_inv stage pv
  | CliFlow.InEditor pv mode stage l back =>
      menu_selected back < CliFlow.totalItems ∧ provider_ok pv mode back ∧
      flow_inv pv mode fs stage l fs ∧ ∀ o, stage ≠ CliFlow.Done o
  | _ => True
  end.

(** A file that holds a saved profile with a token. *)
Definition saved_with_token (f : option File) : Prop :=
  ∃ n p e t, f = Some (Json (mkData (Some n) (Some p) (Some e))) ∧
             e !! "ANTHROPIC_AUTH_TOKEN" = Some t ∧ t ≠ "".

(** From [fs0] to [fs] no file was removed, and each file that differs, or
    is new, holds a saved profile with a token; an absent directory stays
    absent. *)
Definition only_saves (fs0 fs : Fs) : Prop :=
  match fs0, fs with
  | None, None => True
  | Some d0, Some d =>
      ∀ filename, d !! filename = d0 !! filename ∨ saved_with_token (d !! filename)
  | _, _ => False
  end.

(** ** What the Ink views keep *)

(** From [fs0] to [fs] nothing was written, and each file that is gone was
    a profile file storing a provider other than ["claude"] and
    ["anthropic"]; an absent directory stays absent. *)
Definition only_removes_custom (fs0 fs : Fs) : Prop :=
  match fs0, fs with
  | None, None => True
  | Some d0, Some d =>
      ∀ filename,
        d !! filename = d0 !! filename
        ∨ (d !! filename = None ∧ skipped filename = false ∧
           ∃ data providerId,
             d0 !! filename = Some (Json data) ∧
             data_provider data = Some providerId ∧
             providerId ≠ "claude" ∧ providerId ≠ "anthropic")
  | _, _ => False
  end.

(** The invariant of the mounted [ConfigureView]: the selected row exists
    and the profile awaiting confirmation is not of provider
    ["anthropic"]. *)
Definition configure_view_inv (n : ConfigureView.Next) (fs : Fs) : Prop :=
  match n with
  | ConfigureView.Stays s =>
      ConfigureView.selected s < length (Profiles.loadProfiles fs) + 1 ∧
      ∀ p, ConfigureView.confirmDelete s = Some p → provider p ≠ "anthropic"
  | ConfigureView.Configures p => p ∈ Profiles.loadProfiles fs
  | ConfigureView.AddsProvider => True
  | ConfigureView.TypeError => False
  end.

(** The invariant of the mounted [AddProviderForm], with the handler of
    [App] behind it, started on the directory [fs0]: nothing is written
    before the form completes, the active field exists, and the data it
    completes with has the required fields. *)
Definition add_provider_inv (fs0 : Fs) (n : AddProviderForm.Next) (fs : Fs) : Prop :=
  match n with
  | AddProviderForm.Stays f =>
      fs = fs0 ∧ AddProviderForm.activeIndex f < length AddProviderForm.fields
  | AddProviderForm.Cancels => fs = fs0
  | AddProviderForm.Completes data =>
      fs = AddProviderForm.handleCustomProviderComplete data fs0 ∧
      CustomProviderData.providerName data ≠ "" ∧
      CustomProviderData.providerId data = slugify (CustomProviderData.providerName data) ∧
      CustomProviderData.profileName data ≠ "" ∧
      CustomProviderData.baseUrl data ≠ "" ∧
      CustomProviderData.token data ≠ "" ∧
      CustomProviderData.defaultModel data ≠ ""
  | AddProviderForm.TypeError => False
  end.

(** ** What the flow of src/cli.ts has established at each of its stages *)

(** The invariant of [configureProvider] of src/cli.ts started on the
    directory [fs0]: the directory is untouched until the save, the token is
    not blank once the flow is past the token prompt, and a flow that ended
    with the save made it from [fs0]. *)
Definition v1_flow_inv (pv : Provider.t) (fs0 : Fs) (stage : CliV1Flow.Stage)
    (l : CliV1Flow.Locals) (fs : Fs) : Prop :=
  match stage with
  | CliV1Flow.AtModel _ | CliV1Flow.AtTimeout _ =>
      fs = fs0 ∧ truthy (trim (CliV1Flow.authToken l)) = true
  | CliV1Flow.Done Saved =>
      truthy (trim (CliV1Flow.authToken l)) = true ∧
      ∃ timeout, CliV1Flow.save_configured pv l timeout fs0 = (CliV1Flow.Done Saved, fs)
  | _ => fs = fs0
  end.

(** * Properties *)

(** ** Characters and strings *)

Arguments is_lower_alnum : simpl never.
Arguments is_hyphen : simpl never.
Arguments is_js_space : simpl never.
Arguments lower_char : simpl never.

Lemma alnum_not_hyphen c : is_lower_alnum c = true → is_hyphen c = false.
Proof. destruct c as [[] [] [] [] [] [] [] []]; vm_compute; congruence. Qed.

Lemma alnum_not_space c : is_lower_alnum c = true → is_js_space c = false.
Proof. destruct c as [[] [] [] [] [] [] [] []]; vm_compute; congruence. Qed.

Lemma lower_char_alnum c : is_lower_alnum c = true → lower_char c = c.
Proof. destruct c as [[] [] [] [] [] [] [] []]; vm_compute; congruence. Qed.

Lemma is_hyphen_true c : is_hyphen c = true ↔ c = "-"%char.
Proof. unfold is_hyphen. apply bool_decide_eq_true. Qed.

Lemma chars_str l : chars (str l) = l.
Proof. apply list_ascii_of_string_of_list_ascii. Qed.

Lemma str_chars s : str (chars s) = s.
Proof. apply string_of_list_ascii_of_string. Qed.

Lemma str_nil_iff l : str l = "" ↔ l = [].
Proof. destruct l; simpl; split; congruence. Qed.

Lemma chars_app s t : chars (s +:+ t) = chars s ++ chars t.
Proof. induction s as [|a s IH]; simpl; [done|]. by rewrite IH. Qed.

Lemma or_else_nonempty a b : a ≠ "" → or_else a b = a.
Proof. unfold or_else, truthy. destruct (String.eqb_spec a ""); simpl; congruence. Qed.

Lemma or_else_empty b : or_else "" b = b.
Proof. done. Qed.

Lemma or_else_str l b : or_else (str l) b = if l is [] then b else str l.
Proof. destruct l; done. Qed.

(** ** The two trimming loops *)

Lemma drop_while_Forall {A} (P : A → Prop) f l :
  Forall P l → Forall P (drop_while f l).
Proof. induction 1 as [|x l Hx Hl IH]; simpl; [constructor|]. destruct (f x); auto. Qed.

Lemma drop_while_end_Forall {A} (P : A → Prop) f l :
  Forall P l → Forall P (drop_while_end f l).
Proof.
  induction 1 as [|x l Hx Hl IH]; simpl; [constructor|].
  destruct (drop_while_end f l); [destruct (f x)|]; auto.
Qed.

Lemma drop_while_head {A} (f : A → bool) x l : f x = false → drop_while f (x :: l) = x :: l.
Proof. simpl. by intros ->. Qed.

Lemma drop_while_end_id {A} (f : A → bool) l :
  (∀ x, last l = Some x → f x = false) → drop_while_end f l = l.
Proof.
  induction l as [|x l IH]; [done|]. intros Hlast. simpl.
  destruct l as [|y l].
  - simpl. by rewrite (Hlast x).
  - rewrite IH; [done|]. intros z Hz. apply Hlast. by rewrite last_cons, Hz.
Qed.

Lemma drop_while_end_snoc {A} (f : A → bool) l x :
  drop_while_end f (l ++ [x]) = if f x then drop_while_end f l else l ++ [x].
Proof.
  induction l as [|a l IH]; simpl; [by destruct (f x)|].
  rewrite IH. destruct (f x); [done|]. by destruct l.
Qed.

(** [drop_while_end] is [drop_while] seen from the end. *)
Lemma drop_while_end_rev {A} (f : A → bool) l :
  drop_while_end f l = rev (drop_while f (rev l)).
Proof.
  induction l as [|x l IH] using rev_ind; [done|].
  rewrite drop_while_end_snoc, rev_app_distr. simpl.
  destruct (f x); [done|]. simpl. by rewrite rev_involutive.
Qed.

(** ** Slugs *)

Example slugify_my_glm : slugify "My GLM" = "my-glm".
Proof. reflexivity. Qed.

Example slugify_runs_and_edges : slugify "--GLM  (Zhipu AI)!" = "glm-zhipu-ai".
Proof. reflexivity. Qed.

Example slugify_inner_hyphens : slugify "a--b_-_c" = "a-b-c".
Proof. reflexivity. Qed.

Example slugify_empty : slugify "" = "profile".
Proof. reflexivity. Qed.

Example toProfileFileKey_padded : toProfileFileKey "  Anthropic Claude " = "anthropic-claude".
Proof. reflexivity. Qed.

Lemma replace_hyphenated b l : hyphenated b (replace_non_alnum_runs b l) = true.
Proof.
  revert b. induction l as [|c l IH]; intros b; simpl; [done|].
  destruct (is_lower_alnum c) eqn:Hc.
  - simpl. by rewrite Hc.
  - destruct b; [done|]. simpl. by rewrite IH.
Qed.

Lemma hyphenated_drop_leading b l :
  hyphenated b l = true → hyphenated true (drop_while is_hyphen l) = true.
Proof.
  revert b. induction l as [|c l IH]; intros b; simpl; [done|].
  destruct (is_lower_alnum c) eqn:Hc.
  - intros H. rewrite (alnum_not_hyphen c Hc). simpl. by rewrite Hc.
  - destruct (is_hyphen c); simpl; [|done].
    intros [_ H]%andb_prop. eauto.
Qed.

Lemma hyphenated_drop_trailing b l :
  hyphenated b l = true →
  drop_while_end is_hyphen l = [] ∨ slug_from b (drop_while_end is_hyphen l) = true.
Proof.
  revert b. induction l as [|c l IH]; intros b; simpl; [by left|].
  destruct (is_lower_alnum c) eqn:Hc.
  - intros H. right. destruct (IH false H) as [-> | Hs].
    + rewrite (alnum_not_hyphen c Hc). simpl. by rewrite Hc.
    + rewrite (alnum_not_hyphen c Hc).
      destruct (drop_while_end is_hyphen l); simpl; by rewrite Hc.
  - destruct (is_hyphen c) eqn:Hh; simpl; [|done].
    destruct b; simpl; [done|]. intros H.
    destruct (IH true H) as [-> | Hs]; [by left|]. right.
    destruct (drop_while_end is_hyphen l) eqn:E; [done|].
    simpl. rewrite Hc, Hh. done.
Qed.

Lemma slug_chars_cases l : slug_chars l = [] ∨ slug_from true (slug_chars l) = true.
Proof.
  unfold slug_chars, strip_hyphens.
  apply hyphenated_drop_trailing, (hyphenated_drop_leading false), replace_hyphenated.
Qed.

Lemma slug_from_head l :
  slug_from true l = true → ∃ c l', l = c :: l' ∧ is_lower_alnum c = true.
Proof.
  destruct l as [|c l]; simpl; [done|].
  destruct (is_lower_alnum c) eqn:Hc; [eauto|]. by destruct (is_hyphen c).
Qed.

Lemma slug_from_last b l x :
  slug_from b l = true → last l = Some x → is_lower_alnum x = true.
Proof.
  revert b. induction l as [|c l IH]; intros b; simpl; [done|].
  destruct l as [|d l].
  - simpl. intros H [= <-]. destruct (is_lower_alnum c); [done|].
    destruct (is_hyphen c); [|done]. by destruct b.
  - rewrite last_cons. intros H Hx.
    assert (last (d :: l) = Some x) as Hx'.
    { destruct (last (d :: l)) eqn:E; [done|]. by apply last_None in E. }
    destruct (is_lower_alnum c); [by eapply IH|].
    destruct (is_hyphen c); [|done].
    apply andb_prop in H as [_ H]. by eapply IH.
Qed.

Lemma slug_from_hyphenated b l : slug_from b l = true → hyphenated b l = true.
Proof.
  revert b. induction l as [|c l IH]; intros b; simpl; [done|].
  destruct (is_lower_alnum c); [apply IH|].
  destruct (is_hyphen c); [|done]. simpl.
  intros [-> H]%andb_prop. simpl. by apply IH.
Qed.

Lemma replace_id b l : hyphenated b l = true → replace_non_alnum_runs b l = l.
Proof.
  revert b. induction l as [|c l IH]; intros b; simpl; [done|].
  destruct (is_lower_alnum c).
  - intros H. by rewrite IH.
  - destruct (is_hyphen c) eqn:Hh; simpl; [|done].
    destruct b; simpl; [done|]. intros H. apply is_hyphen_true in Hh as ->.
    by rewrite IH.
Qed.

Lemma slug_lower_id b l : slug_from b l = true → map lower_char l = l.
Proof.
  revert b. induction l as [|c l IH]; intros b; simpl; [done|].
  destruct (is_lower_alnum c) eqn:Hc.
  - intros H. by rewrite (lower_char_alnum c Hc), (IH false).
  - destruct (is_hyphen c) eqn:Hh; [|done]. apply is_hyphen_true in Hh as ->.
    intros [_ H]%andb_prop. by rewrite (IH true).
Qed.

(** On a slug every stage of the pipeline is the identity. *)
Lemma slug_chars_id l : slug_from true l = true → slug_chars l = l.
Proof.
  intros H. unfold slug_chars, strip_hyphens.
  destruct (slug_from_head l H) as (c & l' & -> & Hc).
  assert (hyphenated false (c :: l') = true) as Hh.
  { apply slug_from_hyphenated in H. simpl in *. by rewrite Hc in *. }
  rewrite (replace_id _ _ Hh), drop_while_head by by apply alnum_not_hyphen.
  apply drop_while_end_id. intros x Hx.
  eapply alnum_not_hyphen, slug_from_last; eauto.
Qed.

Lemma slug_trim_id l :
  slug_from true l = true →
  drop_while_end is_js_space (drop_while is_js_space l) = l.
Proof.
  intros H. destruct (slug_from_head l H) as (c & l' & -> & Hc).
  rewrite drop_while_head by by apply alnum_not_space.
  apply drop_while_end_id. intros x Hx.
  eapply alnum_not_space, slug_from_last; eauto.
Qed.

Lemma is_slug_nonempty s : is_slug s = true → s ≠ "".
Proof. by intros H ->. Qed.

Lemma slugify_fixes_slugs s : is_slug s = true → slugify s = s.
Proof.
  intros H. unfold slugify, toLowerCase.
  rewrite (slug_lower_id true) by done.
  rewrite str_chars, (slug_chars_id _ H), str_chars.
  apply or_else_nonempty. by apply is_slug_nonempty.
Qed.

Lemma toProfileFileKey_fixes_slugs s : is_slug s = true → toProfileFileKey s = s.
Proof.
  intros H. unfold toProfileFileKey, toLowerCase, trim.
  rewrite (slug_trim_id _ H), str_chars.
  rewrite (slug_lower_id true) by done.
  rewrite str_chars, (slug_chars_id _ H), str_chars.
  apply or_else_nonempty. by apply is_slug_nonempty.
Qed.

Lemma or_else_profile_is_slug l : is_slug (or_else (str (slug_chars l)) "profile") = true.
Proof.
  rewrite or_else_str. destruct (slug_chars_cases l) as [-> | H]; [done|].
  destruct (slug_chars l) eqn:E; [done|]. unfold is_slug. by rewrite chars_str.
Qed.

Lemma slugify_is_slug x : is_slug (slugify x) = true.
Proof. apply or_else_profile_is_slug. Qed.

Lemma toProfileFileKey_is_slug x : is_slug (toProfileFileKey x) = true.
Proof. apply or_else_profile_is_slug. Qed.

Lemma slug_from_shape b l :
  slug_from b l = true →
  Forall (λ c, is_lower_alnum c = true ∨ c = "-"%char) l ∧
  ∀ i, l !! i = Some "-"%char →
       (i = 0 → b = false) ∧ S i < length l ∧ l !! S i ≠ Some "-"%char.
Proof.
  revert b. induction l as [|c l IH]; intros b; simpl.
  { intros _. split; [constructor|]. intros i Hi. by rewrite lookup_nil in Hi. }
  destruct (is_lower_alnum c) eqn:Hc.
  - intros H. destruct (IH false H) as [Hall Hhyph]. split; [constructor; auto|].
    intros [|i]; simpl.
    + intros [= ->]. by vm_compute in Hc.
    + intros Hi. destruct (Hhyph i Hi) as (_ & Hlen & Hnext). repeat split; [done|lia|done].
  - destruct (is_hyphen c) eqn:Hh; [|done]. apply is_hyphen_true in Hh as ->.
    intros [Hb H]%andb_prop. destruct (IH true H) as [Hall Hhyph].
    split; [constructor; auto|].
    intros [|i]; simpl.
    + intros _. split; [by destruct b|]. split.
      * destruct l; [done|simpl; lia].
      * intros H0. by destruct (Hhyph 0 H0) as [Habs _]; specialize (Habs eq_refl).
    + intros Hi. destruct (Hhyph i Hi) as (_ & Hlen & Hnext). repeat split; [done|lia|done].
Qed.

Lemma is_slug_shaped s : is_slug s = true → slug_shaped s.
Proof.
  intros H. split; [by apply is_slug_nonempty|].
  destruct (slug_from_shape true (chars s) H) as [Hall Hhyph]. split; [done|].
  intros i Hi. destruct (Hhyph i Hi) as (H0 & Hlen & Hnext). repeat split; [|done..].
  destruct i; [by specialize (H0 eq_refl)|lia].
Qed.

Lemma replace_no_alnum l :
  Forall (λ c, is_lower_alnum c = false) l →
  replace_non_alnum_runs true l = [] ∧
  replace_non_alnum_runs false l = (if l is [] then [] else ["-"%char]).
Proof.
  induction 1 as [|c l Hc Hl [IH1 IH2]]; simpl; [done|]. by rewrite Hc, IH1.
Qed.

Lemma slug_chars_no_alnum l :
  Forall (λ c, is_lower_alnum c = false) l → slug_chars l = [].
Proof.
  intros H. unfold slug_chars. destruct (replace_no_alnum l H) as [_ ->].
  by destruct l.
Qed.

Lemma slugify_no_alnum x :
  Forall (λ c, is_lower_alnum (lower_char c) = false) (chars x) → slugify x = "profile".
Proof.
  intros H. unfold slugify, toLowerCase. rewrite chars_str, slug_chars_no_alnum; [done|].
  by apply Forall_fmap.
Qed.

Lemma toProfileFileKey_no_alnum x :
  Forall (λ c, is_lower_alnum (lower_char c) = false) (chars x) →
  toProfileFileKey x = "profile".
Proof.
  intros H. unfold toProfileFileKey, toLowerCase, trim.
  rewrite !chars_str, slug_chars_no_alnum; [done|].
  by apply Forall_fmap, drop_while_end_Forall, drop_while_Forall.
Qed.

(** C2: [slugify] is idempotent, its result has the shape of a slug
    (lowercase ASCII alphanumerics, single hyphens strictly inside), and an
    input without any alphanumeric, such as ["???"], gives the fallback
    ["profile"], never the empty string.  The same holds for
    [toProfileFileKey], the variant that trims first. *)
Theorem slugify_idempotent_slug_fallback (x : string) :
  slugify (slugify x) = slugify x ∧
  slug_shaped (slugify x) ∧
  (Forall (λ c, is_lower_alnum (lower_char c) = false) (chars x) →
   slugify x = "profile") ∧
  slugify "???" = "profile" ∧
  toProfileFileKey (toProfileFileKey x) = toProfileFileKey x ∧
  slug_shaped (toProfileFileKey x) ∧
  (Forall (λ c, is_lower_alnum (lower_char c) = false) (chars x) →
   toProfileFileKey x = "profile").
Proof.
  split; [apply slugify_fixes_slugs, slugify_is_slug|].
  split; [apply is_slug_shaped, slugify_is_slug|].
  split; [apply slugify_no_alnum|].
  split; [reflexivity|].
  split; [apply toProfileFileKey_fixes_slugs, toProfileFileKey_is_slug|].
  split; [apply is_slug_shaped, toProfileFileKey_is_slug|].
  apply toProfileFileKey_no_alnum.
Qed.

Lemma slugify_idempotent_slug_fallback_witness :
  slugify " ?! " = "profile" ∧ toProfileFileKey " ?! " = "profile".
Proof.
  destruct (slugify_idempotent_slug_fallback " ?! ") as (_ & _ & H1 & _ & _ & _ & H2).
  split; [apply H1 | apply H2];
    repeat (constructor; [reflexivity|]); constructor.
Defined.

(** ** File names *)

Lemma endsWith_true s suffix :
  endsWith s suffix = true ↔ ∃ k, chars s = k ++ chars suffix.
Proof. unfold endsWith. by rewrite bool_decide_eq_true. Qed.

Lemma endsWith_app k ext : endsWith (k +:+ ext) ext = true.
Proof. apply endsWith_true. exists (chars k). apply chars_app. Qed.

Lemma endsWith_app_inv k s ext :
  endsWith (k +:+ ext) (s +:+ ext) = endsWith k s.
Proof.
  unfold endsWith. apply bool_decide_ext. rewrite !chars_app.
  split; [apply suffix_app_inv | apply suffix_app].
Qed.

Lemma chars_inj s t : chars s = chars t → s = t.
Proof. intros H. by rewrite <-(str_chars s), <-(str_chars t), H. Qed.

Lemma basename_app k ext : basename (k +:+ ext) ext = k.
Proof.
  unfold basename. rewrite endsWith_app, chars_app, length_app.
  replace (length (chars k) + length (chars ext) - length (chars ext))
    with (length (chars k)) by lia.
  by rewrite take_app_length, str_chars.
Qed.

Lemma basename_ext filename ext :
  endsWith filename ext = true → basename filename ext +:+ ext = filename.
Proof.
  intros [k Hk]%endsWith_true.
  assert (filename = str k +:+ ext) as ->.
  { apply chars_inj. by rewrite chars_app, chars_str. }
  by rewrite basename_app.
Qed.

Lemma skipped_false filename :
  skipped filename = false ↔
  endsWith filename ".json" = true ∧ endsWith filename ".example.json" = false.
Proof.
  unfold skipped. destruct (endsWith filename ".json"), (endsWith filename ".example.json");
    simpl; intuition congruence.
Qed.

Lemma skipped_key k : skipped (k +:+ ".json") = endsWith k ".example".
Proof.
  unfold skipped. rewrite endsWith_app. simpl.
  apply (endsWith_app_inv k ".example" ".json").
Qed.

Lemma slug_not_example s : is_slug s = true → endsWith s ".example" = false.
Proof.
  intros H. apply not_true_is_false. intros [k Hk]%endsWith_true.
  destruct (slug_from_shape true (chars s) H) as [Hall _].
  rewrite Hk in Hall. apply Forall_app in Hall as [_ Hall].
  apply Forall_cons in Hall as [[Hdot | Hdot] _]; by vm_compute in Hdot.
Qed.

(** ** The listing loop *)

Lemma elem_of_sort f l : f ∈ sort l ↔ f ∈ l.
Proof. unfold sort. by rewrite merge_sort_Permutation. Qed.

Lemma sort_Sorted l : Sorted String.le (sort l).
Proof. apply (Sorted_merge_sort String.le). Qed.

Lemma elem_of_readdirSync (d : gmap string File) f :
  f ∈ readdirSync d ↔ is_Some (d !! f).
Proof.
  unfold readdirSync. rewrite list_elem_of_fmap. split.
  - intros ([f' x] & -> & H%elem_of_map_to_list). eauto.
  - intros [x H]. exists (f, x). split; [done|]. by apply elem_of_map_to_list.
Qed.

Lemma readdirSync_NoDup (d : gmap string File) : NoDup (readdirSync d).
Proof. apply NoDup_fst_map_to_list. Qed.

Lemma push_loop {A B} (g : A → option B) l acc :
  foldl (λ profiles x, match g x with Some p => profiles ++ [p] | None => profiles end)
    acc l = acc ++ omap g l.
Proof.
  revert acc. induction l as [|x l IH]; intros acc; simpl.
  - by rewrite app_nil_r.
  - rewrite IH. destruct (g x); [|done]. by rewrite <-app_assoc.
Qed.

Lemma load_with_omap mk (d : gmap string File) :
  load_with mk (Some d) = omap (load_entry mk d) (sort (readdirSync d)).
Proof. unfold load_with. by rewrite push_loop. Qed.

Lemma load_entry_Some mk (d : gmap string File) filename p :
  load_entry mk d filename = Some p ↔
  ∃ data, d !! filename = Some (Json data) ∧ skipped filename = false ∧ p = mk filename data.
Proof.
  unfold load_entry. destruct (skipped filename).
  - split; [done|]. by intros (? & _ & ? & _).
  - destruct (d !! filename) as [[| |data]|]; split; try done;
      try (by intros (? & ? & _)).
    + intros [= <-]. eauto.
    + by intros (? & [= <-] & _ & ->).
Qed.

Lemma elem_of_load_with mk (d : gmap string File) p :
  p ∈ load_with mk (Some d) ↔
  ∃ filename data,
    d !! filename = Some (Json data) ∧ skipped filename = false ∧ p = mk filename data.
Proof.
  rewrite load_with_omap, list_elem_of_omap. split.
  - intros (filename & _ & (data & ?)%load_entry_Some). eauto.
  - intros (filename & data & Hd & Hs & ->). exists filename. split.
    + apply elem_of_sort, elem_of_readdirSync. eauto.
    + apply load_entry_Some. eauto.
Qed.

Lemma load_entry_filename (d : gmap string File) filename p :
  load_entry keyed_profile_of d filename = Some p → profile_filename p = filename.
Proof.
  intros (data & _ & [Hj _]%skipped_false & ->)%load_entry_Some.
  unfold profile_filename. simpl. by apply basename_ext.
Qed.

Lemma omap_filenames_sorted (g : string → option Profile) l :
  (∀ f p, g f = Some p → profile_filename p = f) →
  StronglySorted String.le l →
  StronglySorted String.le (profile_filename <$> omap g l).
Proof.
  intros Hg. induction 1 as [|x l Hl IH Hx]; simpl; [constructor|].
  destruct (g x) as [p|] eqn:E; [|done]. simpl. constructor; [done|].
  rewrite (Hg _ _ E). apply Forall_fmap, Forall_forall.
  intros q (f & Hf & Hq)%list_elem_of_omap. simpl. rewrite (Hg _ _ Hq).
  by eapply Forall_forall in Hx.
Qed.

Lemma omap_filenames_NoDup (g : string → option Profile) l :
  (∀ f p, g f = Some p → profile_filename p = f) →
  NoDup l → NoDup (profile_filename <$> omap g l).
Proof.
  intros Hg. induction 1 as [|x l Hx Hl IH]; simpl; [constructor|].
  destruct (g x) as [p|] eqn:E; [|done]. simpl. constructor; [|done].
  rewrite (Hg _ _ E). intros (q & Hq & (f & Hf & Hgf)%list_elem_of_omap)%list_elem_of_fmap.
  rewrite (Hg _ _ Hgf) in Hq. by subst.
Qed.

Lemma listProfiles_without_key fs :
  LocalProfileStore.listProfiles fs = without_key <$> Profiles.loadProfiles fs.
Proof.
  destruct fs as [d|]; [|done].
  unfold LocalProfileStore.listProfiles, Profiles.loadProfiles.
  rewrite !load_with_omap, list_fmap_omap. apply list_omap_ext, Forall2_same_length_lookup_2; [done|].
  intros i f f' Hf Hf'. assert (f' = f) as -> by congruence.
  unfold load_entry. destruct (skipped f); [done|].
  by destruct (d !! f) as [[| |data]|].
Qed.

Lemma listing_sorted mk (d : gmap string File) :
  (∀ f p, load_entry mk d f = Some p → profile_filename p = f) →
  StronglySorted String.le (profile_filename <$> load_with mk (Some d)) ∧
  NoDup (profile_filename <$> load_with mk (Some d)).
Proof.
  intros Hmk. rewrite load_with_omap. split.
  - apply omap_filenames_sorted; [done|].
    apply Sorted_StronglySorted; [apply _|apply sort_Sorted].
  - apply omap_filenames_NoDup; [done|].
    unfold sort. rewrite merge_sort_Permutation. apply readdirSync_NoDup.
Qed.

Lemma keyed_listing_sorted fs :
  StronglySorted String.le (profile_filename <$> load_with keyed_profile_of fs) ∧
  NoDup (profile_filename <$> load_with keyed_profile_of fs).
Proof.
  destruct fs as [d|]; [|split; constructor].
  apply listing_sorted, load_entry_filename.
Qed.

(** C5: a missing directory lists as no profiles; the listing of a
    directory holds exactly the profiles of the entries that end in
    [.json], do not end in [.example.json] and parse, each once and in
    ascending order of file names; every other entry is passed over.  The
    listing of [LocalProfileStore] is the same one without file keys. *)
Theorem listing_skips_examples_and_malformed (d : gmap string File) :
  Profiles.loadProfiles None = [] ∧
  LocalProfileStore.listProfiles None = [] ∧
  (∀ p, p ∈ Profiles.loadProfiles (Some d) ↔
        ∃ filename data,
          d !! filename = Some (Json data) ∧
          endsWith filename ".json" = true ∧
          endsWith filename ".example.json" = false ∧
          p = keyed_profile_of filename data) ∧
  StronglySorted String.le (profile_filename <$> Profiles.loadProfiles (Some d)) ∧
  NoDup (profile_filename <$> Profiles.loadProfiles (Some d)) ∧
  LocalProfileStore.listProfiles (Some d) = without_key <$> Profiles.loadProfiles (Some d).
Proof.
  split; [done|]. split; [done|]. split; [|split; [|split]].
  - intros p. unfold Profiles.loadProfiles. rewrite elem_of_load_with.
    split; intros (filename & data & Hd & H); exists filename, data; split; try done.
    + destruct H as [[? ?]%skipped_false ->]. done.
    + destruct H as (? & ? & ->). split; [|done]. by apply skipped_false.
  - apply (keyed_listing_sorted (Some d)).
  - apply (keyed_listing_sorted (Some d)).
  - apply listProfiles_without_key.
Qed.

(** ** Defaults for missing fields *)

(** A file that parses to [null] is listed by no profile: reading
    [data.name] throws inside the [try]. *)
Lemma null_file_is_not_listed :
  parses_as_json JsonNull = true ∧
  skipped "null.json" = false ∧
  Profiles.loadProfiles (Some {[ "null.json" := JsonNull ]}) = [] ∧
  LocalProfileStore.listProfiles (Some {[ "null.json" := JsonNull ]}) = [].
Proof. by vm_compute. Qed.

(** C10, amended: every listed entry that parses to a value other than
    [null] gives a profile of the listing whose [name] and [provider] are
    the stored ones when these are non-empty strings and the file name
    without [.json] otherwise, and whose [env] is the stored one or the
    empty mapping; the file key is that basename. *)
Theorem loadProfiles_defaults (d : gmap string File) (filename : string)
    (data : ProfileData) :
  d !! filename = Some (Json data) →
  skipped filename = false →
  let base := basename filename ".json" in
  ∃ p, p ∈ Profiles.loadProfiles (Some d) ∧
       without_key p ∈ LocalProfileStore.listProfiles (Some d) ∧
       base +:+ ".json" = filename ∧
       fileKey p = Some base ∧
       name p = match data_name data with
                | Some s => if String.eqb s "" then base else s
                | None => base
                end ∧
       provider p = match data_provider data with
                    | Some s => if String.eqb s "" then base else s
                    | None => base
                    end ∧
       env p = match data_env data with
               | Some e => e
               | None => ∅
               end.
Proof.
  intros Hd Hs base. exists (keyed_profile_of filename data).
  assert (keyed_profile_of filename data ∈ Profiles.loadProfiles (Some d)) as Hin.
  { apply elem_of_load_with. eauto. }
  split; [done|]. split.
  { rewrite listProfiles_without_key. by apply list_elem_of_fmap_2. }
  split; [apply basename_ext; by apply skipped_false in Hs as [? _]|].
  split; [done|]. simpl. unfold opt_or_else, or_else, truthy.
  split; [|split].
  - destruct (data_name data) as [s|]; [|done]. by destruct (String.eqb s "").
  - destruct (data_provider data) as [s|]; [|done]. by destruct (String.eqb s "").
  - by destruct (data_env data).
Qed.

Lemma loadProfiles_defaults_witness :
  ∃ p, p ∈ Profiles.loadProfiles (Some {[ "glm.json" := Json (mkData None (Some "") None) ]}) ∧
       name p = "glm" ∧ provider p = "glm" ∧ env p = ∅.
Proof.
  destruct (loadProfiles_defaults {[ "glm.json" := Json (mkData None (Some "") None) ]}
              "glm.json" (mkData None (Some "") None)
              ltac:(by vm_compute) ltac:(by vm_compute))
    as (p & Hin & _ & _ & _ & Hn & Hp & He).
  exists p. repeat split; assumption.
Defined.

(** ** Saving *)


Lemma effective_key_not_example (p : Profile) :
  (∀ k, fileKey p = Some k → endsWith k ".example" = false) →
  endsWith (fileKey_or p (slugify (name p))) ".example" = false.
Proof.
  intros Hk. unfold fileKey_or, opt_or_else, or_else.
  destruct (fileKey p) as [k|] eqn:E; [|apply slug_not_example, slugify_is_slug].
  destruct (truthy k); [by apply Hk|apply slug_not_example, slugify_is_slug].
Qed.







(** ** Removing the profiles of a provider *)

Lemma remove_step_lookup providerId (cur : gmap string File) filename f :
  Profiles.remove_step providerId cur filename !! f =
  if bool_decide (f = filename) && negb (skipped f) && stores_provider (cur !! f) providerId
  then None else cur !! f.
Proof.
  unfold Profiles.remove_step. destruct (decide (f = filename)) as [->|Hne].
  - rewrite bool_decide_eq_true_2 by done. simpl.
    destruct (skipped filename); simpl; [done|].
    unfold stores_provider.
    destruct (cur !! filename) as [[| |data]|] eqn:E; rewrite ?E; try done.
    destruct (bool_decide (data_provider data = Some providerId)); [|done].
    apply lookup_delete_eq.
  - rewrite bool_decide_eq_false_2 by done. simpl.
    destruct (skipped filename); [done|].
    destruct (cur !! filename) as [[| |data]|]; try done.
    destruct (bool_decide _); [|done]. by apply lookup_delete_ne.
Qed.

Lemma remove_loop_lookup providerId l (cur : gmap string File) f :
  foldl (Profiles.remove_step providerId) cur l !! f =
  if bool_decide (f ∈ l) && negb (skipped f) && stores_provider (cur !! f) providerId
  then None else cur !! f.
Proof.
  revert cur. induction l as [|x l IH]; intros cur; simpl.
  { done. }
  rewrite IH, remove_step_lookup.
  destruct (decide (f = x)) as [->|Hne].
  - rewrite (bool_decide_eq_true_2 (x = x)) by done.
    rewrite (bool_decide_eq_true_2 (x ∈ x :: l)) by apply list_elem_of_here.
    simpl. destruct (skipped x); simpl; [by rewrite !andb_false_r|].
    destruct (stores_provider (cur !! x) providerId) eqn:E; simpl.
    + by rewrite andb_false_r.
    + rewrite E. by rewrite andb_false_r.
  - rewrite (bool_decide_eq_false_2 (f = x)) by done. simpl.
    rewrite (bool_decide_ext (f ∈ x :: l) (f ∈ l)); [done|].
    rewrite elem_of_cons. split; [by intros [?|?]|by right].
Qed.

Lemma removeProviderProfiles_lookup (d : gmap string File) providerId :
  ∃ d', Profiles.removeProviderProfiles (Some d) providerId = Some d' ∧
        ∀ f, d' !! f = if negb (skipped f) && stores_provider (d !! f) providerId
                       then None else d !! f.
Proof.
  eexists. split; [reflexivity|]. intros f.
  simpl.
  rewrite remove_loop_lookup.
  destruct (decide (f ∈ readdirSync d)) as [Hin|Hout].
  - by rewrite bool_decide_eq_true_2.
  - rewrite bool_decide_eq_false_2 by done. simpl.
    assert (d !! f = None) as ->; [|by rewrite andb_false_r].
    apply eq_None_not_Some. by rewrite <-elem_of_readdirSync.
Qed.

(** C6: [removeProviderProfiles] deletes exactly the profile files (entries
    that the listing reads: [.json], not [.example.json], parsing) whose
    stored [provider] is the given id, and changes no other entry; when no
    such file exists, or the directory is missing, nothing changes. *)
Theorem removeProviderProfiles_deletes_exactly (d : gmap string File)
    (providerId : string) :
  Profiles.removeProviderProfiles None providerId = None ∧
  ∃ d', Profiles.removeProviderProfiles (Some d) providerId = Some d' ∧
    (∀ f, skipped f = false → stores_provider (d !! f) providerId = true →
          d' !! f = None) ∧
    (∀ f, skipped f = true ∨ stores_provider (d !! f) providerId = false →
          d' !! f = d !! f) ∧
    ((∀ f, skipped f = false → stores_provider (d !! f) providerId = false) → d' = d).
Proof.
  split; [done|].
  destruct (removeProviderProfiles_lookup d providerId) as (d' & Hd' & Hlook).
  exists d'. split; [done|]. split; [|split].
  - intros f Hs Hp. by rewrite Hlook, Hs, Hp.
  - intros f [Hs | Hp]; rewrite Hlook; [by rewrite Hs|by rewrite Hp, andb_false_r].
  - intros Hnone. apply map_eq. intros f. rewrite Hlook.
    destruct (skipped f) eqn:Hs; [done|]. by rewrite (Hnone f Hs).
Qed.

Lemma removeProviderProfiles_deletes_exactly_witness :
  let d := {[ "a.json" := Json (mkData (Some "A") (Some "glm") None);
              "b.json" := Json (mkData (Some "B") (Some "claude") None);
              "c.example.json" := Json (mkData (Some "C") (Some "glm") None) ]} in
  ∃ d', Profiles.removeProviderProfiles (Some d) "glm" = Some d' ∧
        d' !! "a.json" = None ∧
        d' !! "b.json" = d !! "b.json" ∧
        d' !! "c.example.json" = d !! "c.example.json".
Proof.
  intros d.
  destruct (removeProviderProfiles_deletes_exactly d "glm")
    as (_ & d' & Hd' & Hdel & Hkeep & _).
  exists d'. split; [done|]. split; [|split].
  - apply Hdel; by vm_compute.
  - apply Hkeep. right. by vm_compute.
  - apply Hkeep. left. by vm_compute.
Defined.

(** ** Looking a profile up *)

Lemma find_first_match {A} (f : A → bool) (P : A → Prop) l :
  (∀ x, f x = true ↔ P x) → first_match P l (find f l).
Proof.
  intros Hf. induction l as [|x l IH]; simpl.
  { intros x Hx. by apply not_elem_of_nil in Hx. }
  destruct (f x) eqn:E.
  - exists 0. split; [done|]. split; [by apply Hf|]. intros j y Hj. lia.
  - assert (¬ P x) as Hx by (rewrite <-Hf; congruence).
    destruct (find f l) as [y|]; simpl in *.
    + destruct IH as (i & Hi & Hy & Hbefore). exists (S i).
      split; [done|]. split; [done|].
      intros [|j] z Hj; simpl; [by intros [= <-]|].
      apply Hbefore. lia.
    + intros z [->|Hz]%elem_of_cons; auto.
Qed.

Lemma first_match_elem_of {A} (P : A → Prop) l x :
  first_match P l (Some x) → x ∈ l ∧ P x.
Proof. intros (i & Hi & Hx & _). split; [by eapply list_elem_of_lookup_2|done]. Qed.

Lemma eqb_or_iff a b c d :
  String.eqb a b || String.eqb c d = true ↔ a = b ∨ c = d.
Proof. rewrite orb_true_iff, !String.eqb_eq. done. Qed.

Lemma LocalProfileStore_getProfile_find fs key :
  LocalProfileStore.getProfile fs key =
  find (λ p, String.eqb (toLowerCase (provider p)) (toLowerCase key)
             || String.eqb (toLowerCase (name p)) (toLowerCase key))
       (LocalProfileStore.listProfiles fs).
Proof.
  unfold LocalProfileStore.getProfile.
  induction (LocalProfileStore.listProfiles fs) as [|p l IH]; simpl; [done|].
  destruct (String.eqb (toLowerCase (name p)) (toLowerCase key)); [by rewrite orb_true_r|].
  rewrite orb_false_r.
  by destruct (String.eqb (toLowerCase (provider p)) (toLowerCase key)).
Qed.

Lemma LocalProfileStore_getProfile_first_match fs key :
  first_match (λ p, toLowerCase (provider p) = toLowerCase key
                    ∨ toLowerCase (name p) = toLowerCase key)
    (LocalProfileStore.listProfiles fs) (LocalProfileStore.getProfile fs key).
Proof.
  rewrite LocalProfileStore_getProfile_find. apply find_first_match.
  intros p. apply eqb_or_iff.
Qed.

(** The store of config.ts lowers the provider as well: the key ["GLM"]
    finds the profile of provider ["glm"], which it does not equal. *)
Lemma LocalProfileStore_getProfile_lowers_provider :
  let fs := Some {[ "glm.json" := Json (mkData (Some "My GLM") (Some "glm") (Some ∅)) ]} in
  ¬ first_match (λ p, provider p = "GLM" ∨ toLowerCase (name p) = toLowerCase "GLM")
      (LocalProfileStore.listProfiles fs) (LocalProfileStore.getProfile fs "GLM").
Proof.
  intros fs H.
  assert (LocalProfileStore.getProfile fs "GLM" = Some (mkProfile "My GLM" "glm" ∅ None))
    as E by by vm_compute.
  rewrite E in H. apply first_match_elem_of in H as [_ [H|H]]; discriminate H.
Qed.

(** C1, amended: [getProfile] returns the first profile of the listing
    (which is in ascending order of file names, and the same for all
    variants up to the file key) that matches the key, and nothing when none
    does.  For the CLI, a profile matches when its provider
    equals the key or its name equals the key up to case; for
    [LocalProfileStore], when its provider or its name equals the key up to
    case. *)
Theorem getProfile_returns_first_match (fs : Fs) (key : string) :
  first_match (λ p, provider p = key ∨ toLowerCase (name p) = toLowerCase key)
    (Cli.loadProfiles fs) (Cli.getProfile fs key) ∧
  first_match (λ p, provider p = key ∨ toLowerCase (name p) = toLowerCase key)
    (CliV1.loadProfiles fs) (CliV1.getProfile fs key) ∧
  first_match (λ p, toLowerCase (provider p) = toLowerCase key
                    ∨ toLowerCase (name p) = toLowerCase key)
    (LocalProfileStore.listProfiles fs) (LocalProfileStore.getProfile fs key) ∧
  StronglySorted String.le (profile_filename <$> Cli.loadProfiles fs) ∧
  CliV1.loadProfiles fs = without_key <$> Cli.loadProfiles fs ∧
  LocalProfileStore.listProfiles fs = without_key <$> Cli.loadProfiles fs ∧
  let saved := Some {[ "my-glm.json" := Json (mkData (Some "My GLM") (Some "glm") (Some ∅)) ]} in
  Cli.getProfile saved "MY glm" = Some (mkProfile "My GLM" "glm" ∅ (Some "my-glm")) ∧
  Cli.getProfile saved "glm" = Some (mkProfile "My GLM" "glm" ∅ (Some "my-glm")) ∧
  Cli.getProfile saved "nonexistent" = None ∧
  Cli.getProfile saved "GLM" = None.
Proof.
  split; [|split; [|split; [|split; [|split; [|split]]]]].
  - apply find_first_match. intros p. apply eqb_or_iff.
  - apply find_first_match. intros p. apply eqb_or_iff.
  - apply LocalProfileStore_getProfile_first_match.
  - apply keyed_listing_sorted.
  - apply listProfiles_without_key.
  - apply listProfiles_without_key.
  - vm_compute. repeat split.
Qed.

(** ** Deleting a profile *)

(** A profile stored in a file that is not named after its provider: the
    store answers [true] and deletes nothing. *)
Lemma deleteProfile_true_without_deletion :
  let fs := Some {[ "a.json" := Json (mkData (Some "A") (Some "glm") (Some ∅)) ]} in
  LocalProfileStore.getProfile fs "A" = Some (mkProfile "A" "glm" ∅ None) ∧
  LocalProfileStore.deleteProfile fs "A" = (true, fs).
Proof. vm_compute. split; reflexivity. Qed.

Lemma unlink_if_exists fs filename :
  (if LocalProfileStore.existsSync fs filename
   then LocalProfileStore.unlinkSync fs filename else fs)
  = delete filename <$> fs.
Proof.
  destruct fs as [d|]; simpl; [|done]. case_bool_decide as H; [done|].
  f_equal. symmetry. apply delete_id. by apply eq_None_not_Some.
Qed.

(** C7, amended: [deleteProfile] resolves the key with [getProfile]; without
    a match it answers [false] and changes nothing; with a match it answers
    [true] and removes the entry [<provider>.json] of the matched profile,
    if there is one.  In a directory whose profile files are named after
    the provider they give (as [saveProfile] of this store writes them), that
    entry is the file the matched profile was read from, and it is
    deleted. *)
Theorem deleteProfile_by_provider_file (fs : Fs) (key : string) :
  (LocalProfileStore.getProfile fs key = None →
   LocalProfileStore.deleteProfile fs key = (false, fs)) ∧
  (∀ p, LocalProfileStore.getProfile fs key = Some p →
        LocalProfileStore.deleteProfile fs key
        = (true, delete (provider p +:+ ".json") <$> fs)) ∧
  (∀ d p,
     fs = Some d →
     LocalProfileStore.getProfile fs key = Some p →
     (∀ filename data, d !! filename = Some (Json data) → skipped filename = false →
                       provider (profile_of filename data) +:+ ".json" = filename) →
     ∃ filename data,
       d !! filename = Some (Json data) ∧ skipped filename = false ∧
       p = profile_of filename data ∧
       LocalProfileStore.deleteProfile fs key = (true, Some (delete filename d))).
Proof.
  split; [|split].
  - unfold LocalProfileStore.deleteProfile. by intros ->.
  - intros p Hp. unfold LocalProfileStore.deleteProfile. rewrite Hp.
    by rewrite unlink_if_exists.
  - intros d p -> Hp Hkeyed.
    pose proof (LocalProfileStore_getProfile_first_match (Some d) key) as Hfirst.
    rewrite Hp in Hfirst. apply first_match_elem_of in Hfirst as [Hin _].
    apply elem_of_load_with in Hin as (filename & data & Hd & Hs & ->).
    exists filename, data. split; [done|]. split; [done|]. split; [done|].
    unfold LocalProfileStore.deleteProfile. rewrite Hp, unlink_if_exists.
    by rewrite (Hkeyed filename data Hd Hs).
Qed.

Lemma deleteProfile_by_provider_file_witness :
  let fs := Some {[ "glm.json" := Json (mkData (Some "My GLM") (Some "glm") (Some ∅)) ]} in
  let p := mkProfile "My GLM" "glm" ∅ None in
  LocalProfileStore.getProfile fs "my glm" = Some p ∧
  LocalProfileStore.deleteProfile fs "my glm" = (true, delete (provider p +:+ ".json") <$> fs) ∧
  delete (provider p +:+ ".json") <$> fs = Some ∅.
Proof.
  intros fs p.
  assert (LocalProfileStore.getProfile fs "my glm" = Some p) as Hp by by vm_compute.
  split; [exact Hp|]. split; [|by vm_compute].
  exact (proj1 (proj2 (deleteProfile_by_provider_file fs "my glm")) p Hp).
Defined.

(** ** The editor flows *)

Lemma prompt_return buf : prompt_key buf return_key = Resolved buf.
Proof. done. Qed.

Lemma CliFlow_run_app pv mode st keys1 keys2 :
  CliFlow.run pv mode st (keys1 ++ keys2)
  = CliFlow.run pv mode (CliFlow.run pv mode st keys1) keys2.
Proof. apply foldl_app. Qed.

Lemma CliV1Flow_run_app pv st keys1 keys2 :
  CliV1Flow.run pv st (keys1 ++ keys2)
  = CliV1Flow.run pv (CliV1Flow.run pv st keys1) keys2.
Proof. apply foldl_app. Qed.

(** Only the save at the end of a flow touches the directory. *)
Lemma CliFlow_step_fs pv mode st l fs k :
  (CliFlow.step pv mode st l fs k).2 = fs
  ∨ (CliFlow.step pv mode st l fs k).1.1 = CliFlow.Done Saved.
Proof.
  destruct st as [b|b|sel|o b|b|b|o]; simpl; unfold CliFlow.on_prompt;
    try (destruct (prompt_key b k) as [value|b']; simpl); auto;
    unfold CliFlow.save_configured, Cli.saveProfile;
    repeat case_match; simplify_eq/=; auto.
Qed.

Lemma CliFlow_run_done pv mode o l fs keys :
  CliFlow.run pv mode (CliFlow.Done o, l, fs) keys = (CliFlow.Done o, l, fs).
Proof. induction keys as [|k keys IH]; [done|]. apply IH. Qed.

Lemma CliFlow_run_fs pv mode keys st l fs :
  (CliFlow.run pv mode (st, l, fs) keys).2 = fs
  ∨ (CliFlow.run pv mode (st, l, fs) keys).1.1 = CliFlow.Done Saved.
Proof.
  revert st l fs. induction keys as [|k keys IH]; intros st l fs; [by left|].
  change (CliFlow.run pv mode (st, l, fs) (k :: keys))
    with (CliFlow.run pv mode (CliFlow.step pv mode st l fs k) keys).
  destruct (CliFlow_step_fs pv mode st l fs k) as [Hfs | Hst];
    destruct (CliFlow.step pv mode st l fs k) as [[st1 l1] fs1]; simpl in *.
  - subst. apply IH.
  - subst. right. by rewrite CliFlow_run_done.
Qed.

Lemma CliV1Flow_step_fs pv st l fs k :
  (CliV1Flow.step pv st l fs k).2 = fs
  ∨ (CliV1Flow.step pv st l fs k).1.1 = CliV1Flow.Done Saved.
Proof.
  destruct st as [b|b|o b|b|b|o]; simpl;
    try (destruct (prompt_key b k) as [value|b']; simpl); auto;
    unfold CliV1Flow.save_configured, CliV1.saveProfile;
    repeat case_match; simplify_eq/=; auto.
Qed.

Lemma CliV1Flow_run_done pv o l fs keys :
  CliV1Flow.run pv (CliV1Flow.Done o, l, fs) keys = (CliV1Flow.Done o, l, fs).
Proof. induction keys as [|k keys IH]; [done|]. apply IH. Qed.

Lemma CliV1Flow_run_fs pv keys st l fs :
  (CliV1Flow.run pv (st, l, fs) keys).2 = fs
  ∨ (CliV1Flow.run pv (st, l, fs) keys).1.1 = CliV1Flow.Done Saved.
Proof.
  revert st l fs. induction keys as [|k keys IH]; intros st l fs; [by left|].
  change (CliV1Flow.run pv (st, l, fs) (k :: keys))
    with (CliV1Flow.run pv (CliV1Flow.step pv st l fs k) keys).
  destruct (CliV1Flow_step_fs pv st l fs k) as [Hfs | Hst];
    destruct (CliV1Flow.step pv st l fs k) as [[st1 l1] fs1]; simpl in *.
  - subst. apply IH.
  - subst. right. by rewrite CliV1Flow_run_done.
Qed.

Lemma CliFlow_token_return pv mode oauth buf l fs :
  truthy (trim buf) = false →
  CliFlow.step pv mode (CliFlow.AtToken oauth buf) l fs return_key
  = (CliFlow.Done Cancelled, l, fs).
Proof. intros H. simpl. unfold CliFlow.on_prompt. simpl. by rewrite H. Qed.

Lemma CliV1Flow_token_return pv oauth buf l fs :
  truthy (trim buf) = false →
  CliV1Flow.step pv (CliV1Flow.AtToken oauth buf) l fs return_key
  = (CliV1Flow.Done Cancelled, l, fs).
Proof. intros H. simpl. by rewrite H. Qed.

(** In the Ink form, Return on an empty token keeps the form open: neither
    callback runs, so the flow is not left and the configure view does not
    come back. *)
Lemma ink_empty_token_keeps_editor_open :
  let p := mkProfile "My GLM" "glm" ∅ (Some "my-glm") in
  let app := Ink.mkApp [Ink.VMain; Ink.VConfigure] 1 (Some (p, Ink.mount p)) false false in
  Ink.token (Ink.values (Ink.mount p)) = "" ∧
  ∃ ed', Ink.editing_key p (Ink.mount p) app None Ink.return_key
         = (Ink.mkApp [Ink.VMain; Ink.VConfigure] 1 (Some (p, ed')) false false, None) ∧
         Ink.error ed' = Some "Token is required".
Proof. split; [by vm_compute|]. eexists. split; by vm_compute. Qed.

(** C8, amended: in both readline flows, Return on a token prompt whose
    buffer is empty (or blank) ends [configureProvider] as a cancellation:
    the directory is as it was when the flow started, and the menu that
    called the flow (the configure menu, or the add menu) is back with its
    selection.  In the Ink form, Return on an empty (or blank) token writes
    nothing either, but the form stays open with the message that the token
    is required. *)
Theorem empty_token_saves_nothing (pv : Provider.t) (fs : Fs) (buf : string) :
  truthy (trim buf) = false →
  (∀ mode keys oauth l fs1,
     CliFlow.configureProvider pv mode fs keys = (CliFlow.AtToken oauth buf, l, fs1) →
     CliFlow.configureProvider pv mode fs (keys ++ [return_key])
       = (CliFlow.Done Cancelled, l, fs)) ∧
  (∀ mode oauth l back,
     CliFlow.screen_key (CliFlow.InEditor pv mode (CliFlow.AtToken oauth buf) l back)
       fs return_key = (CliFlow.InMenu back, fs)) ∧
  (∀ keys oauth l fs1,
     CliV1Flow.configureProvider pv fs keys = (CliV1Flow.AtToken oauth buf, l, fs1) →
     CliV1Flow.configureProvider pv fs (keys ++ [return_key])
       = (CliV1Flow.Done Cancelled, l, fs)) ∧
  (∀ profile ed app,
     Ink.token (Ink.values ed) = buf →
     Ink.view app ≠ Ink.VMain →
     Ink.editing app = Some (profile, ed) →
     Ink.editing_key profile ed app fs Ink.return_key
       = (Ink.mkApp (Ink.viewStack app) (Ink.menuIndex app)
            (Some (profile, Ink.mkEditor (Ink.activeIndex ed)
                              (Some "Token is required") (Ink.values ed)))
            (Ink.escExitArmed app) (Ink.exited app), fs)).
Proof.
  intros Hblank. split; [|split; [|split]].
  - intros mode keys oauth l fs1 Hrun. unfold CliFlow.configureProvider in *.
    assert (fs1 = fs) as ->.
    { pose proof (CliFlow_run_fs pv mode keys (CliFlow.start pv).1 (CliFlow.start pv).2 fs)
        as Hfs.
      change ((CliFlow.start pv).1, (CliFlow.start pv).2, fs)
        with (CliFlow.start pv, fs) in Hfs.
      rewrite Hrun in Hfs. by destruct Hfs. }
    rewrite CliFlow_run_app, Hrun.
    by apply CliFlow_token_return.
  - intros mode oauth l back.
    change (CliFlow.resume pv mode back
              (CliFlow.step pv mode (CliFlow.AtToken oauth buf) l fs return_key)
            = (CliFlow.InMenu back, fs)).
    by rewrite CliFlow_token_return.
  - intros keys oauth l fs1 Hrun. unfold CliV1Flow.configureProvider in *.
    assert (fs1 = fs) as ->.
    { pose proof (CliV1Flow_run_fs pv keys (CliV1Flow.start pv).1 (CliV1Flow.start pv).2 fs)
        as Hfs.
      change ((CliV1Flow.start pv).1, (CliV1Flow.start pv).2, fs)
        with (CliV1Flow.start pv, fs) in Hfs.
      rewrite Hrun in Hfs. by destruct Hfs. }
    rewrite CliV1Flow_run_app, Hrun.
    by apply CliV1Flow_token_return.
  - intros profile ed app Htoken Hview Hed.
    unfold Ink.editing_key, Ink.editor_key. simpl. rewrite Htoken, Hblank. simpl.
    unfold Ink.app_key. simpl. destruct (Ink.view app); [done|..]; simpl; by rewrite Hed.
Qed.

Lemma empty_token_saves_nothing_witness :
  CliFlow.configureProvider claude CliFlow.Edit (Some ∅)
    ([return_key; return_key; return_key] ++ [return_key])
  = (CliFlow.Done Cancelled,
     CliFlow.mkLocals "Anthropic Claude" (Some "anthropic-claude")
       "https://api.anthropic.com" "" "",
     Some ∅) ∧
  CliFlow.screen_key
    (CliFlow.InEditor claude CliFlow.Edit (CliFlow.AtToken false "")
       (CliFlow.mkLocals "Anthropic Claude" (Some "anthropic-claude")
          "https://api.anthropic.com" "" "")
       (CliFlow.ConfigureMenu 1))
    (Some ∅) return_key
  = (CliFlow.InMenu (CliFlow.ConfigureMenu 1), Some ∅).
Proof.
  pose proof (empty_token_saves_nothing claude (Some ∅) "" eq_refl) as (Hrun & Hscreen & _).
  split; [|apply Hscreen].
  apply (Hrun CliFlow.Edit [return_key; return_key; return_key] false _ (Some ∅)).
  by vm_compute.
Defined.

Arguments CliFlow.save_configured : simpl never.
Arguments CliFlow.name_entered : simpl never.
Arguments CliV1Flow.save_configured : simpl never.

Lemma append_cons a s t : String a s +:+ t = String a (s +:+ t).
Proof. done. Qed.

Lemma append_snoc buf c s : (buf +:+ String c "") +:+ s = buf +:+ String c s.
Proof. induction buf as [|a buf IH]; [done|]. by rewrite !append_cons, IH. Qed.

Lemma append_empty_r s : s +:+ "" = s.
Proof. induction s as [|a s IH]; [done|]. by rewrite append_cons, IH. Qed.

Lemma prompt_char buf c :
  c ≠ "027"%char → prompt_key buf (char_key c) = Pending (buf +:+ String c "").
Proof.
  intros Hc. unfold prompt_key. cbn [char key_name char_key].
  assert (String.eqb (String c "") ESC = false) as ->; [|done].
  apply String.eqb_neq. unfold ESC. congruence.
Qed.

Lemma merge_env_holds e token baseUrl model :
  baseUrl = "https://api.anthropic.com" →
  model = "claude-sonnet-4-20250514" →
  holds_claude_defaults (merge_env e token baseUrl model "3000000") (trim token).
Proof.
  intros -> ->. unfold holds_claude_defaults, merge_env.
  repeat split; by simplify_map_eq.
Qed.


Lemma CliFlow_typed pv mode oauth l fs s buf :
  (∀ c, c ∈ chars s → c ≠ "027"%char) →
  CliFlow.run pv mode (CliFlow.AtToken oauth buf, l, fs) (typed s)
  = (CliFlow.AtToken oauth (buf +:+ s), l, fs).
Proof.
  revert buf. induction s as [|c s IH]; intros buf Hs.
  - simpl. by rewrite append_empty_r.
  - change (typed (String c s)) with (char_key c :: typed s).
    unfold CliFlow.run in *. simpl. unfold CliFlow.on_prompt.
    rewrite prompt_char by (apply Hs; simpl; apply list_elem_of_here).
    simpl. rewrite IH, append_snoc; [done|].
    intros c' Hc'. apply Hs. simpl. by apply list_elem_of_further.
Qed.

Lemma CliFlow_defaults_run pv mode (d : gmap string File) token n key :
  (∀ c, c ∈ chars token → c ≠ "027"%char) →
  truthy (trim token) = true →
  CliFlow.name_entered pv mode (Some d) "" = Some (n, key) →
  ∃ l filename e0,
    CliFlow.configureProvider pv mode (Some d)
      ([return_key; return_key]
       ++ (if present (Provider.authUrl pv) then [return_key] else [])
       ++ typed token ++ [return_key; return_key; return_key])
    = (CliFlow.Done Saved, l,
       Some (<[filename := Json (mkData (Some n) (Some (Provider.id pv))
                                  (Some (merge_env e0 token (Provider.baseUrl pv)
                                           (Provider.defaultModel pv) "3000000")))]> d)).
Proof.
  intros Hesc Htoken Hname. eexists _, _, _.
  unfold CliFlow.configureProvider, CliFlow.start.
  assert (CliFlow.run pv mode
            (CliFlow.AtName "",
             CliFlow.mkLocals (Provider.name pv) None (Provider.baseUrl pv) "" "", Some d)
            ([return_key; return_key]
             ++ (if present (Provider.authUrl pv) then [return_key] else []))
          = (CliFlow.AtToken false "",
             CliFlow.mkLocals n key (Provider.baseUrl pv) "" "", Some d)) as Hstart.
  { unfold CliFlow.run. rewrite foldl_app. simpl. unfold CliFlow.on_prompt. simpl.
    rewrite Hname. simpl. unfold CliFlow.on_prompt. simpl.
    by destruct (present (Provider.authUrl pv)). }
  rewrite app_assoc, CliFlow_run_app, Hstart, CliFlow_run_app, CliFlow_typed by done.
  change ("" +:+ token) with token.
  unfold CliFlow.run. simpl. unfold CliFlow.on_prompt. simpl. rewrite Htoken. simpl.
  unfold CliFlow.on_prompt. simpl. unfold CliFlow.on_prompt. simpl.
  reflexivity.
Qed.


Lemma CliV1Flow_typed pv oauth l fs s buf :
  (∀ c, c ∈ chars s → c ≠ "027"%char) →
  CliV1Flow.run pv (CliV1Flow.AtToken oauth buf, l, fs) (typed s)
  = (CliV1Flow.AtToken oauth (buf +:+ s), l, fs).
Proof.
  revert buf. induction s as [|c s IH]; intros buf Hs.
  - simpl. by rewrite append_empty_r.
  - change (typed (String c s)) with (char_key c :: typed s).
    unfold CliV1Flow.run in *. simpl.
    rewrite prompt_char by (apply Hs; simpl; apply list_elem_of_here).
    simpl. rewrite IH, append_snoc; [done|].
    intros c' Hc'. apply Hs. simpl. by apply list_elem_of_further.
Qed.

Lemma CliV1Flow_defaults_run pv (d : gmap string File) token :
  (∀ c, c ∈ chars token → c ≠ "027"%char) →
  truthy (trim token) = true →
  ∃ l filename nm pr e0,
    CliV1Flow.configureProvider pv (Some d)
      ([return_key; return_key] ++ typed token ++ [return_key; return_key; return_key])
    = (CliV1Flow.Done Saved, l,
       Some (<[filename := Json (mkData (Some nm) (Some pr)
                                  (Some (merge_env e0 token (Provider.baseUrl pv)
                                           (Provider.defaultModel pv) "3000000")))]> d)).
Proof.
  intros Hesc Htoken. eexists _, _, _, _, _.
  unfold CliV1Flow.configureProvider, CliV1Flow.start.
  rewrite CliV1Flow_run_app.
  assert (CliV1Flow.run pv
            (CliV1Flow.AtUrl "", CliV1Flow.mkLocals (Provider.baseUrl pv) "" "", Some d)
            [return_key; return_key]
          = (CliV1Flow.AtToken false "",
             CliV1Flow.mkLocals (Provider.baseUrl pv) "" "", Some d)) as -> by done.
  rewrite CliV1Flow_run_app, CliV1Flow_typed by done.
  change ("" +:+ token) with token.
  unfold CliV1Flow.run. simpl. rewrite Htoken. simpl.
  unfold CliV1Flow.save_configured, CliV1.saveProfile, written. simpl.
  reflexivity.
Qed.

(** The token is stored trimmed, not as it was typed. *)
Lemma token_is_stored_trimmed :
  let keys := [return_key; return_key] ++ typed " sk-1 "
              ++ [return_key; return_key; return_key] in
  let e := merge_env ∅ " sk-1 " "https://api.anthropic.com" "claude-sonnet-4-20250514"
             "3000000" in
  CliV1Flow.configureProvider claude (Some ∅) keys
  = (CliV1Flow.Done Saved,
     CliV1Flow.mkLocals "https://api.anthropic.com" " sk-1 " "claude-sonnet-4-20250514",
     Some {[ "claude.json" := Json (mkData (Some "Anthropic Claude") (Some "claude") (Some e)) ]}) ∧
  e !! "ANTHROPIC_AUTH_TOKEN" = Some "sk-1" ∧
  e !! "ANTHROPIC_AUTH_TOKEN" ≠ Some " sk-1 ".
Proof. vm_compute. split; [reflexivity|]. split; [reflexivity|discriminate]. Qed.

(** C9, amended: for a provider with id ["claude"], base URL
    [https://api.anthropic.com] and default model [claude-sonnet-4-20250514],
    an existing profiles directory, and a run in which the user types only a
    token that is not blank and answers every other prompt with Return (in
    the later CLI: with the default name accepted), the flow ends with one
    file written, whose [env] holds the base URL, the model, the timeout
    ["3000000"], the token with the white space around it removed, and the
    flag [CLAUDE_CODE_DISABLE_NONESSENTIAL_TRAFFIC = "1"]. *)
Theorem editor_flow_saves_claude_defaults (pv : Provider.t) (d : gmap string File)
    (token : string) :
  Provider.id pv = "claude" →
  Provider.baseUrl pv = "https://api.anthropic.com" →
  Provider.defaultModel pv = "claude-sonnet-4-20250514" →
  (∀ c, c ∈ chars token → c ≠ "027"%char) →
  truthy (trim token) = true →
  (∀ mode n key,
     CliFlow.name_entered pv mode (Some d) "" = Some (n, key) →
     ∃ l filename e,
       CliFlow.configureProvider pv mode (Some d)
         ([return_key; return_key]
          ++ (if present (Provider.authUrl pv) then [return_key] else [])
          ++ typed token ++ [return_key; return_key; return_key])
       = (CliFlow.Done Saved, l,
          Some (<[filename := Json (mkData (Some n) (Some "claude") (Some e))]> d)) ∧
       holds_claude_defaults e (trim token)) ∧
  (∃ l filename nm pr e,
     CliV1Flow.configureProvider pv (Some d)
       ([return_key; return_key] ++ typed token ++ [return_key; return_key; return_key])
     = (CliV1Flow.Done Saved, l,
        Some (<[filename := Json (mkData (Some nm) (Some pr) (Some e))]> d)) ∧
     holds_claude_defaults e (trim token)).
Proof.
  intros Hid Hurl Hmodel Hesc Htoken. split.
  - intros mode n key Hname.
    destruct (CliFlow_defaults_run pv mode d token n key Hesc Htoken Hname)
      as (l & filename & e0 & Hrun).
    exists l, filename, (merge_env e0 token (Provider.baseUrl pv)
                           (Provider.defaultModel pv) "3000000").
    split; [by rewrite Hrun, Hid|]. by apply merge_env_holds.
  - destruct (CliV1Flow_defaults_run pv d token Hesc Htoken)
      as (l & filename & nm & pr & e0 & Hrun).
    exists l, filename, nm, pr, (merge_env e0 token (Provider.baseUrl pv)
                                   (Provider.defaultModel pv) "3000000").
    split; [done|]. by apply merge_env_holds.
Qed.

Lemma editor_flow_saves_claude_defaults_witness :
  (∃ l filename e,
     CliFlow.configureProvider claude CliFlow.Edit (Some ∅)
       ([return_key; return_key]
        ++ (if present (Provider.authUrl claude) then [return_key] else [])
        ++ typed "sk-1" ++ [return_key; return_key; return_key])
     = (CliFlow.Done Saved, l,
        Some (<[filename := Json (mkData (Some "Anthropic Claude") (Some "claude")
                                    (Some e))]> ∅)) ∧
     holds_claude_defaults e (trim "sk-1")) ∧
  (∃ l filename nm pr e,
     CliV1Flow.configureProvider claude (Some ∅)
       ([return_key; return_key] ++ typed "sk-1" ++ [return_key; return_key; return_key])
     = (CliV1Flow.Done Saved, l,
        Some (<[filename := Json (mkData (Some nm) (Some pr) (Some e))]> ∅)) ∧
     holds_claude_defaults e (trim "sk-1")).
Proof.
  assert (∀ c, c ∈ chars "sk-1" → c ≠ "027"%char) as Hesc.
  { intros c Hc. vm_compute in Hc.
    repeat (apply elem_of_cons in Hc as [-> | Hc]; [discriminate|]).
    by apply not_elem_of_nil in Hc. }
  pose proof (editor_flow_saves_claude_defaults claude ∅ "sk-1"
                eq_refl eq_refl eq_refl Hesc eq_refl) as [Hlater Hfirst].
  split; [|exact Hfirst].
  apply (Hlater CliFlow.Edit "Anthropic Claude" (Some "anthropic-claude")).
  by vm_compute.
Defined.

(** * Further properties *)

(** ** The two slug functions agree *)

Lemma is_hyphen_hyphen : is_hyphen "-"%char = true.
Proof. done. Qed.

Lemma space_lowers_to_non_alnum c :
  is_js_space c = true → is_lower_alnum (lower_char c) = false.
Proof. destruct c as [[] [] [] [] [] [] [] []]; vm_compute; congruence. Qed.

Lemma replace_in_run_leading l :
  drop_while is_hyphen (replace_non_alnum_runs true l)
  = drop_while is_hyphen (replace_non_alnum_runs false l).
Proof.
  destruct l as [|c l]; simpl; [done|].
  by destruct (is_lower_alnum c).
Qed.

Lemma slug_chars_cons c l : is_lower_alnum c = false → slug_chars (c :: l) = slug_chars l.
Proof.
  intros Hc. unfold slug_chars, strip_hyphens. simpl. rewrite Hc. simpl.
  by rewrite ?is_hyphen_hyphen, replace_in_run_leading.
Qed.

Lemma replace_snoc b l c :
  is_lower_alnum c = false →
  replace_non_alnum_runs b (l ++ [c]) = replace_non_alnum_runs b l
  ∨ replace_non_alnum_runs b (l ++ [c]) = replace_non_alnum_runs b l ++ ["-"%char].
Proof.
  intros Hc. revert b. induction l as [|a l IH]; intros b; simpl.
  - rewrite Hc. destruct b; auto.
  - destruct (is_lower_alnum a).
    + destruct (IH false) as [-> | ->]; auto.
    + destruct b; [apply IH|]. destruct (IH true) as [-> | ->]; auto.
Qed.

Lemma strip_hyphens_snoc l : strip_hyphens (l ++ ["-"%char]) = strip_hyphens l.
Proof.
  unfold strip_hyphens. induction l as [|a l IH]; [done|].
  change ((a :: l) ++ ["-"%char]) with (a :: (l ++ ["-"%char])).
  cbn [drop_while]. destruct (is_hyphen a) eqn:E; [exact IH|].
  change (a :: (l ++ ["-"%char])) with ((a :: l) ++ ["-"%char]).
  by rewrite drop_while_end_snoc.
Qed.

Lemma slug_chars_snoc l c : is_lower_alnum c = false → slug_chars (l ++ [c]) = slug_chars l.
Proof.
  intros Hc. unfold slug_chars.
  destruct (replace_snoc false l c Hc) as [-> | ->]; [done|apply strip_hyphens_snoc].
Qed.

Lemma slug_chars_drop_while f l :
  (∀ c, f c = true → is_lower_alnum (lower_char c) = false) →
  slug_chars (map lower_char (drop_while f l)) = slug_chars (map lower_char l).
Proof.
  intros Hf. induction l as [|c l IH]; simpl; [done|].
  destruct (f c) eqn:E; [|done]. by rewrite IH, slug_chars_cons by auto.
Qed.

Lemma slug_chars_drop_while_end f l :
  (∀ c, f c = true → is_lower_alnum (lower_char c) = false) →
  slug_chars (map lower_char (drop_while_end f l)) = slug_chars (map lower_char l).
Proof.
  intros Hf. induction l as [|c l IH] using rev_ind; [done|].
  rewrite drop_while_end_snoc. destruct (f c) eqn:E; [|done].
  rewrite IH, map_app. change (map lower_char [c]) with [lower_char c].
  by rewrite slug_chars_snoc by auto.
Qed.


(** X1: the [trim()] of [toProfileFileKey] changes nothing: the later CLI
    and lib/profiles.ts derive the same file key from every name. *)
Theorem toProfileFileKey_is_slugify (x : string) : toProfileFileKey x = slugify x.
Proof.
  unfold toProfileFileKey, slugify, toLowerCase, trim. rewrite !chars_str.
  rewrite slug_chars_drop_while_end by apply space_lowers_to_non_alnum.
  by rewrite slug_chars_drop_while by apply space_lowers_to_non_alnum.
Qed.

(** ** Saving twice *)

(** X2: [saveProfile] does not look for a file of the same key: of two
    profiles saved under the same effective key, for instance without file
    key and with names of the same slug, only the second is left, as if the
    first had never been saved. *)
Theorem saveProfile_same_key_replaces (fs : Fs) (p q : Profile) :
  fileKey_or p (slugify (name p)) = fileKey_or q (slugify (name q)) →
  Profiles.saveProfile (Profiles.saveProfile fs p) q = Profiles.saveProfile fs q.
Proof.
  intros Hkey. unfold Profiles.saveProfile, Profiles.ensureProfilesDir. simpl.
  by rewrite Hkey, insert_insert_eq.
Qed.

Lemma saveProfile_same_key_replaces_witness :
  Profiles.saveProfile
    (Profiles.saveProfile None (mkProfile "My GLM" "glm" ∅ None))
    (mkProfile "my glm!" "other" ∅ None)
  = Profiles.saveProfile None (mkProfile "my glm!" "other" ∅ None).
Proof.
  exact (saveProfile_same_key_replaces None (mkProfile "My GLM" "glm" ∅ None)
           (mkProfile "my glm!" "other" ∅ None) eq_refl).
Defined.

(** ** Removing the profiles of a provider, seen from the listing *)

Lemma removed_lookup fs providerId (d' : gmap string File) :
  Profiles.removeProviderProfiles fs providerId = Some d' →
  ∃ d, fs = Some d ∧
       ∀ f, d' !! f = if negb (skipped f) && stores_provider (d !! f) providerId
                      then None else d !! f.
Proof.
  destruct fs as [d|]; [|done]. intros Hd'. exists d. split; [done|].
  destruct (removeProviderProfiles_lookup d providerId) as (d'' & Hd'' & Hlook).
  by simplify_eq.
Qed.

(** X3: [removeProviderProfiles] is idempotent: running it again for the
    same provider id changes nothing more. *)
Theorem removeProviderProfiles_idempotent (fs : Fs) (providerId : string) :
  Profiles.removeProviderProfiles (Profiles.removeProviderProfiles fs providerId) providerId
  = Profiles.removeProviderProfiles fs providerId.
Proof.
  destruct fs as [d|]; [|done].
  destruct (removeProviderProfiles_lookup d providerId) as (d1 & Hd1 & Hlook1).
  rewrite Hd1.
  destruct (removeProviderProfiles_lookup d1 providerId) as (d2 & Hd2 & Hlook2).
  rewrite Hd2. f_equal. apply map_eq. intros f. rewrite Hlook2, !Hlook1.
  destruct (negb (skipped f)); simpl; [|done].
  destruct (stores_provider (d !! f) providerId) eqn:E; simpl; [done|by rewrite E].
Qed.

Lemma keyed_provider_cases filename data providerId :
  provider (keyed_profile_of filename data) = providerId →
  data_provider data = Some providerId ∨ basename filename ".json" = providerId.
Proof.
  simpl. unfold opt_or_else, or_else.
  destruct (data_provider data) as [s|]; [|by right].
  destruct (truthy s); [by intros ->; left|by right].
Qed.

(** X4: what [removeProviderProfiles] does to the listing.  It lists no new
    profile; for a non-empty id every profile listed under another provider
    is still listed; and a profile still listed under the removed provider
    is one that takes the provider from its file name: its file key is the
    id. *)
Theorem removeProviderProfiles_listing (fs : Fs) (providerId : string) :
  (∀ p, p ∈ Profiles.loadProfiles (Profiles.removeProviderProfiles fs providerId) →
        p ∈ Profiles.loadProfiles fs) ∧
  (providerId ≠ "" →
   ∀ p, p ∈ Profiles.loadProfiles fs → provider p ≠ providerId →
        p ∈ Profiles.loadProfiles (Profiles.removeProviderProfiles fs providerId)) ∧
  (∀ p, p ∈ Profiles.loadProfiles (Profiles.removeProviderProfiles fs providerId) →
        provider p = providerId → fileKey p = Some providerId).
Proof.
  destruct fs as [d|].
  2:{ repeat split; intros; match goal with H : _ ∈ _ |- _ => by inversion H end. }
  destruct (removeProviderProfiles_lookup d providerId) as (d' & Hd' & Hlook).
  rewrite Hd'. unfold Profiles.loadProfiles. split; [|split].
  - intros p (filename & data & Hf & Hs & ->)%elem_of_load_with.
    apply elem_of_load_with. exists filename, data. split; [|done].
    rewrite Hlook in Hf. by destruct (negb (skipped filename) && _).
  - intros Hid p (filename & data & Hf & Hs & ->)%elem_of_load_with Hp.
    apply elem_of_load_with. exists filename, data. split; [|done].
    rewrite Hlook, Hf, Hs. simpl. case_bool_decide as Hstored; [|done].
    exfalso. apply Hp. simpl. rewrite Hstored. simpl.
    by apply or_else_nonempty.
  - intros p (filename & data & Hf & Hs & ->)%elem_of_load_with Hp.
    rewrite Hlook, Hs in Hf. simpl in Hf.
    destruct (stores_provider (d !! filename) providerId) eqn:Hstored; [done|].
    rewrite Hf in Hstored. simpl in Hstored. apply bool_decide_eq_false in Hstored.
    destruct (keyed_provider_cases _ _ _ Hp) as [?| <-]; done.
Qed.

Lemma removeProviderProfiles_listing_witness :
  let fs := Some {[ "glm.json" := Json (mkData (Some "A") None None);
                    "b.json" := Json (mkData (Some "B") (Some "glm") None);
                    "c.json" := Json (mkData (Some "C") (Some "claude") None) ]} in
  mkProfile "C" "claude" ∅ (Some "c")
    ∈ Profiles.loadProfiles (Profiles.removeProviderProfiles fs "glm") ∧
  mkProfile "A" "glm" ∅ (Some "glm")
    ∈ Profiles.loadProfiles (Profiles.removeProviderProfiles fs "glm").
Proof.
  intros fs. split.
  - apply (proj1 (proj2 (removeProviderProfiles_listing fs "glm")));
      [discriminate| |discriminate].
    vm_compute. apply list_elem_of_further, list_elem_of_here.
  - vm_compute. apply list_elem_of_further, list_elem_of_here.
Defined.

(** ** Finding a saved profile by its file key *)






(** ** The name step of the later CLI *)

Lemma is_Some_find {A} (f : A → bool) (l : list A) :
  is_Some (find f l) ↔ ∃ x, x ∈ l ∧ f x = true.
Proof.
  split.
  - intros [x Hx]. apply find_some in Hx as [Hin Hf]. exists x.
    split; [by apply list_elem_of_In|done].
  - intros (x & Hin & Hf). destruct (find f l) eqn:E; [eauto|].
    apply find_none with (x := x) in E; [congruence|by apply list_elem_of_In].
Qed.

Lemma find_None_iff {A} (f : A → bool) (l : list A) :
  find f l = None ↔ ∀ x, x ∈ l → f x = false.
Proof.
  rewrite eq_None_not_Some, is_Some_find. split.
  - intros H x Hx. destruct (f x) eqn:E; [|done]. exfalso. eauto.
  - intros H (x & Hx & Hf). rewrite (H x Hx) in Hf. done.
Qed.

Lemma getProfileByName_None fs n :
  Cli.getProfileByName fs n = None ↔
  ∀ q, q ∈ Cli.loadProfiles fs → toLowerCase (name q) ≠ toLowerCase n.
Proof.
  unfold Cli.getProfileByName. rewrite find_None_iff.
  by setoid_rewrite String.eqb_neq.
Qed.

Lemma getProfileByFileKey_None fs key :
  Cli.getProfileByFileKey fs key = None ↔
  ∀ q, q ∈ Cli.loadProfiles fs → fileKey q ≠ Some key.
Proof.
  unfold Cli.getProfileByFileKey. rewrite find_None_iff.
  by setoid_rewrite bool_decide_eq_false.
Qed.

Lemma name_entered_add_inv pv fs nameInput n key :
  CliFlow.name_entered pv CliFlow.Add fs nameInput = Some (n, key) →
  n = or_else (trim nameInput) (Provider.name pv) ∧
  key = Some (toProfileFileKey n) ∧
  Cli.getProfileByName fs n = None ∧
  Cli.getProfileByFileKey fs (toProfileFileKey n) = None.
Proof.
  unfold CliFlow.name_entered.
  set (n0 := or_else (trim nameInput) (Provider.name pv)).
  case_bool_decide as H1; simpl; [done|].
  case_bool_decide as H2; simpl; [done|].
  apply eq_None_not_Some in H1, H2. rewrite H1. by intros [= <- <-].
Qed.




Lemma name_entered_edit_inv pv fs nameInput n key :
  CliFlow.name_entered pv CliFlow.Edit fs nameInput = Some (n, key) →
  n = or_else (trim nameInput) (Provider.name pv) ∧
  match Cli.getProfileByName fs n with
  | Some e => provider e = Provider.id pv ∧ key = fileKey e ∧ e ∈ Cli.loadProfiles fs
  | None => key = Some (toProfileFileKey n) ∧
            Cli.getProfileByFileKey fs (toProfileFileKey n) = None
  end.
Proof.
  unfold CliFlow.name_entered.
  set (n0 := or_else (trim nameInput) (Provider.name pv)).
  destruct (Cli.getProfileByName fs n0) as [e|] eqn:E.
  - destruct (String.eqb_spec (provider e) (Provider.id pv)) as [Hp|Hp]; simpl; [|done].
    rewrite andb_false_r. simpl. intros [= <- <-]. rewrite E.
    split; [done|]. split; [done|]. split; [done|].
    apply find_some in E as [Hin _]. by apply list_elem_of_In.
  - simpl. rewrite andb_true_r.
    case_bool_decide as Hk; simpl; [done|]. intros [= <- <-]. rewrite E.
    split; [done|]. split; [done|]. by apply eq_None_not_Some.
Qed.

(** X7: in edit mode the name step rejects a name that a listed profile of
    another provider has (up to case; the first such profile decides), and a
    name that no listed profile has but whose slug is a listed file key.  An
    accepted name that a listed profile already has belongs to a profile of
    the provider being configured, and the file key kept is that profile's
    own; otherwise the slug of the name is kept. *)
Theorem name_entered_edit_keeps_file (pv : Provider.t) (fs : Fs) (nameInput : string) :
  let n := or_else (trim nameInput) (Provider.name pv) in
  match Cli.getProfileByName fs n with
  | Some e =>
      CliFlow.name_entered pv CliFlow.Edit fs nameInput
      = if String.eqb (provider e) (Provider.id pv) then Some (n, fileKey e) else None
  | None =>
      ((∀ q, q ∈ Cli.loadProfiles fs → fileKey q ≠ Some (toProfileFileKey n)) →
       CliFlow.name_entered pv CliFlow.Edit fs nameInput
       = Some (n, Some (toProfileFileKey n))) ∧
      (∀ q, q ∈ Cli.loadProfiles fs → fileKey q = Some (toProfileFileKey n) →
            CliFlow.name_entered pv CliFlow.Edit fs nameInput = None)
  end.
Proof.
  intros n.
  destruct (CliFlow.name_entered pv CliFlow.Edit fs nameInput) as [[n' key]|] eqn:E.
  - apply name_entered_edit_inv in E as [-> Hcase]. fold n in Hcase.
    destruct (Cli.getProfileByName fs n) as [e|].
    + destruct Hcase as (-> & -> & _). by rewrite String.eqb_refl.
    + destruct Hcase as [-> Hkey]. split; [done|]. intros q Hq Hk. exfalso.
      by eapply getProfileByFileKey_None.
  - unfold CliFlow.name_entered in E. fold n in E.
    destruct (Cli.getProfileByName fs n) as [e|].
    + destruct (String.eqb (provider e) (Provider.id pv)); [|done]. simpl in E.
      rewrite ?(bool_decide_eq_false_2 (Some e = None)) in E by done.
      simpl in E. by rewrite andb_false_r in E.
    + simpl in E. rewrite andb_true_r in E. split; [|done].
      intros Hfresh%getProfileByFileKey_None. by rewrite Hfresh in E.
Qed.

(** ** The invariant of the later CLI's flow *)

Lemma name_kept_fields pv mode fs0 l l' :
  CliFlow.profileName l' = CliFlow.profileName l →
  CliFlow.profileFileKey l' = CliFlow.profileFileKey l →
  name_kept pv mode fs0 l → name_kept pv mode fs0 l'.
Proof. unfold name_kept. by intros -> ->. Qed.

Lemma flow_inv_step pv mode fs0 st l fs k :
  flow_inv pv mode fs0 st l fs →
  flow_inv pv mode fs0 (CliFlow.step pv mode st l fs k).1.1
    (CliFlow.step pv mode st l fs k).1.2 (CliFlow.step pv mode st l fs k).2.
Proof.
  destruct st as [b|b|sel|o b|b|b|o]; simpl; unfold CliFlow.on_prompt.
  - intros ->. destruct (prompt_key b k) as [value|b']; simpl; [|done].
    destruct (CliFlow.name_entered pv mode fs0 value) as [[n key]|] eqn:E; simpl; [|done].
    split; [done|]. by exists value.
  - intros [-> Hn]. destruct (prompt_key b k) as [value|b']; simpl; [|done].
    destruct (present (Provider.authUrl pv)); simpl; (split; [done|]);
      by eapply name_kept_fields.
  - intros [-> Hn]. repeat case_match; simpl; done.
  - intros [-> Hn]. destruct (prompt_key b k) as [value|b']; simpl; [|done].
    destruct (truthy (trim value)) eqn:E; simpl; [|done].
    split; [done|]. split; [by eapply name_kept_fields|done].
  - intros (-> & Hn & Ht). destruct (prompt_key b k) as [value|b']; simpl; [|done].
    split; [done|]. split; [by eapply name_kept_fields|done].
  - intros (-> & Hn & Ht). destruct (prompt_key b k) as [value|b']; simpl; [|done].
    destruct (CliFlow.save_configured pv l (or_else (trim value) "3000000") fs0)
      as [st' fs'] eqn:E. simpl.
    assert (st' = CliFlow.Done Saved ∨ (st' = CliFlow.Done Crashed ∧ fs' = fs0)) as Hst.
    { unfold CliFlow.save_configured in E. destruct (Cli.saveProfile fs0 _);
        simplify_eq; auto. }
    destruct Hst as [-> | [-> ->]]; simpl; [|done]. eauto.
  - done.
Qed.

Lemma flow_inv_run pv mode fs0 keys st l fs :
  flow_inv pv mode fs0 st l fs →
  flow_inv pv mode fs0 (CliFlow.run pv mode (st, l, fs) keys).1.1
    (CliFlow.run pv mode (st, l, fs) keys).1.2 (CliFlow.run pv mode (st, l, fs) keys).2.
Proof.
  revert st l fs. induction keys as [|k keys IH]; intros st l fs Hinv; [done|].
  change (CliFlow.run pv mode (st, l, fs) (k :: keys))
    with (CliFlow.run pv mode (CliFlow.step pv mode st l fs k) keys).
  pose proof (flow_inv_step pv mode fs0 st l fs k Hinv) as Hstep.
  destruct (CliFlow.step pv mode st l fs k) as [[st1 l1] fs1]. by apply IH.
Qed.

Lemma flow_inv_end pv mode fs0 keys st l fs :
  CliFlow.configureProvider pv mode fs0 keys = (st, l, fs) →
  flow_inv pv mode fs0 st l fs.
Proof.
  intros Hrun. unfold CliFlow.configureProvider in Hrun.
  pose proof (flow_inv_run pv mode fs0 keys (CliFlow.start pv).1 (CliFlow.start pv).2 fs0
                eq_refl) as Hinv.
  change ((CliFlow.start pv).1, (CliFlow.start pv).2, fs0)
    with (CliFlow.start pv, fs0) in Hinv.
  by rewrite Hrun in Hinv.
Qed.

Lemma save_configured_Saved pv l timeout fs fs' :
  CliFlow.save_configured pv l timeout fs = (CliFlow.Done Saved, fs') →
  ∃ d, fs = Some d ∧
       fs' = Some (<[fileKey_or
                       (mkProfile (CliFlow.profileName l) (Provider.id pv) ∅
                          (CliFlow.profileFileKey l))
                       (toProfileFileKey (CliFlow.profileName l)) +:+ ".json"
                     := Json (mkData (Some (CliFlow.profileName l)) (Some (Provider.id pv))
                          (Some (merge_env
                                   match Cli.getProfileByName fs (CliFlow.profileName l) with
                                   | Some e => env e
                                   | None => ∅
                                   end
                                   (CliFlow.authToken l) (CliFlow.baseUrl l)
                                   (CliFlow.model l) timeout)))]> d).
Proof.
  unfold CliFlow.save_configured, Cli.saveProfile. destruct fs as [d|]; [|done].
  intros [= <-]. by exists d.
Qed.

Lemma merge_env_token e token baseUrl model timeout :
  merge_env e token baseUrl model timeout !! "ANTHROPIC_AUTH_TOKEN" = Some (trim token) ∧
  merge_env e token baseUrl model timeout !! "CLAUDE_CODE_DISABLE_NONESSENTIAL_TRAFFIC"
    = Some "1".
Proof. unfold merge_env. split; by simplify_map_eq. Qed.

Lemma merge_env_frame e token baseUrl model timeout k :
  k ∉ ["ANTHROPIC_AUTH_TOKEN"; "ANTHROPIC_BASE_URL"; "ANTHROPIC_MODEL"; "API_TIMEOUT_MS";
       "CLAUDE_CODE_DISABLE_NONESSENTIAL_TRAFFIC"] →
  merge_env e token baseUrl model timeout !! k = e !! k.
Proof.
  intros Hk. unfold merge_env.
  rewrite !lookup_insert_ne; [done|..]; intros <-; apply Hk; set_solver.
Qed.

Lemma truthy_nonempty s : truthy s = true ↔ s ≠ "".
Proof. unfold truthy. destruct (String.eqb_spec s ""); simpl; split; congruence. Qed.

(** X8: whatever keys it is fed, [configureProvider] of the later CLI
    touches the profiles directory only by its final save, and it saves only
    one file, for the provider being configured, with a token that is not
    blank (stored trimmed) and the traffic flag set.  A run that ends any
    other way, or is still waiting, leaves the directory as it was. *)
Theorem configureProvider_saves_once_with_token (pv : Provider.t) (mode : CliFlow.Mode)
    (fs0 : Fs) (keys : list Keypress) :
  let '(stage, l, fs) := CliFlow.configureProvider pv mode fs0 keys in
  match stage with
  | CliFlow.Done Saved =>
      ∃ d filename e,
        fs0 = Some d ∧
        fs = Some (<[filename := Json (mkData (Some (CliFlow.profileName l))
                                     (Some (Provider.id pv)) (Some e))]> d) ∧
        e !! "ANTHROPIC_AUTH_TOKEN" = Some (trim (CliFlow.authToken l)) ∧
        trim (CliFlow.authToken l) ≠ "" ∧
        e !! "CLAUDE_CODE_DISABLE_NONESSENTIAL_TRAFFIC" = Some "1"
  | _ => fs = fs0
  end.
Proof.
  destruct (CliFlow.configureProvider pv mode fs0 keys) as [[stage l] fs] eqn:Hrun.
  pose proof (flow_inv_end pv mode fs0 keys stage l fs Hrun) as Hinv.
  destruct stage as [b|b|sel|o b|b|b|[]]; simpl in Hinv; try done;
    try by destruct Hinv.
  destruct Hinv as (_ & Ht & timeout & Hsave).
  apply save_configured_Saved in Hsave as (d & -> & ->).
  eexists d, _, _. split; [done|]. split; [reflexivity|].
  split; [apply merge_env_token|]. split; [by apply truthy_nonempty|].
  apply merge_env_token.
Qed.

Lemma append_ext_inj k1 k2 ext : k1 +:+ ext = k2 +:+ ext → k1 = k2.
Proof.
  intros H. apply chars_inj. apply (f_equal chars) in H.
  rewrite !chars_app in H. by apply app_inv_tail in H.
Qed.

Lemma listed_lookup (d : gmap string File) q :
  q ∈ Cli.loadProfiles (Some d) →
  ∃ data, d !! profile_filename q = Some (Json data) ∧
          skipped (profile_filename q) = false ∧
          q = keyed_profile_of (profile_filename q) data.
Proof.
  intros (filename & data & Hd & Hs & ->)%elem_of_load_with.
  assert (profile_filename (keyed_profile_of filename data) = filename) as ->; [|eauto].
  apply (load_entry_filename d). apply load_entry_Some. eauto.
Qed.

Lemma listed_after_insert (d : gmap string File) filename file q :
  q ∈ Cli.loadProfiles (Some d) → profile_filename q ≠ filename →
  q ∈ Cli.loadProfiles (Some (<[filename := file]> d)).
Proof.
  intros (data & Hd & Hs & Hq)%listed_lookup Hne.
  apply elem_of_load_with. exists (profile_filename q), data.
  by rewrite lookup_insert_ne.
Qed.

Lemma slug_key_or n fallback :
  or_else (toProfileFileKey n) fallback = toProfileFileKey n.
Proof. apply or_else_nonempty, is_slug_nonempty, toProfileFileKey_is_slug. Qed.

(** X9: a run of [configureProvider] in add mode that ends with the save
    has written one file, named after the slug of the profile name, with an
    env that holds nothing from an earlier profile.  That file was read by
    no listed profile and no listed profile had the name (up to case), so
    every profile listed before is still listed afterwards, unchanged. *)
Theorem add_flow_keeps_listed_profiles (pv : Provider.t) (fs0 fs : Fs)
    (keys : list Keypress) (l : CliFlow.Locals) :
  CliFlow.configureProvider pv CliFlow.Add fs0 keys = (CliFlow.Done Saved, l, fs) →
  let filename := toProfileFileKey (CliFlow.profileName l) +:+ ".json" in
  (∃ d timeout,
     fs0 = Some d ∧
     fs = Some (<[filename := Json (mkData (Some (CliFlow.profileName l))
                                  (Some (Provider.id pv))
                                  (Some (merge_env ∅ (CliFlow.authToken l)
                                           (CliFlow.baseUrl l) (CliFlow.model l)
                                           timeout)))]> d)) ∧
  (∀ q, q ∈ Cli.loadProfiles fs0 →
        profile_filename q ≠ filename ∧
        toLowerCase (name q) ≠ toLowerCase (CliFlow.profileName l) ∧
        q ∈ Cli.loadProfiles fs).
Proof.
  intros Hrun filename.
  destruct (flow_inv_end _ _ _ _ _ _ _ Hrun) as ([input Hname] & _ & timeout & Hsave).
  apply name_entered_add_inv in Hname as (_ & Hkey & HbyName & HbyKey).
  apply save_configured_Saved in Hsave as (d & -> & ->).
  rewrite HbyName, Hkey. unfold fileKey_or. simpl.
  rewrite slug_key_or. fold filename.
  split; [by exists d, timeout|].
  intros q Hq.
  assert (profile_filename q ≠ filename) as Hfile.
  { unfold profile_filename, filename. intros Heq%append_ext_inj.
    destruct (listed_lookup d q Hq) as (data & _ & _ & Hqd).
    rewrite Hqd in Heq. simpl in Heq.
    eapply getProfileByFileKey_None; [exact HbyKey|exact Hq|].
    rewrite Hqd. simpl. by rewrite Heq. }
  split; [done|]. split; [by eapply getProfileByName_None|].
  by apply listed_after_insert.
Qed.

Lemma add_flow_keeps_listed_profiles_witness :
  let fs0 := Some {[ "work.json" := Json (mkData (Some "Work") (Some "glm") None) ]} in
  let keys := [return_key; return_key; return_key] ++ typed "sk-1"
              ++ [return_key; return_key; return_key] in
  mkProfile "Work" "glm" ∅ (Some "work")
    ∈ Cli.loadProfiles (CliFlow.configureProvider claude CliFlow.Add fs0 keys).2.
Proof.
  intros fs0 keys.
  destruct (CliFlow.configureProvider claude CliFlow.Add fs0 keys) as [[st l] fs] eqn:Hrun.
  assert (st = CliFlow.Done Saved) as ->.
  { apply (f_equal (λ r, r.1.1)) in Hrun. simpl in Hrun. rewrite <-Hrun. by vm_compute. }
  apply (add_flow_keeps_listed_profiles claude fs0 fs keys l Hrun).
  assert (Cli.loadProfiles fs0 = [mkProfile "Work" "glm" ∅ (Some "work")]) as ->
    by by vm_compute.
  apply list_elem_of_here.
Defined.

(** X10: a run of [configureProvider] in edit mode that ends with the save,
    for a name that a listed profile already had, rewrites the file that
    profile was read from (when its file key is not empty) and creates no
    file; the env written is the old one with the five variables of the flow
    set, every other variable kept. *)
Theorem edit_flow_rewrites_own_file (pv : Provider.t) (fs0 fs : Fs)
    (keys : list Keypress) (l : CliFlow.Locals) (e : Profile) :
  CliFlow.configureProvider pv CliFlow.Edit fs0 keys = (CliFlow.Done Saved, l, fs) →
  Cli.getProfileByName fs0 (CliFlow.profileName l) = Some e →
  fileKey e ≠ Some "" →
  provider e = Provider.id pv ∧
  ∃ d env',
    fs0 = Some d ∧
    is_Some (d !! profile_filename e) ∧
    fs = Some (<[profile_filename e := Json (mkData (Some (CliFlow.profileName l))
                                            (Some (Provider.id pv)) (Some env'))]> d) ∧
    ∀ k, k ∉ ["ANTHROPIC_AUTH_TOKEN"; "ANTHROPIC_BASE_URL"; "ANTHROPIC_MODEL";
              "API_TIMEOUT_MS"; "CLAUDE_CODE_DISABLE_NONESSENTIAL_TRAFFIC"] →
         env' !! k = env e !! k.
Proof.
  intros Hrun HbyName Hkey.
  destruct (flow_inv_end _ _ _ _ _ _ _ Hrun) as ([input Hname] & _ & timeout & Hsave).
  apply name_entered_edit_inv in Hname as [_ Hcase]. rewrite HbyName in Hcase.
  destruct Hcase as (Hp & Hk & Hin). split; [done|].
  apply save_configured_Saved in Hsave as (d & -> & ->).
  destruct (listed_lookup d e Hin) as (data & Hd & _ & He).
  exists d. eexists. split; [done|]. split; [eauto|].
  rewrite HbyName, Hk. split; [|intros k Hknot; by apply merge_env_frame].
  f_equal. f_equal. unfold fileKey_or, profile_filename. simpl.
  destruct (fileKey e) as [k|] eqn:Ek; simpl.
  - rewrite or_else_nonempty; [done|]. congruence.
  - rewrite He in Ek. done.
Qed.

Lemma edit_flow_rewrites_own_file_witness :
  let d := {[ "work.json" := Json (mkData (Some "Anthropic Claude") (Some "claude")
                                     (Some {[ "PROVIDER_NAME" := "Claude" ]})) ]} in
  let keys := [return_key; return_key; return_key] ++ typed "sk-1"
              ++ [return_key; return_key; return_key] in
  ∃ d' env',
    (CliFlow.configureProvider claude CliFlow.Edit (Some d) keys).2 = Some d' ∧
    d' !! "work.json" = Some (Json (mkData (Some "Anthropic Claude") (Some "claude")
                                      (Some env'))) ∧
    env' !! "PROVIDER_NAME" = Some "Claude".
Proof.
  intros d keys.
  destruct (CliFlow.configureProvider claude CliFlow.Edit (Some d) keys)
    as [[st l] fs] eqn:Hrun.
  assert (st = CliFlow.Done Saved ∧ CliFlow.profileName l = "Anthropic Claude") as [-> Hn].
  { apply (f_equal (λ r, (r.1.1, CliFlow.profileName r.1.2))) in Hrun. simpl in Hrun.
    vm_compute in Hrun. by simplify_eq. }
  destruct (edit_flow_rewrites_own_file claude (Some d) fs keys l
              (mkProfile "Anthropic Claude" "claude" {[ "PROVIDER_NAME" := "Claude" ]}
                 (Some "work")) Hrun)
    as (_ & d0 & env' & Hd0 & _ & -> & Hframe).
  - rewrite Hn. by vm_compute.
  - discriminate.
  - exists (<[ "work.json" := Json (mkData (Some (CliFlow.profileName l)) (Some "claude")
                                      (Some env')) ]> d0), env'.
    split; [done|]. rewrite Hn. split; [apply lookup_insert_eq|].
    rewrite Hframe; [by vm_compute|].
    intros Hin. repeat (apply elem_of_cons in Hin as [Hin|Hin]; [discriminate|]).
    by apply elem_of_nil in Hin.
Defined.

(** ** The configure screens of the later CLI *)

Lemma only_saves_refl fs : only_saves fs fs.
Proof. destruct fs as [d|]; simpl; auto. Qed.

Lemma only_saves_trans fs0 fs1 fs2 :
  only_saves fs0 fs1 → only_saves fs1 fs2 → only_saves fs0 fs2.
Proof.
  destruct fs0 as [d0|], fs1 as [d1|], fs2 as [d2|]; simpl; try done.
  intros H01 H12 filename.
  destruct (H12 filename) as [-> | ?]; [apply H01|by right].
Qed.

Lemma only_saves_flow pv l timeout fs fs' :
  trim (CliFlow.authToken l) ≠ "" →
  CliFlow.save_configured pv l timeout fs = (CliFlow.Done Saved, fs') →
  only_saves fs fs'.
Proof.
  intros Ht (d & -> & ->)%save_configured_Saved. simpl. intros filename.
  match goal with |- context [<[?f := _]> d] => destruct (decide (f = filename)) as [<-|Hne] end.
  - right. rewrite lookup_insert_eq. eexists _, _, _, _. split; [done|].
    split; [apply merge_env_token|done].
  - left. by rewrite lookup_insert_ne.
Qed.

Lemma totalItems_pos : 0 < CliFlow.totalItems.
Proof. unfold CliFlow.totalItems. simpl. lia. Qed.

Lemma screen_inv_enter pv mode back fs :
  menu_selected back < CliFlow.totalItems → provider_ok pv mode back →
  screen_inv (CliFlow.enter_editor pv mode back fs).1 fs.
Proof. intros Hsel Hpv. simpl. repeat split; done. Qed.

Lemma screen_inv_menu m fs k :
  menu_selected m < CliFlow.totalItems →
  screen_inv (CliFlow.menu_key m fs k).1 (CliFlow.menu_key m fs k).2
  ∧ (CliFlow.menu_key m fs k).2 = fs.
Proof.
  intros Hsel. unfold CliFlow.menu_key.
  pose proof totalItems_pos as Hpos.
  assert (∀ n, n mod CliFlow.totalItems < CliFlow.totalItems) as Hmod
    by (intros n; apply Nat.mod_upper_bound; lia).
  repeat case_match; simplify_eq/=; repeat split; auto; try lia.
  all: left; split; [by eapply list_elem_of_lookup_2|done].
Qed.

Lemma screen_inv_custom stage pv back fs k :
  menu_selected back < CliFlow.totalItems → custom_inv stage pv →
  screen_inv (CliFlow.custom_key stage pv back fs k).1 (CliFlow.custom_key stage pv back fs k).2
  ∧ (CliFlow.custom_key stage pv back fs k).2 = fs.
Proof.
  intros Hsel Hpv. unfold CliFlow.custom_key.
  destruct (prompt_key (CliFlow.custom_buffer stage) k) as [value|b].
  - destruct pv as [pid pname pdesc purl pmodel pauth pinstr].
    destruct stage as [b|b|b|b|b]; simpl in *.
    + destruct (truthy (trim value)) eqn:E; simpl; [|done].
      by apply truthy_nonempty in E.
    + destruct (truthy (trim value)) eqn:E; simpl; [|done].
      by apply truthy_nonempty in E.
    + destruct Hpv as [? ?]. repeat split; try done.
      unfold or_else. destruct (truthy (trim value)) eqn:E; [|done].
      by apply truthy_nonempty.
    + done.
    + destruct Hpv as (? & ? & ?). repeat split; try done. by right.
  - split; [|done]. simpl. split; [done|]. by destruct stage.
Qed.

Lemma screen_inv_key sc fs k :
  screen_inv sc fs →
  screen_inv (CliFlow.screen_key sc fs k).1 (CliFlow.screen_key sc fs k).2
  ∧ only_saves fs (CliFlow.screen_key sc fs k).2.
Proof.
  destruct sc as [m|stage pv back|pv mode stage l back| | |];
    intros Hinv; simpl in Hinv; unfold CliFlow.screen_key;
    try (split; [done|apply only_saves_refl]).
  - destruct (screen_inv_menu m fs k Hinv) as [H1 H2]. rewrite H2 in *.
    split; [done|apply only_saves_refl].
  - destruct Hinv as [Hsel Hpv].
    destruct (screen_inv_custom stage pv back fs k Hsel Hpv) as [H1 H2]. rewrite H2 in *.
    split; [done|apply only_saves_refl].
  - destruct Hinv as (Hsel & Hpv & Hinv & Hnd).
    pose proof (flow_inv_step pv mode fs stage l fs k Hinv) as Hstep.
    destruct (CliFlow.step pv mode stage l fs k) as [[st1 l1] fs1]. simpl in Hstep.
    destruct st1 as [b|b|sel|o b|b|b|o]; simpl in *.
    1-6: first [subst fs1 | destruct Hstep as [-> ?]]; (split; [done|apply only_saves_refl]).
    destruct o; simpl in *; try (subst fs1; split; [done|apply only_saves_refl]).
    destruct Hstep as (_ & Ht & timeout & Hsave). split; [done|].
    eapply only_saves_flow; [|done]. by apply truthy_nonempty.
Qed.

Lemma screen_inv_run keys sc fs :
  screen_inv sc fs →
  screen_inv (CliFlow.screen_run (sc, fs) keys).1 (CliFlow.screen_run (sc, fs) keys).2
  ∧ only_saves fs (CliFlow.screen_run (sc, fs) keys).2.
Proof.
  revert sc fs. induction keys as [|k keys IH]; intros sc fs Hinv.
  { split; [done|apply only_saves_refl]. }
  change (CliFlow.screen_run (sc, fs) (k :: keys))
    with (CliFlow.screen_run (CliFlow.screen_key sc fs k) keys).
  destruct (screen_inv_key sc fs k Hinv) as [Hinv1 Hfs1].
  destruct (CliFlow.screen_key sc fs k) as [sc1 fs1]. simpl in *.
  destruct (IH sc1 fs1 Hinv1) as [? ?]. split; [done|].
  by eapply only_saves_trans.
Qed.

(** X11: whatever keys the configure menu of the later CLI and the screens
    under it (the menu of providers, the prompts of a custom provider, the
    editor flow, any number of times) are fed, no profile file is removed and
    every file that was changed or created holds a saved profile whose token
    is not empty; without a profiles directory none is created. *)
Theorem configure_screens_only_save (fs0 : Fs) (keys : list Keypress) :
  only_saves fs0
    (CliFlow.screen_run (CliFlow.InMenu (CliFlow.ConfigureMenu 0), fs0) keys).2.
Proof.
  apply screen_inv_run. simpl. apply totalItems_pos.
Qed.

(** X12: in the configure screens of the later CLI the selected row of a
    menu always is one of its rows, and the provider handed to
    [configureProvider] is a known provider (in mode edit from the configure
    menu, in mode add from the menu of new profiles) or a custom one in mode
    add, whose id is the file key of its name and whose name, base URL and
    default model are not empty. *)
Theorem configure_screens_provider (fs0 : Fs) (keys : list Keypress) :
  match (CliFlow.screen_run (CliFlow.InMenu (CliFlow.ConfigureMenu 0), fs0) keys).1 with
  | CliFlow.InMenu m => menu_selected m < length CliFlow.KNOWN_PROVIDERS + 1
  | CliFlow.InCustom _ _ back => menu_selected back < length CliFlow.KNOWN_PROVIDERS + 1
  | CliFlow.InEditor pv mode _ _ back =>
      (pv ∈ CliFlow.KNOWN_PROVIDERS ∧
       mode = match back with
              | CliFlow.ConfigureMenu _ => CliFlow.Edit
              | CliFlow.AddNewMenu _ => CliFlow.Add
              end)
      ∨ (mode = CliFlow.Add ∧
         Provider.id pv = toProfileFileKey (Provider.name pv) ∧
         trim (Provider.name pv) ≠ "" ∧ Provider.baseUrl pv ≠ "" ∧
         Provider.defaultModel pv ≠ "")
  | _ => True
  end.
Proof.
  destruct (screen_inv_run keys (CliFlow.InMenu (CliFlow.ConfigureMenu 0)) fs0)
    as [Hinv _]; [apply totalItems_pos|].
  destruct (CliFlow.screen_run _ keys) as [sc fs]. simpl in *.
  destruct sc; simpl in *; try done; by destruct Hinv as (? & ? & _) || destruct Hinv.
Qed.

(** ** The configure view of the Ink app *)

Lemma only_removes_custom_refl fs : only_removes_custom fs fs.
Proof. destruct fs as [d|]; simpl; auto. Qed.

Lemma only_removes_custom_trans fs0 fs1 fs2 :
  only_removes_custom fs0 fs1 → only_removes_custom fs1 fs2 →
  only_removes_custom fs0 fs2.
Proof.
  destruct fs0 as [d0|], fs1 as [d1|], fs2 as [d2|]; simpl; try done.
  intros H01 H12 filename.
  destruct (H12 filename) as [-> | (Hgone & Hs & data & pid & Hd1 & Hrest)]; [apply H01|].
  right. split; [done|]. split; [done|]. exists data, pid. split; [|done].
  destruct (H01 filename) as [<- | (Hnone & _)]; [done|congruence].
Qed.

Lemma handleRemoveProvider_only_removes providerId fs :
  providerId ≠ "anthropic" →
  only_removes_custom fs (App.handleRemoveProvider providerId fs).
Proof.
  intros Hnot. unfold App.handleRemoveProvider.
  destruct (String.eqb_spec providerId "claude") as [->|Hne]; [apply only_removes_custom_refl|].
  destruct fs as [d|]; [|done].
  destruct (removeProviderProfiles_lookup d providerId) as (d' & -> & Hlook).
  simpl. intros filename. rewrite Hlook.
  destruct (skipped filename) eqn:Hs; simpl; [by left|].
  destruct (d !! filename) as [[| |data]|] eqn:Hd; simpl; try by left.
  case_bool_decide as Hp; [|by left]. right. repeat split. by exists data, providerId.
Qed.

Lemma configure_view_inv_key s fs k :
  configure_view_inv (ConfigureView.Stays s) fs →
  configure_view_inv (ConfigureView.useInput s fs k).1 (ConfigureView.useInput s fs k).2
  ∧ only_removes_custom fs (ConfigureView.useInput s fs k).2.
Proof.
  intros [Hsel Hconfirm]. unfold ConfigureView.useInput.
  assert (∀ n, n mod (length (Profiles.loadProfiles fs) + 1)
               < length (Profiles.loadProfiles fs) + 1) as Hmod
    by (intros n; apply Nat.mod_upper_bound; lia).
  destruct (ConfigureView.confirmDelete s) as [p|] eqn:Hc.
  - destruct (String.eqb (toLowerCase (Ink.input k)) "y").
    + simpl. split; [split; [lia|done]|].
      apply handleRemoveProvider_only_removes. by apply Hconfirm.
    + destruct (_ || _); simpl; (split; [|apply only_removes_custom_refl]);
        (split; [done|]); [done|]. intros q. rewrite Hc. intros [= <-]. by apply Hconfirm.
  - repeat case_match; simplify_eq/=; (split; [|apply only_removes_custom_refl]).
    all: try (split; [first [done | apply Hmod | lia] | intros q Hq]).
    all: try by rewrite Hc in Hq.
    all: try by eapply list_elem_of_lookup_2.
    all: try (simplify_eq; by apply String.eqb_neq, negb_true_iff).
    all: try done.
    match goal with H : _ !! _ = None |- _ => apply lookup_ge_None in H end. lia.
Qed.

Lemma configure_view_inv_run keys n fs :
  configure_view_inv n fs →
  configure_view_inv (ConfigureView.run (n, fs) keys).1 (ConfigureView.run (n, fs) keys).2
  ∧ only_removes_custom fs (ConfigureView.run (n, fs) keys).2.
Proof.
  revert n fs. induction keys as [|k keys IH]; intros n fs Hinv.
  { split; [done|apply only_removes_custom_refl]. }
  change (ConfigureView.run (n, fs) (k :: keys))
    with (ConfigureView.run
            (match n with
             | ConfigureView.Stays s => ConfigureView.useInput s fs k
             | _ => (n, fs)
             end) keys).
  destruct n as [s|p| |]; try by apply IH.
  destruct (configure_view_inv_key s fs k Hinv) as [Hinv1 Hfs1].
  destruct (ConfigureView.useInput s fs k) as [n1 fs1]. simpl in *.
  destruct (IH n1 fs1 Hinv1) as [? ?]. split; [done|].
  by eapply only_removes_custom_trans.
Qed.

(** X13: whatever keys the configure view of the Ink app is fed, it writes
    no file, and every file it removes is a profile file that stores a
    provider other than ["claude"] (which [handleRemoveProvider] refuses) and
    ["anthropic"] (for which the view opens no confirmation).  The handler
    never reads a row that does not exist, and the profile it hands to the
    editor is a listed one. *)
Theorem configure_view_keeps_builtin_providers (fs0 : Fs) (keys : list Ink.Key) :
  let '(n, fs) := ConfigureView.run (ConfigureView.Stays ConfigureView.mount, fs0) keys in
  only_removes_custom fs0 fs ∧
  match n with
  | ConfigureView.Stays s =>
      ConfigureView.selected s < length (Profiles.loadProfiles fs) + 1
  | ConfigureView.Configures p => p ∈ Profiles.loadProfiles fs
  | ConfigureView.AddsProvider => True
  | ConfigureView.TypeError => False
  end.
Proof.
  destruct (configure_view_inv_run keys (ConfigureView.Stays ConfigureView.mount) fs0)
    as [Hinv Hfs].
  { simpl. split; [lia|done]. }
  destruct (ConfigureView.run _ keys) as [n fs]. simpl in *.
  split; [done|]. destruct n; simpl in *; try done. by destruct Hinv.
Qed.

(** ** The form of a custom provider in the Ink app *)

Lemma saved_profile_listed (fs : Fs) (p : Profile) :
  name p ≠ "" → provider p ≠ "" →
  (∀ k, fileKey p = Some k → endsWith k ".example" = false) →
  mkProfile (name p) (provider p) (env p) (Some (fileKey_or p (slugify (name p))))
    ∈ Profiles.loadProfiles (Profiles.saveProfile fs p).
Proof.
  intros Hn Hp Hk. unfold Profiles.saveProfile.
  set (key := fileKey_or p (slugify (name p))).
  apply elem_of_load_with.
  exists (key +:+ ".json"), (mkData (Some (name p)) (Some (provider p)) (Some (env p))).
  split; [apply lookup_insert_eq|]. split.
  - rewrite skipped_key. by apply effective_key_not_example.
  - unfold keyed_profile_of. simpl. rewrite !or_else_nonempty by done.
    by rewrite basename_app.
Qed.

Lemma or_else_nonempty_r a b : b ≠ "" → or_else a b ≠ "".
Proof.
  intros Hb. unfold or_else. destruct (truthy a) eqn:E; [by apply truthy_nonempty|done].
Qed.

Lemma add_provider_inv_key fs0 n fs k :
  add_provider_inv fs0 n fs →
  add_provider_inv fs0 (AddProviderForm.form_key n fs k).1
    (AddProviderForm.form_key n fs k).2.
Proof.
  destruct n as [f| |data|]; try done.
  intros [-> Hidx]. cbn [AddProviderForm.form_key]. unfold AddProviderForm.useInput.
  assert (∀ i, i mod length AddProviderForm.fields < length AddProviderForm.fields) as Hmod
    by (intros i; apply Nat.mod_upper_bound; simpl; lia).
  destruct (lookup_lt_is_Some_2 AddProviderForm.fields _ Hidx) as [fieldKey Hfield].
  rewrite Hfield.
  destruct (Ink.escape k); [done|].
  destruct (Ink.is_enter k).
  { destruct (truthy (trim (AddProviderForm.providerName (AddProviderForm.values f)))) eqn:E1;
      [|done].
    destruct (truthy (trim (AddProviderForm.baseUrl (AddProviderForm.values f)))) eqn:E2;
      [|done].
    destruct (truthy (trim (AddProviderForm.token (AddProviderForm.values f)))) eqn:E3;
      [|done].
    apply truthy_nonempty in E1, E2, E3. simpl.
    repeat split; try done; by apply or_else_nonempty_r. }
  repeat case_match; simplify_eq; cbn [add_provider_inv fst snd AddProviderForm.activeIndex];
    try done; split; try done; apply Hmod.
Qed.

Lemma add_provider_inv_run fs0 keys n fs :
  add_provider_inv fs0 n fs →
  add_provider_inv fs0 (AddProviderForm.form_run (n, fs) keys).1
    (AddProviderForm.form_run (n, fs) keys).2.
Proof.
  revert n fs. induction keys as [|k keys IH]; intros n fs Hinv; [done|].
  change (AddProviderForm.form_run (n, fs) (k :: keys))
    with (AddProviderForm.form_run (AddProviderForm.form_key n fs k) keys).
  pose proof (add_provider_inv_key fs0 n fs k Hinv) as Hstep.
  destruct (AddProviderForm.form_key n fs k) as [n1 fs1]. by apply IH.
Qed.

(** X14: whatever keys the form of a custom provider is fed, nothing is
    written until it completes, and it never reads a field that does not
    exist.  When it completes, the provider name, profile name, base URL,
    token and model it hands over are not empty, the provider id is the slug
    of the provider name, one file named after the slug of the profile name
    is written, and the listing then shows the new profile with that id as
    its provider. *)
Theorem add_provider_form_saves_custom_profile (fs0 : Fs) (keys : list Ink.Key) :
  let '(n, fs) :=
    AddProviderForm.form_run (AddProviderForm.Stays AddProviderForm.mount, fs0) keys in
  match n with
  | AddProviderForm.Stays f =>
      fs = fs0 ∧ AddProviderForm.activeIndex f < length AddProviderForm.fields
  | AddProviderForm.Cancels => fs = fs0
  | AddProviderForm.Completes data =>
      let p := AddProviderForm.custom_profile data in
      provider p = slugify (CustomProviderData.providerName data) ∧
      name p ≠ "" ∧ CustomProviderData.providerName data ≠ "" ∧
      (∃ t, env p !! "ANTHROPIC_AUTH_TOKEN" = Some t ∧ t ≠ "") ∧
      (∃ u, env p !! "ANTHROPIC_BASE_URL" = Some u ∧ u ≠ "") ∧
      (∃ m, env p !! "ANTHROPIC_MODEL" = Some m ∧ m ≠ "") ∧
      env p !! "PROVIDER_NAME" = Some (CustomProviderData.providerName data) ∧
      fs = Some (<[slugify (name p) +:+ ".json" := written p]> (default ∅ fs0)) ∧
      mkProfile (name p) (provider p) (env p) (Some (slugify (name p)))
        ∈ Profiles.loadProfiles fs
  | AddProviderForm.TypeError => False
  end.
Proof.
  pose proof (add_provider_inv_run fs0 keys (AddProviderForm.Stays AddProviderForm.mount) fs0)
    as Hinv.
  destruct (AddProviderForm.form_run _ keys) as [n fs]. simpl in Hinv.
  specialize (Hinv ltac:(split; [done|simpl; lia])).
  destruct n as [f| |data|]; try done.
  destruct Hinv as (-> & Hpn & Hid & Hname & Hurl & Htok & Hmodel).
  cbn zeta. split; [done|]. split; [done|]. split; [done|].
  split; [eexists; split; [by simplify_map_eq|done]|].
  split; [eexists; split; [by simplify_map_eq|done]|].
  split; [eexists; split; [by simplify_map_eq|done]|].
  split; [by simplify_map_eq|]. split; [done|].
  apply (saved_profile_listed fs0 (AddProviderForm.custom_profile data)); [done| |done].
  simpl. rewrite Hid. apply is_slug_nonempty, slugify_is_slug.
Qed.

(** ** Switching profiles *)

Lemma switch_key_inv profiles selected runMode k :
  selected < length profiles →
  match CliSwitch.switch_key profiles selected runMode k with
  | CliSwitch.Choosing selected' _ => selected' < length profiles
  | CliSwitch.Launched _ profile => profile ∈ profiles
  | CliSwitch.TypeError => False
  | _ => True
  end.
Proof.
  intros Hsel. unfold CliSwitch.switch_key.
  assert (∀ n, n mod length profiles < length profiles) as Hmod
    by (intros n; apply Nat.mod_upper_bound; lia).
  destruct (lookup_lt_is_Some_2 profiles selected Hsel) as [p Hp]. rewrite Hp.
  repeat case_match; simplify_eq; try done. by eapply list_elem_of_lookup_2.
Qed.

Lemma switch_run_inv profiles keys s :
  match s with
  | CliSwitch.Choosing selected _ => selected < length profiles
  | CliSwitch.Launched _ profile => profile ∈ profiles
  | CliSwitch.TypeError => False
  | _ => True
  end →
  match foldl (λ s k, match s with
                      | CliSwitch.Choosing selected runMode =>
                          CliSwitch.switch_key profiles selected runMode k
                      | _ => s
                      end) s keys with
  | CliSwitch.Choosing selected _ => selected < length profiles
  | CliSwitch.Launched _ profile => profile ∈ profiles
  | CliSwitch.TypeError => False
  | _ => True
  end.
Proof.
  revert s. induction keys as [|k keys IH]; intros s Hs; [done|].
  simpl. apply IH. destruct s as [selected runMode|m p| | |]; try done.
  by apply switch_key_inv.
Qed.

(** X15: [switchProfile] of the later CLI, whatever keys it is fed, only
    ever launches a profile of the listing it loaded, keeps the selected row
    inside that listing and never reads a row that does not exist; when no
    profile is listed it returns at once, without waiting for a key. *)
Theorem switchProfile_launches_listed (fs : Fs) (keys : list Keypress) :
  (Cli.loadProfiles fs = [] → CliSwitch.switchProfile fs keys = CliSwitch.Returned) ∧
  match CliSwitch.switchProfile fs keys with
  | CliSwitch.Choosing selected _ => selected < length (Cli.loadProfiles fs)
  | CliSwitch.Launched _ profile => profile ∈ Cli.loadProfiles fs
  | CliSwitch.TypeError => False
  | CliSwitch.Returned => True
  | CliSwitch.Exited => Cli.loadProfiles fs ≠ []
  end.
Proof.
  unfold CliSwitch.switchProfile. split; [by intros ->|].
  destruct (Cli.loadProfiles fs) as [|p profiles] eqn:E; [done|].
  cbn [length Nat.eqb].
  pose proof (switch_run_inv (p :: profiles) keys (CliSwitch.Choosing 0 CliSwitch.Current))
    as Hinv.
  specialize (Hinv ltac:(simpl; lia)).
  by destruct (foldl _ _ keys).
Qed.

Lemma or_else_empty_r s : or_else s "" = s.
Proof. unfold or_else, truthy. by destruct (String.eqb_spec s "") as [->|]. Qed.

Lemma child_env_lookup processEnv p k v :
  env p !! k = Some v → child_env processEnv p !! k = Some v.
Proof. intros H. unfold child_env. by apply lookup_union_Some_l. Qed.

(** X16: the [current] command recognises a profile that was run in the
    current terminal.  For a listed profile that has a token and a base URL,
    [current] in the child process reports a listed profile with that token
    and that base URL (the first such one), whatever the parent's
    environment held; and a profile that [current] reports always has both
    variables, equal to those of the process. *)
Theorem current_recognises_run_profile (fs : Fs) (processEnv : gmap string string) :
  (∀ p t u,
     p ∈ Cli.loadProfiles fs →
     env p !! "ANTHROPIC_AUTH_TOKEN" = Some t →
     env p !! "ANTHROPIC_BASE_URL" = Some u →
     ∃ q, CliSwitch.current fs (child_env processEnv p) = Some q ∧
          q ∈ Cli.loadProfiles fs ∧
          env q !! "ANTHROPIC_AUTH_TOKEN" = Some t ∧
          env q !! "ANTHROPIC_BASE_URL" = Some u) ∧
  (∀ q, CliSwitch.current fs processEnv = Some q →
        q ∈ Cli.loadProfiles fs ∧
        env q !! "ANTHROPIC_AUTH_TOKEN"
          = Some (default "" (processEnv !! "ANTHROPIC_AUTH_TOKEN")) ∧
        env q !! "ANTHROPIC_BASE_URL"
          = Some (default "" (processEnv !! "ANTHROPIC_BASE_URL"))).
Proof.
  split.
  - intros p t u Hp Ht Hu. unfold CliSwitch.current.
    rewrite (child_env_lookup processEnv p _ t Ht), (child_env_lookup processEnv p _ u Hu).
    simpl. rewrite !or_else_empty_r.
    destruct (find _ (Cli.loadProfiles fs)) as [q|] eqn:E.
    + apply find_some in E as [Hq%list_elem_of_In [H1 H2]%andb_true_iff].
      apply bool_decide_eq_true in H1, H2. by exists q.
    + apply find_none with (x := p) in E; [|by apply list_elem_of_In].
      rewrite !bool_decide_eq_true_2 in E by done. done.
  - intros q E. unfold CliSwitch.current in E.
    apply find_some in E as [Hq%list_elem_of_In [H1 H2]%andb_true_iff].
    apply bool_decide_eq_true in H1, H2. split; [done|].
    rewrite H1, H2. split; f_equal.
    + destruct (processEnv !! "ANTHROPIC_AUTH_TOKEN"); simpl; [apply or_else_empty_r|done].
    + destruct (processEnv !! "ANTHROPIC_BASE_URL"); simpl; [apply or_else_empty_r|done].
Qed.

Lemma current_recognises_run_profile_witness :
  let fs := Some {[ "glm.json" :=
                      Json (mkData (Some "GLM") (Some "glm")
                              (Some {[ "ANTHROPIC_AUTH_TOKEN" := "sk-1";
                                       "ANTHROPIC_BASE_URL" := "https://api.z.ai" ]})) ]} in
  let p := mkProfile "GLM" "glm" {[ "ANTHROPIC_AUTH_TOKEN" := "sk-1";
                                    "ANTHROPIC_BASE_URL" := "https://api.z.ai" ]}
             (Some "glm") in
  ∃ q, CliSwitch.current fs (child_env {[ "ANTHROPIC_AUTH_TOKEN" := "old" ]} p) = Some q ∧
       q ∈ Cli.loadProfiles fs ∧
       env q !! "ANTHROPIC_AUTH_TOKEN" = Some "sk-1" ∧
       env q !! "ANTHROPIC_BASE_URL" = Some "https://api.z.ai".
Proof.
  intros fs p.
  apply (proj1 (current_recognises_run_profile fs {[ "ANTHROPIC_AUTH_TOKEN" := "old" ]})
           p "sk-1" "https://api.z.ai").
  - assert (Cli.loadProfiles fs = [p]) as -> by by vm_compute. apply list_elem_of_here.
  - by vm_compute.
  - by vm_compute.
Defined.

Lemma switch_view_key_inv profiles selected k :
  (profiles = [] ∨ ∃ i, selected = Some i ∧ i < length profiles) →
  match SwitchView.useInput profiles selected k with
  | SwitchView.Stays selected' =>
      profiles = [] ∨ ∃ i, selected' = Some i ∧ i < length profiles
  | SwitchView.Launches p =>
      p ∈ profiles ∧
      (provider p = "claude"
       ∨ ∃ t, env p !! "ANTHROPIC_AUTH_TOKEN" = Some t ∧ t ≠ "")
  | SwitchView.TypeError => False
  | SwitchView.Cancels => True
  end.
Proof.
  intros Hinv. unfold SwitchView.useInput.
  destruct (Ink.escape k || _); [done|].
  destruct (String.eqb (Ink.input k) "q"); [done|].
  assert (∀ a, profiles ≠ [] →
               ∃ i, SwitchView.js_mod (Some a) (length profiles) = Some i
                    ∧ i < length profiles) as Hmod.
  { intros a Hne. destruct profiles as [|p0 profiles]; [done|].
    eexists. split; [done|]. apply Nat.mod_upper_bound. simpl. lia. }
  destruct (_ || Ink.downArrow k).
  { destruct Hinv as [-> | (i & -> & Hi)]; [by left|]. right. apply Hmod.
    intros ->. simpl in Hi. lia. }
  destruct (_ || Ink.upArrow k).
  { destruct Hinv as [-> | (i & -> & Hi)]; [by left|]. right. apply Hmod.
    intros ->. simpl in Hi. lia. }
  destruct (Ink.is_enter k && (0 <? length profiles)) eqn:E; [|done].
  apply andb_true_iff in E as [_ Hlen%Nat.ltb_lt].
  destruct Hinv as [-> | (i & -> & Hi)]; [simpl in Hlen; lia|].
  simpl. destruct (lookup_lt_is_Some_2 profiles i Hi) as [p Hp]. rewrite Hp.
  unfold App.handleSwitch.
  destruct (negb (String.eqb (provider p) "claude")
            && negb (present (env p !! "ANTHROPIC_AUTH_TOKEN"))) eqn:E.
  { right. by exists i. }
  split; [by eapply list_elem_of_lookup_2|].
  apply andb_false_iff in E as [E|E]; apply negb_false_iff in E.
  - left. by apply String.eqb_eq.
  - right. unfold present in E. destruct (env p !! "ANTHROPIC_AUTH_TOKEN") as [t|]; [|done].
    exists t. split; [done|]. by apply truthy_nonempty.
Qed.

(** X17: the switch view of the Ink app, whatever keys it is fed, only ever
    runs a listed profile, and only one that is of provider ["claude"] or has
    a token that is not empty, which the child process then finds in its
    environment; it never hands [undefined] to [handleSwitch], also when the
    listing is empty and [selected] has become NaN. *)
Theorem switch_view_runs_usable_profile (fs : Fs) (keys : list Ink.Key)
    (processEnv : gmap string string) :
  match SwitchView.run fs keys with
  | SwitchView.Stays selected =>
      Profiles.loadProfiles fs = []
      ∨ ∃ i, selected = Some i ∧ i < length (Profiles.loadProfiles fs)
  | SwitchView.Launches p =>
      p ∈ Profiles.loadProfiles fs ∧
      (provider p = "claude"
       ∨ ∃ t, child_env processEnv p !! "ANTHROPIC_AUTH_TOKEN" = Some t ∧ t ≠ "")
  | SwitchView.TypeError => False
  | SwitchView.Cancels => True
  end.
Proof.
  unfold SwitchView.run.
  set (profiles := Profiles.loadProfiles fs).
  assert (∀ n,
    match n with
    | SwitchView.Stays selected =>
        profiles = [] ∨ ∃ i, selected = Some i ∧ i < length profiles
    | SwitchView.Launches p =>
        p ∈ profiles ∧
        (provider p = "claude" ∨ ∃ t, env p !! "ANTHROPIC_AUTH_TOKEN" = Some t ∧ t ≠ "")
    | SwitchView.TypeError => False
    | SwitchView.Cancels => True
    end →
    match foldl (λ n k, match n with
                        | SwitchView.Stays selected =>
                            SwitchView.useInput profiles selected k
                        | _ => n
                        end) n keys with
    | SwitchView.Stays selected =>
        profiles = [] ∨ ∃ i, selected = Some i ∧ i < length profiles
    | SwitchView.Launches p =>
        p ∈ profiles ∧
        (provider p = "claude" ∨ ∃ t, env p !! "ANTHROPIC_AUTH_TOKEN" = Some t ∧ t ≠ "")
    | SwitchView.TypeError => False
    | SwitchView.Cancels => True
    end) as Hrun.
  { induction keys as [|k keys IH]; intros n Hn; [done|].
    simpl. apply IH. destruct n as [selected| |p|]; try done.
    by apply switch_view_key_inv. }
  specialize (Hrun (SwitchView.Stays (Some 0))).
  destruct (foldl _ _ keys) as [selected| |p|]; try (apply Hrun).
  all: try (destruct profiles; [by left|right; exists 0; split; [done|simpl; lia]]).
  destruct Hrun as [Hp Hok].
  { destruct profiles; [by left|right; exists 0; split; [done|simpl; lia]]. }
  split; [done|]. destruct Hok as [?|(t & Ht & Hne)]; [by left|right].
  exists t. split; [by apply child_env_lookup|done].
Qed.

(** ** Overwriting a listed file *)

Lemma sort_overwrite (d : gmap string File) filename f :
  is_Some (d !! filename) →
  sort (readdirSync (<[filename := f]> d)) = sort (readdirSync d).
Proof.
  intros Hin. apply (Sorted_unique String.le); [apply sort_Sorted..|].
  unfold sort. rewrite !merge_sort_Permutation.
  apply NoDup_Permutation; [apply readdirSync_NoDup..|].
  intros x. rewrite !elem_of_readdirSync.
  destruct (decide (x = filename)) as [->|Hne].
  - rewrite lookup_insert_eq. split; [done|eauto].
  - by rewrite lookup_insert_ne.
Qed.

Lemma json_name_inj f g :
  skipped f = false → skipped g = false →
  basename f ".json" = basename g ".json" → f = g.
Proof.
  intros [Hf _]%skipped_false [Hg _]%skipped_false Heq.
  by rewrite <-(basename_ext f ".json" Hf), <-(basename_ext g ".json" Hg), Heq.
Qed.

Lemma listing_overwrite (d : gmap string File) filename data0 data :
  d !! filename = Some (Json data0) → skipped filename = false →
  load_with keyed_profile_of (Some (<[filename := Json data]> d))
  = (λ q, if bool_decide (fileKey q = Some (basename filename ".json"))
          then keyed_profile_of filename data else q)
    <$> load_with keyed_profile_of (Some d).
Proof.
  intros Hd Hs. rewrite !load_with_omap, sort_overwrite by eauto.
  rewrite list_fmap_omap. apply list_omap_ext, Forall2_same_length_lookup_2; [done|].
  intros i f f' Hf Hf'. assert (f' = f) as -> by congruence.
  unfold load_entry. destruct (skipped f) eqn:Hsf; [done|].
  destruct (decide (f = filename)) as [->|Hne].
  - rewrite lookup_insert_eq, Hd. simpl. by rewrite bool_decide_eq_true_2.
  - rewrite lookup_insert_ne by done.
    destruct (d !! f) as [[| |dataf]|]; try done. simpl.
    rewrite bool_decide_eq_false_2; [done|].
    intros [= Heq]. by apply Hne, json_name_inj.
Qed.

Lemma opt_or_else_nonempty a b : b ≠ "" → opt_or_else a b ≠ "".
Proof.
  intros Hb. destruct a as [s|]; [|done]. simpl. unfold or_else.
  destruct (truthy s) eqn:E; [by apply truthy_nonempty|done].
Qed.

(** X18: saving the Ink editor form of a listed profile updates the listing
    in place.  With a token that is not blank, Return (a key that does not
    make [App] end the process) rewrites the file the selected profile was
    read from, so the listing afterwards is the old one with that profile
    replaced, at its position, by the edited one: same file key and provider,
    the name as typed (the old one when left blank), the token trimmed, and
    every variable other than the three of the form kept. *)
Theorem ink_edit_updates_listing_in_place (d : gmap string File) (sel : Profile)
    (ed : Ink.Editor) (app : Ink.App) (k : Ink.Key) :
  sel ∈ Profiles.loadProfiles (Some d) →
  fileKey sel ≠ Some "" →
  Ink.escape k = false → Ink.is_enter k = true →
  Ink.exited (Ink.app_key app k) = false →
  trim (Ink.token (Ink.values ed)) ≠ "" →
  ∃ edited,
    Profiles.loadProfiles (Ink.editing_key sel ed app (Some d) k).2
    = (λ q, if bool_decide (fileKey q = fileKey sel) then edited else q)
      <$> Profiles.loadProfiles (Some d) ∧
    fileKey edited = fileKey sel ∧
    provider edited = provider sel ∧
    name edited = or_else (trim (Ink.profileName (Ink.values ed))) (name sel) ∧
    env edited !! "ANTHROPIC_AUTH_TOKEN" = Some (trim (Ink.token (Ink.values ed))) ∧
    ∀ x, x ∉ ["ANTHROPIC_AUTH_TOKEN"; "ANTHROPIC_BASE_URL"; "ANTHROPIC_MODEL"] →
         env edited !! x = env sel !! x.
Proof.
  intros Hsel Hkey Hesc Henter _ Htoken.
  destruct (listed_lookup d sel Hsel) as (data0 & Hd & Hs & Heq).
  set (filename := profile_filename sel) in *.
  set (key := basename filename ".json").
  assert (fileKey sel = Some key) as Hfk by by rewrite Heq.
  assert (key ≠ "") as Hkne by (intros E; apply Hkey; by rewrite Hfk, E).
  assert (name sel ≠ "") as Hname by (rewrite Heq; by apply opt_or_else_nonempty).
  assert (provider sel ≠ "") as Hprov by (rewrite Heq; by apply opt_or_else_nonempty).
  unfold Ink.editing_key, Ink.editor_key. rewrite Hesc, Henter.
  apply truthy_nonempty in Htoken as Ht. rewrite Ht. cbn [negb].
  unfold Ink.handleOnboardingComplete. cbn [snd Ink.profileName Ink.token Ink.baseUrl Ink.model].
  unfold Ink.existingName. rewrite (or_else_nonempty (name sel)) by done.
  set (name' := or_else (trim (Ink.profileName (Ink.values ed))) (name sel)).
  assert (name' ≠ "") as Hname' by by apply or_else_nonempty_r.
  match goal with
  | |- context [Profiles.saveProfile _ ?p] => set (profile := p)
  end.
  exists (mkProfile name' (provider sel) (env profile) (Some key)).
  assert (Profiles.saveProfile (Some d) profile
          = Some (<[filename := Json (mkData (Some name') (Some (provider sel))
                                        (Some (env profile)))]> d)) as ->.
  { unfold Profiles.saveProfile, fileKey_or. simpl. rewrite Hfk. simpl.
    rewrite or_else_nonempty by done. unfold key.
    rewrite basename_ext; [done|]. by apply skipped_false in Hs as [? _]. }
  split.
  { unfold Profiles.loadProfiles. rewrite (listing_overwrite d filename data0) by done.
    apply list_fmap_ext. intros i q Hq. fold key. rewrite Hfk.
    case_bool_decide; [|done]. unfold keyed_profile_of. simpl. fold key.
    by rewrite (or_else_nonempty name'), (or_else_nonempty (provider sel)). }
  split; [done|]. split; [done|]. split; [done|].
  split; [by simplify_map_eq|].
  intros x Hx. simpl. rewrite !lookup_insert_ne; [done|..]; intros <-; apply Hx; set_solver.
Qed.

Lemma ink_edit_updates_listing_in_place_witness :
  let d := {[ "a.json" := Json (mkData (Some "A") (Some "glm") None);
              "work.json" := Json (mkData (Some "Work") (Some "glm")
                                     (Some {[ "PROVIDER_NAME" := "GLM" ]})) ]} in
  let sel := mkProfile "Work" "glm" {[ "PROVIDER_NAME" := "GLM" ]} (Some "work") in
  let ed := Ink.mkEditor 0 None (Ink.mkData "Renamed" " sk-1 " "" "") in
  let app := Ink.mkApp [Ink.VMain; Ink.VConfigure] 1 (Some (sel, ed)) false false in
  ∃ edited,
    Profiles.loadProfiles (Ink.editing_key sel ed app (Some d) Ink.return_key).2
    = [mkProfile "A" "glm" ∅ (Some "a"); edited] ∧
    fileKey edited = Some "work" ∧ name edited = "Renamed" ∧
    env edited !! "ANTHROPIC_AUTH_TOKEN" = Some "sk-1" ∧
    env edited !! "PROVIDER_NAME" = Some "GLM".
Proof.
  intros d sel ed app.
  assert (Profiles.loadProfiles (Some d) = [mkProfile "A" "glm" ∅ (Some "a"); sel]) as Hlist
    by by vm_compute.
  destruct (ink_edit_updates_listing_in_place d sel ed app Ink.return_key)
    as (edited & Hl & Hk & _ & Hn & Ht & Hframe).
  - rewrite Hlist. apply list_elem_of_further, list_elem_of_here.
  - discriminate.
  - reflexivity.
  - reflexivity.
  - reflexivity.
  - by vm_compute.
  - exists edited. rewrite Hl, Hlist. split; [|split; [done|split; [|split]]].
    + reflexivity.
    + rewrite Hn. by vm_compute.
    + rewrite Ht. by vm_compute.
    + rewrite Hframe; [by vm_compute|].
      intros Hin. repeat (apply elem_of_cons in Hin as [Hin|Hin]; [discriminate|]).
      by apply elem_of_nil in Hin.
Defined.

(** ** The invariant of the flow of src/cli.ts *)

Lemma v1_flow_inv_step pv fs0 st l fs k :
  v1_flow_inv pv fs0 st l fs →
  v1_flow_inv pv fs0 (CliV1Flow.step pv st l fs k).1.1
    (CliV1Flow.step pv st l fs k).1.2 (CliV1Flow.step pv st l fs k).2.
Proof.
  destruct st as [b|b|o b|b|b|o]; simpl; try done;
    intros Hinv; (destruct (prompt_key b k) as [value|b']; simpl; [|done]).
  - done.
  - done.
  - subst fs. by destruct (truthy (trim value)) eqn:E.
  - by destruct Hinv as [-> Ht].
  - destruct Hinv as [-> Ht].
    destruct (CliV1Flow.save_configured pv l (or_else (trim value) "3000000") fs0)
      as [st' fs'] eqn:E. simpl.
    assert (st' = CliV1Flow.Done Saved ∨ (st' = CliV1Flow.Done Crashed ∧ fs' = fs0)) as Hst.
    { unfold CliV1Flow.save_configured in E. destruct (CliV1.saveProfile fs0 _);
        simplify_eq; auto. }
    destruct Hst as [-> | [-> ->]]; simpl; [|done]. eauto.
Qed.

Lemma v1_flow_inv_run pv fs0 keys st l fs :
  v1_flow_inv pv fs0 st l fs →
  v1_flow_inv pv fs0 (CliV1Flow.run pv (st, l, fs) keys).1.1
    (CliV1Flow.run pv (st, l, fs) keys).1.2 (CliV1Flow.run pv (st, l, fs) keys).2.
Proof.
  revert st l fs. induction keys as [|k keys IH]; intros st l fs Hinv; [done|].
  change (CliV1Flow.run pv (st, l, fs) (k :: keys))
    with (CliV1Flow.run pv (CliV1Flow.step pv st l fs k) keys).
  pose proof (v1_flow_inv_step pv fs0 st l fs k Hinv) as Hstep.
  destruct (CliV1Flow.step pv st l fs k) as [[st1 l1] fs1]. by apply IH.
Qed.

(** X19: whatever keys it is fed, [configureProvider] of src/cli.ts touches
    the profiles directory only by its final save, with a token that is not
    blank (stored trimmed).  The save goes to the profile that
    [getProfile(provider.id)] finds, which matches by provider or by name:
    that profile keeps its name, its provider and its other variables, and
    the file written is named after its provider; when none is found, the
    file is named after the provider id.  A run that ends any other way, or
    is still waiting, leaves the directory as it was. *)
Theorem v1_configureProvider_saves_found_profile (pv : Provider.t) (fs0 : Fs)
    (keys : list Keypress) :
  let '(stage, l, fs) := CliV1Flow.configureProvider pv fs0 keys in
  match stage with
  | CliV1Flow.Done Saved =>
      ∃ d e,
        fs0 = Some d ∧
        trim (CliV1Flow.authToken l) ≠ "" ∧
        e !! "ANTHROPIC_AUTH_TOKEN" = Some (trim (CliV1Flow.authToken l)) ∧
        match CliV1.getProfile fs0 (Provider.id pv) with
        | Some existing =>
            fs = Some (<[provider existing +:+ ".json" :=
                           Json (mkData (Some (name existing)) (Some (provider existing))
                                   (Some e))]> d) ∧
            ∀ x, x ∉ ["ANTHROPIC_AUTH_TOKEN"; "ANTHROPIC_BASE_URL"; "ANTHROPIC_MODEL";
                      "API_TIMEOUT_MS"; "CLAUDE_CODE_DISABLE_NONESSENTIAL_TRAFFIC"] →
                 e !! x = env existing !! x
        | None =>
            fs = Some (<[Provider.id pv +:+ ".json" :=
                           Json (mkData (Some (Provider.name pv)) (Some (Provider.id pv))
                                   (Some e))]> d) ∧
            ∀ x, x ∉ ["ANTHROPIC_AUTH_TOKEN"; "ANTHROPIC_BASE_URL"; "ANTHROPIC_MODEL";
                      "API_TIMEOUT_MS"; "CLAUDE_CODE_DISABLE_NONESSENTIAL_TRAFFIC"] →
                 e !! x = None
        end
  | _ => fs = fs0
  end.
Proof.
  pose proof (v1_flow_inv_run pv fs0 keys (CliV1Flow.start pv).1 (CliV1Flow.start pv).2 fs0
                eq_refl) as Hinv.
  change ((CliV1Flow.start pv).1, (CliV1Flow.start pv).2, fs0)
    with (CliV1Flow.start pv, fs0) in Hinv.
  fold (CliV1Flow.configureProvider pv fs0 keys) in Hinv.
  destruct (CliV1Flow.configureProvider pv fs0 keys) as [[stage l] fs]. simpl in Hinv.
  destruct stage as [b|b|o b|b|b|[]]; simpl in Hinv; try done; try by destruct Hinv.
  destruct Hinv as (Ht & timeout & Hsave).
  unfold CliV1Flow.save_configured, CliV1.saveProfile in Hsave.
  destruct fs0 as [d|]; [|done]. injection Hsave as <-.
  apply truthy_nonempty in Ht.
  destruct (CliV1.getProfile (Some d) (Provider.id pv)) as [existing|]; simpl.
  - exists d. eexists. split; [done|]. split; [done|].
    split; [apply merge_env_token|]. split; [done|].
    intros x Hx. by apply merge_env_frame.
  - exists d. eexists. split; [done|]. split; [done|].
    split; [apply merge_env_token|]. split; [done|].
    intros x Hx. by rewrite merge_env_frame.
Qed.

(** ** The Ink views at work *)

(** Two profiles, of a custom provider and of ["claude"]: Down, [d], [y]
    removes the first; Down, Down, [d], [y] leaves the second in place. *)
Example configure_view_removes_custom_only :
  let a := Json (mkData (Some "A") (Some "glm") None) in
  let c := Json (mkData (Some "C") (Some "claude") None) in
  let fs := Some {[ "a.json" := a; "c.json" := c ]} in
  ConfigureView.run (ConfigureView.Stays ConfigureView.mount, fs)
    [ink_down; ink_char "d"; ink_char "y"]
  = (ConfigureView.Stays ConfigureView.mount, Some {[ "c.json" := c ]}) ∧
  ConfigureView.run (ConfigureView.Stays ConfigureView.mount, fs)
    [ink_down; ink_down; ink_char "d"; ink_char "Y"]
  = (ConfigureView.Stays ConfigureView.mount, fs).
Proof. split; by vm_compute. Qed.

(** Provider name, Tab, Tab, base URL, Tab, Tab, token, Return: the form
    completes and the new profile is saved under the slug of its name. *)
Example add_provider_form_completes :
  (AddProviderForm.form_run (AddProviderForm.Stays AddProviderForm.mount, None)
     ([ink_char "M"; ink_char "y"; ink_char " "; ink_char "X"; ink_tab; ink_tab;
       ink_char "u"; ink_tab; ink_tab; ink_char "t"; Ink.return_key])).2
  = Some {[ "my-x.json" :=
              Json (mkData (Some "My X") (Some "my-x")
                      (Some {[ "ANTHROPIC_AUTH_TOKEN" := "t";
                               "ANTHROPIC_BASE_URL" := "u";
                               "ANTHROPIC_MODEL" := "model";
                               "PROVIDER_NAME" := "My X";
                               "PROVIDER_AUTH_URL" := "";
                               "PROVIDER_AUTH_INSTRUCTIONS" := "" ]})) ]}.
Proof. by vm_compute. Qed.

(** Without profiles, Down makes [selected] NaN and Return does nothing. *)
Example switch_view_nan :
  SwitchView.run None [ink_down; Ink.return_key] = SwitchView.Stays None.
Proof. by vm_compute. Qed.
